(** * Lifecycle orchestration of OpenStack machines: pkg/driver/executor/executor.go

    A shallow embedding of the executor of the machine-controller-manager
    OpenStack provider, and the properties its specification states about it.

    The executor talks to the cloud through two capability interfaces
    ([client.Compute], [client.Network]).  They are embedded as records of
    state transformers over an arbitrary provider state [W]; every request
    the executor issues is also appended to a trace, so that statements such
    as "no port is created" or "three status queries" can be made about any
    implementation of the interfaces. *)

From Stdlib Require Import ZArith Lia Ascii String.
From stdpp Require Import base option list strings gmap.

Local Open Scope string_scope.
Local Open Scope list_scope.

(** ** Errors

    Go's [error] values as the executor builds and inspects them: sentinel
    values compared by identity, errors handed back by the client, and
    [fmt.Errorf] results.  A format string is kept as the sequence of its
    literal pieces and verbs with their operands, which is what [Error] and
    [Unwrap] read. *)

(** servers.Fault (the creation timestamp is left out). *)
Record Fault : Type := {
  Fault_Code : Z;
  Fault_Message : string;
  Fault_Details : string;
}.

Inductive sentinel : Type :=
| NotFound        (* executor.ErrNotFound *)
| MultipleFound   (* executor.ErrMultipleFound *)
| WaitTimeout.    (* wait.ErrWaitTimeout, what wait.Poll returns at its deadline *)

Inductive error : Type :=
| Sentinel (s : sentinel)
| ClientError (notFound : bool) (msg : string)
| Errorf (format : list verb)
with verb : Type :=
| Lit (text : string)
| VerbQ (s : string)         (* %q of a string *)
| VerbS (e : error)          (* %s of an error *)
| VerbV (e : error)          (* %v of an error *)
| VerbW (e : error)          (* %w of an error *)
| VerbPlusV (f : Fault).     (* %+v of a fault *)

Definition ErrNotFound : error := Sentinel NotFound.
Definition ErrMultipleFound : error := Sentinel MultipleFound.
Definition ErrWaitTimeout : error := Sentinel WaitTimeout.

Definition sentinel_eqb (a b : sentinel) : bool :=
  match a, b with
  | NotFound, NotFound | MultipleFound, MultipleFound | WaitTimeout, WaitTimeout => true
  | _, _ => false
  end.

(** [err == target] of errors.Is: the targets the executor passes are
    sentinels, which are equal to themselves only. *)
Definition same_error (err target : error) : bool :=
  match err, target with
  | Sentinel a, Sentinel b => sentinel_eqb a b
  | _, _ => false
  end.

(** The operand of the first %w of a format: what Unwrap returns. *)
Fixpoint wrapped (format : list verb) : option error :=
  match format with
  | [] => None
  | VerbW e :: _ => Some e
  | _ :: rest => wrapped rest
  end.

(** errors.Is: walks the Unwrap chain. *)
Fixpoint errors_Is (err target : error) {struct err} : bool :=
  same_error err target ||
  match err with
  | Errorf format =>
      (fix chain (vs : list verb) : bool :=
         match vs with
         | [] => false
         | VerbW e :: _ => errors_Is e target
         | _ :: rest => chain rest
         end) format
  | _ => false
  end.

(** Modelled from the spec: client.IsNotFoundError is not among the listed
    sources; section 6 gives both capabilities "a distinguishable not-found
    error kind", carried here by the flag of [ClientError]. *)
Definition IsNotFoundError (err : error) : bool :=
  match err with
  | ClientError notFound _ => notFound
  | _ => false
  end.

(** Go's [(T, error)] results and plain [error] results. *)
Inductive result (A : Type) : Type :=
| Ok (a : A)
| Err (e : error).
Arguments Ok {A} a.
Arguments Err {A} e.

(** *** The text of an error

    [Error] is the message of an error.  The renderings that belong to Go's
    standard library or to packages outside the executor are parameters:
    strconv.Quote for %q, the %+v rendering of a fault, and the messages of
    the sentinels. *)
Section ErrorText.
Variable quote : string → string.
Variable showFault : Fault → string.
Variable sentinelText : sentinel → string.

Fixpoint Error (err : error) : string :=
  match err with
  | Sentinel s => sentinelText s
  | ClientError _ msg => msg
  | Errorf format =>
      (fix render (vs : list verb) : string :=
         match vs with
         | [] => ""
         | v :: rest =>
             match v with
             | Lit text => text
             | VerbQ s => quote s
             | VerbS e | VerbV e | VerbW e => Error e
             | VerbPlusV f => showFault f
             end +:+ render rest
         end) format
  end.
End ErrorText.

(** strings.Contains on the message: [sub] occurs in [s]. *)
Definition occurs_in (sub s : string) : Prop :=
  ∃ before after : string, s = before +:+ sub +:+ after.

(** ** Data model *)

Module servers.
(** servers.Network: one attachment of a create request. *)
Record Network : Type := {
  UUID : string;
  Port : string;
}.

Record Server : Type := {
  ID : string;
  Name : string;
  Status : string;
  Metadata : gmap string string;
  Fault : Fault;
}.

Record ListOpts : Type := {
  ListOpts_Name : string;
}.

Record CreateOpts : Type := {
  CreateOpts_Name : string;
  FlavorRef : string;
  ImageRef : string;
  Networks : list Network;
  SecurityGroups : list string;
  CreateOpts_Metadata : gmap string string;
  UserData : list Byte.byte;
  AvailabilityZone : string;
  ConfigDrive : option bool;
}.
End servers.

Module bootfromvolume.
Record BlockDevice : Type := {
  UUID : string;
  VolumeSize : Z;
  BootIndex : Z;
  DeleteOnTermination : bool;
  SourceType : string;
  DestinationType : string;
}.
End bootfromvolume.

(** servers.CreateOptsBuilder with the three extensions the executor layers
    on the base request. *)
Inductive CreateOptsBuilder : Type :=
| servers_CreateOpts (opts : servers.CreateOpts)
| keypairs_CreateOptsExt (inner : CreateOptsBuilder) (KeyName : string)
| schedulerhints_CreateOptsExt (inner : CreateOptsBuilder) (Group : string)
| bootfromvolume_CreateOptsExt (inner : CreateOptsBuilder)
    (BlockDevice : list bootfromvolume.BlockDevice).

Module ports.
Record IP : Type := { SubnetID : string }.
Record AddressPair : Type := { IPAddress : string }.

Record Port : Type := {
  ID : string;
  NetworkID : string;
  AllowedAddressPairs : list AddressPair;
}.

Record CreateOpts : Type := {
  CreateOpts_Name : string;
  CreateOpts_NetworkID : string;
  FixedIPs : list IP;
  CreateOpts_AllowedAddressPairs : list AddressPair;
  SecurityGroups : option (list string);
}.

Record UpdateOpts : Type := {
  UpdateOpts_AllowedAddressPairs : option (list AddressPair);
}.

Record ListOpts : Type := { DeviceID : string }.
End ports.

Module api.
(** An entry of Spec.Networks. *)
Record OpenStackNetwork : Type := {
  Id : string;
  Name : string;
  PodNetwork : bool;
}.

(** MachineProviderConfig.Spec.  [Tags] is a Go map that the executor
    ranges over; it is kept as the list of its entries in the order the
    range statement of the run at hand visits them. *)
Record MachineProviderConfigSpec : Type := {
  Region : string;
  NetworkID : string;
  SubnetID : option string;
  Networks : list OpenStackNetwork;
  SecurityGroups : list string;
  PodNetworkCidr : string;
  Tags : list (string * string);
  KeyName : string;
  ImageName : string;
  ImageID : string;
  FlavorName : string;
  AvailabilityZone : string;
  RootDiskSize : Z;
  UseConfigDrive : option bool;
  ServerGroupID : option string;
}.
End api.

(** Package client: the two capability interfaces, as state transformers
    over the provider state [W]. *)
Module client.
(** Modelled from the spec: the status constants of package client are not
    among the listed sources; section 3 names the statuses BUILD, ACTIVE,
    ERROR and DELETED. *)
Definition ServerStatusBuild : string := "BUILD".
Definition ServerStatusActive : string := "ACTIVE".
Definition ServerStatusError : string := "ERROR".
Definition ServerStatusDeleted : string := "DELETED".

Record Compute (W : Type) : Type := {
  CreateServer : CreateOptsBuilder → W → result servers.Server * W;
  BootFromVolume : CreateOptsBuilder → W → result servers.Server * W;
  GetServer : string → W → result servers.Server * W;
  ListServers : servers.ListOpts → W → result (list servers.Server) * W;
  DeleteServer : string → W → option error * W;
  ImageIDFromName : string → W → result string * W;
  FlavorIDFromName : string → W → result string * W;
}.

Record Network (W : Type) : Type := {
  GetSubnet : string → W → result string * W;
  CreatePort : ports.CreateOpts → W → result ports.Port * W;
  ListPorts : ports.ListOpts → W → result (list ports.Port) * W;
  UpdatePort : string → ports.UpdateOpts → W → option error * W;
  DeletePort : string → W → option error * W;
  NetworkIDFromName : string → W → result string * W;
  GroupIDFromName : string → W → result string * W;
  PortIDFromName : string → W → result string * W;
}.

Arguments CreateServer {W} _ _ _.
Arguments BootFromVolume {W} _ _ _.
Arguments GetServer {W} _ _ _.
Arguments ListServers {W} _ _ _.
Arguments DeleteServer {W} _ _ _.
Arguments ImageIDFromName {W} _ _ _.
Arguments FlavorIDFromName {W} _ _ _.
Arguments GetSubnet {W} _ _ _.
Arguments CreatePort {W} _ _ _.
Arguments ListPorts {W} _ _ _.
Arguments UpdatePort {W} _ _ _ _.
Arguments DeletePort {W} _ _ _.
Arguments NetworkIDFromName {W} _ _ _.
Arguments GroupIDFromName {W} _ _ _.
Arguments PortIDFromName {W} _ _ _.
End client.

(** The requests of the two interfaces, as recorded in the trace. *)
Inductive Call : Type :=
| CallCreateServer (opts : CreateOptsBuilder)
| CallBootFromVolume (opts : CreateOptsBuilder)
| CallGetServer (id : string)
| CallListServers (opts : servers.ListOpts)
| CallDeleteServer (id : string)
| CallImageIDFromName (name : string)
| CallFlavorIDFromName (name : string)
| CallGetSubnet (id : string)
| CallCreatePort (opts : ports.CreateOpts)
| CallListPorts (opts : ports.ListOpts)
| CallUpdatePort (id : string) (opts : ports.UpdateOpts)
| CallDeletePort (id : string)
| CallNetworkIDFromName (name : string)
| CallGroupIDFromName (name : string)
| CallPortIDFromName (name : string).

(** ** The executor monad: provider state and the trace of requests *)

Definition M (W A : Type) : Type := W * list Call → A * (W * list Call).

Definition ret {W A} (a : A) : M W A := λ st, (a, st).

Definition bind {W A B} (m : M W A) (k : A → M W B) : M W B :=
  λ st, let (a, st') := m st in k a st'.

(** One request to a capability: runs it on the provider state and records
    it at the end of the trace. *)
Definition request {W A} (c : Call) (f : W → A * W) : M W A :=
  λ st, let (a, w') := f st.1 in (a, (w', st.2 ++ [c])).

Notation "'let*' x ':=' m 'in' k" := (bind m (λ x, k))
  (at level 10, x name, m at level 100, k at level 200).

(** ** Package-level helpers outside the listed sources

    The executor calls a few helpers and constants of its own repository
    that the listed sources do not contain.  They are parameters of the
    embedding; [ProviderIDFormat] below gives the identifier functions the
    specification describes. *)
Class Utils : Type := {
  (** isEmptyString(ptr *string) *)
  isEmptyString : option string → bool;
  EncodeProviderID : string → string → string;
  DecodeProviderID : string → string;
  (** cloudprovider.ServerTagClusterPrefix, cloudprovider.ServerTagRolePrefix *)
  ServerTagClusterPrefix : string;
  ServerTagRolePrefix : string;
}.

(** Modelled from the spec: strSliceContains is not among the listed sources;
    section 4.3 reads its uses as "the status is in the set". *)
Definition strSliceContains (haystack : list string) (needle : string) : bool :=
  existsb (String.eqb needle) haystack.

(** strings.HasPrefix and strings.Contains. *)
Definition strings_HasPrefix (s prefix : string) : bool := String.prefix prefix s.

Fixpoint strings_Contains (s substr : string) : bool :=
  String.prefix substr s ||
  match s with
  | EmptyString => false
  | String _ rest => strings_Contains rest substr
  end.

(** [*p] for a string pointer.  The executor dereferences a pointer only
    after isEmptyString returned false for it. *)
Definition deref (p : option string) : string := default "" p.

(** wait.Poll(interval, timeout, condition), by the number of times the
    condition can run before the deadline: an error of the condition ends
    the wait with that error, [done] ends it with success, and running out
    of ticks returns the timeout error. *)
Fixpoint Poll {W} (ticks : nat) (condition : M W (bool * option error)) : M W (option error) :=
  match ticks with
  | O => ret (Some ErrWaitTimeout)
  | S ticks' =>
      let* r := condition in
      match r with
      | (_, Some err) => ret (Some err)
      | (true, None) => ret None
      | (false, None) => Poll ticks' condition
      end
  end.

(** ** The executor *)

Record Executor (W : Type) : Type := {
  Compute : client.Compute W;
  Network : client.Network W;
  (** Config.Spec *)
  Config : api.MachineProviderConfigSpec;
}.
Arguments Compute {W} _.
Arguments Network {W} _.
Arguments Config {W} _.

Section Executor.
Context {W : Type} `{Utils}.
Implicit Types (ex : Executor W) (machineName serverID providerID : string).

(** *** Network resolver *)

(** The loop of computeServerNetworks over Spec.SecurityGroups. *)
Fixpoint resolveSecurityGroups ex (groups : list string) (securityGroupIDs : list string)
  : M W (result (list string)) :=
  match groups with
  | [] => ret (Ok securityGroupIDs)
  | securityGroup :: rest =>
      let* r := request (CallGroupIDFromName securityGroup)
                  (client.GroupIDFromName (Network ex) securityGroup) in
      match r with
      | Err err => ret (Err err)
      | Ok securityGroupID =>
          resolveSecurityGroups ex rest (securityGroupIDs ++ [securityGroupID])
      end
  end.

(** The loop of computeServerNetworks over Spec.Networks. *)
Fixpoint resolveNetworks ex (networks : list api.OpenStackNetwork)
    (serverNetworks : list servers.Network) : M W (result (list servers.Network)) :=
  match networks with
  | [] => ret (Ok serverNetworks)
  | network :: rest =>
      if isEmptyString (Some (api.Id network)) then
        let* r := request (CallNetworkIDFromName (api.Name network))
                    (client.NetworkIDFromName (Network ex) (api.Name network)) in
        match r with
        | Err err => ret (Err err)
        | Ok resolvedNetworkID =>
            resolveNetworks ex rest
              (serverNetworks ++ [{| servers.UUID := resolvedNetworkID; servers.Port := "" |}])
        end
      else
        resolveNetworks ex rest
          (serverNetworks ++ [{| servers.UUID := api.Id network; servers.Port := "" |}])
  end.

(** The port request of the first path of computeServerNetworks. *)
Definition portCreateOpts ex machineName (securityGroupIDs : list string) : ports.CreateOpts :=
  {| ports.CreateOpts_Name := machineName;
     ports.CreateOpts_NetworkID := api.NetworkID (Config ex);
     ports.FixedIPs := [{| ports.SubnetID := deref (api.SubnetID (Config ex)) |}];
     ports.CreateOpts_AllowedAddressPairs :=
       [{| ports.IPAddress := api.PodNetworkCidr (Config ex) |}];
     ports.SecurityGroups := Some securityGroupIDs |}.

Definition computeServerNetworks ex machineName : M W (result (list servers.Network)) :=
  let networkID := api.NetworkID (Config ex) in
  let subnetID := api.SubnetID (Config ex) in
  let networks := api.Networks (Config ex) in
  let serverNetworks : list servers.Network := [] in
  if negb (isEmptyString (Some networkID)) && negb (isEmptyString subnetID) then
    let* r := request (CallGetSubnet (deref subnetID))
                (client.GetSubnet (Network ex) (deref subnetID)) in
    match r with
    | Err err => ret (Err err)
    | Ok _ =>
        let* r := resolveSecurityGroups ex (api.SecurityGroups (Config ex)) [] in
        match r with
        | Err err => ret (Err err)
        | Ok securityGroupIDs =>
            let* r := request (CallCreatePort (portCreateOpts ex machineName securityGroupIDs))
                        (client.CreatePort (Network ex)
                           (portCreateOpts ex machineName securityGroupIDs)) in
            match r with
            | Err err => ret (Err err)
            | Ok port =>
                ret (Ok (serverNetworks ++
                           [{| servers.UUID := api.NetworkID (Config ex);
                               servers.Port := ports.ID port |}]))
            end
        end
    end
  else if negb (isEmptyString (Some networkID)) then
    ret (Ok (serverNetworks ++
               [{| servers.UUID := api.NetworkID (Config ex); servers.Port := "" |}]))
  else
    resolveNetworks ex networks serverNetworks.

(** The loop of computePodNetworkIDs over Spec.Networks: only the entries
    flagged PodNetwork are resolved and inserted. *)
Fixpoint resolvePodNetworks ex (networks : list api.OpenStackNetwork)
    (networkIDs : gset string) : M W (result (gset string)) :=
  match networks with
  | [] => ret (Ok networkIDs)
  | network :: rest =>
      if api.PodNetwork network then
        if isEmptyString (Some (api.Id network)) then
          let* r := request (CallNetworkIDFromName (api.Name network))
                      (client.NetworkIDFromName (Network ex) (api.Name network)) in
          match r with
          | Err err => ret (Err err)
          | Ok resolvedNetworkID =>
              resolvePodNetworks ex rest ({[resolvedNetworkID]} ∪ networkIDs)
          end
        else
          resolvePodNetworks ex rest ({[api.Id network]} ∪ networkIDs)
      else
        resolvePodNetworks ex rest networkIDs
  end.

(** The first statement of computePodNetworkIDs: the set of network ids. *)
Definition podNetworkIDs ex : M W (result (gset string)) :=
  let networkID := api.NetworkID (Config ex) in
  let networks := api.Networks (Config ex) in
  let networkIDs : gset string := ∅ in
  if negb (isEmptyString (Some networkID)) then
    ret (Ok ({[networkID]} ∪ networkIDs))
  else
    resolvePodNetworks ex networks networkIDs.

(** The loop of computePodNetworkIDs over the ports of the server. *)
Definition portsOnNetworks (networkIDs : gset string) (serverPorts : list ports.Port)
  : list ports.Port :=
  List.filter (λ port, bool_decide (ports.NetworkID port ∈ networkIDs)) serverPorts.

Definition computePodNetworkIDs ex serverID : M W (result (list ports.Port)) :=
  let* r := podNetworkIDs ex in
  match r with
  | Err err => ret (Err err)
  | Ok networkIDs =>
      let* r := request (CallListPorts {| ports.DeviceID := serverID |})
                  (client.ListPorts (Network ex) {| ports.DeviceID := serverID |}) in
      match r with
      | Err err => ret (Err (Errorf [Lit "failed to get ports: "; VerbV err]))
      | Ok serverPorts =>
          if (length serverPorts =? 0)%nat then
            ret (Err (Errorf [Lit "got an empty port list for server "; VerbQ serverID]))
          else
            let result := portsOnNetworks networkIDs serverPorts in
            if (length result =? 0)%nat then
              ret (Err (Errorf [Lit "no port candidates found for pod network"]))
            else
              ret (Ok result)
      end
  end.

(** *** Status poller *)

(** The condition function waitForStatus hands to wait.Poll. *)
Definition statusCondition ex serverID (pending target : list string)
  : M W (bool * option error) :=
  let* r := request (CallGetServer serverID) (client.GetServer (Compute ex) serverID) in
  match r with
  | Err err =>
      if IsNotFoundError err && strSliceContains target client.ServerStatusDeleted then
        ret (true, None)
      else
        ret (false, Some err)
  | Ok current =>
      if strSliceContains target (servers.Status current) then
        ret (true, None)
      else if (length pending =? 0)%nat || strSliceContains pending (servers.Status current) then
        ret (false, None)
      else
        let retErr :=
          Errorf [Lit "server [ID="; VerbQ serverID; Lit "] reached unexpected status ";
                  VerbQ (servers.Status current)] in
        let retErr :=
          if String.eqb (servers.Status current) client.ServerStatusError then
            Errorf [VerbS retErr; Lit ", fault: "; VerbPlusV (servers.Fault current)]
          else retErr in
        ret (false, Some retErr)
  end.

(** wait.Poll(time.Second, secs * time.Second, condition): with a period
    of one second the condition runs at most [secs] times. *)
Definition waitForStatus ex serverID (pending target : list string) (secs : Z)
  : M W (option error) :=
  Poll (Z.to_nat secs) (statusCondition ex serverID pending target).

(** *** Instance provisioner *)

Definition resourceInstanceBlockDevicesV2 (rootDiskSize : Z) (imageID : string)
  : result (list bootfromvolume.BlockDevice) :=
  Ok [{| bootfromvolume.UUID := imageID;
         bootfromvolume.VolumeSize := rootDiskSize;
         bootfromvolume.BootIndex := 0;
         bootfromvolume.DeleteOnTermination := true;
         bootfromvolume.SourceType := "image";
         bootfromvolume.DestinationType := "volume" |}].

Definition deployServer ex machineName (userData : list Byte.byte)
    (nws : list servers.Network) : M W (result servers.Server) :=
  let keyName := api.KeyName (Config ex) in
  let imageName := api.ImageName (Config ex) in
  let imageID := api.ImageID (Config ex) in
  let securityGroups := api.SecurityGroups (Config ex) in
  let availabilityZone := api.AvailabilityZone (Config ex) in
  let metadata := api.Tags (Config ex) in
  let rootDiskSize := api.RootDiskSize (Config ex) in
  let useConfigDrive := api.UseConfigDrive (Config ex) in
  let flavorName := api.FlavorName (Config ex) in
  let* r := (if negb (String.eqb imageID "") then ret (Ok imageID)
             else
               let* r := request (CallImageIDFromName imageName)
                           (client.ImageIDFromName (Compute ex) imageName) in
               match r with
               | Err err =>
                   ret (Err (Errorf [Lit "error resolving image ID from image name ";
                                     VerbQ imageName; Lit ": "; VerbV err]))
               | Ok imageRef => ret (Ok imageRef)
               end) in
  match r with
  | Err err => ret (Err err)
  | Ok imageRef =>
      let* r := request (CallFlavorIDFromName flavorName)
                  (client.FlavorIDFromName (Compute ex) flavorName) in
      match r with
      | Err err =>
          ret (Err (Errorf [Lit "error resolving flavor ID from flavor name ";
                            VerbQ imageName; Lit ": "; VerbV err]))
      | Ok flavorRef =>
          let createOpts :=
            servers_CreateOpts
              {| servers.CreateOpts_Name := machineName;
                 servers.FlavorRef := flavorRef;
                 servers.ImageRef := imageRef;
                 servers.Networks := nws;
                 servers.SecurityGroups := securityGroups;
                 servers.CreateOpts_Metadata := list_to_map metadata;
                 servers.UserData := userData;
                 servers.AvailabilityZone := availabilityZone;
                 servers.ConfigDrive := useConfigDrive |} in
          let createOpts := keypairs_CreateOptsExt createOpts keyName in
          let createOpts :=
            match api.ServerGroupID (Config ex) with
            | Some group => schedulerhints_CreateOptsExt createOpts group
            | None => createOpts
            end in
          if (0 <? rootDiskSize)%Z then
            match resourceInstanceBlockDevicesV2 rootDiskSize imageRef with
            | Err err => ret (Err err)
            | Ok blockDevices =>
                let createOpts := bootfromvolume_CreateOptsExt createOpts blockDevices in
                request (CallBootFromVolume createOpts)
                  (client.BootFromVolume (Compute ex) createOpts)
            end
          else
            request (CallCreateServer createOpts)
              (client.CreateServer (Compute ex) createOpts)
      end
  end.

(** The loop of patchServerPortsForPodNetwork. *)
Fixpoint updatePorts ex (podNetworkPorts : list ports.Port) : M W (option error) :=
  match podNetworkPorts with
  | [] => ret None
  | port :: rest =>
      let opts :=
        {| ports.UpdateOpts_AllowedAddressPairs :=
             Some [{| ports.IPAddress := api.PodNetworkCidr (Config ex) |}] |} in
      let* err := request (CallUpdatePort (ports.ID port) opts)
                    (client.UpdatePort (Network ex) (ports.ID port) opts) in
      match err with
      | Some err =>
          ret (Some (Errorf [Lit "failed to update allowed address pair for port [ID=";
                             VerbQ (ports.ID port); Lit "]: "; VerbV err]))
      | None => updatePorts ex rest
      end
  end.

Definition patchServerPortsForPodNetwork ex serverID : M W (option error) :=
  let* r := computePodNetworkIDs ex serverID in
  match r with
  | Err err => ret (Some err)
  | Ok podNetworkPorts => updatePorts ex podNetworkPorts
  end.

(** *** Instance locator *)

Definition getMachineByProviderID ex providerID : M W (result servers.Server) :=
  let serverID := DecodeProviderID providerID in
  if isEmptyString (Some serverID) then
    ret (Err (Errorf [Lit "could not parse serverID from providerID "; VerbQ providerID]))
  else
    let* r := request (CallGetServer serverID) (client.GetServer (Compute ex) serverID) in
    match r with
    | Err err =>
        if IsNotFoundError err then
          ret (Err (Errorf [Lit "could not find server [ID="; VerbQ serverID; Lit "]: ";
                            VerbW ErrNotFound]))
        else ret (Err err)
    | Ok server =>
        let '(searchClusterName, searchNodeRole) :=
          fold_left
            (λ '(searchClusterName, searchNodeRole) '(key, _),
               if strings_Contains key ServerTagClusterPrefix then (key, searchNodeRole)
               else if strings_Contains key ServerTagRolePrefix then (searchClusterName, key)
               else (searchClusterName, searchNodeRole))
            (api.Tags (Config ex)) ("", "") in
        match servers.Metadata server !! searchClusterName with
        | Some _ =>
            match servers.Metadata server !! searchNodeRole with
            | Some _ => ret (Ok server)
            | None =>
                ret (Err (Errorf [Lit "could not find server [ID="; VerbQ serverID;
                                  Lit "]: "; VerbW ErrNotFound]))
            end
        | None =>
            ret (Err (Errorf [Lit "could not find server [ID="; VerbQ serverID;
                              Lit "]: "; VerbW ErrNotFound]))
        end
    end.

Definition getMachineByName ex machineName : M W (result servers.Server) :=
  let '(searchClusterName, searchNodeRole) :=
    fold_left
      (λ '(searchClusterName, searchNodeRole) '(key, _),
         if strings_Contains key ServerTagClusterPrefix then (key, searchNodeRole)
         else if strings_Contains key ServerTagRolePrefix then (searchClusterName, key)
         else (searchClusterName, searchNodeRole))
      (api.Tags (Config ex)) ("", "") in
  if String.eqb searchClusterName "" || String.eqb searchNodeRole "" then
    ret (Err (Errorf [Lit "getMachineByName operation can not proceed: cluster/role tags are missing for machine [Name=";
                      VerbQ machineName; Lit "]"]))
  else
    let* r := request (CallListServers {| servers.ListOpts_Name := machineName |})
                (client.ListServers (Compute ex) {| servers.ListOpts_Name := machineName |}) in
    match r with
    | Err err => ret (Err err)
    | Ok listedServers =>
        let matchingServers :=
          List.filter
            (λ server,
               if String.eqb (servers.Name server) machineName then
                 match servers.Metadata server !! searchClusterName with
                 | Some _ =>
                     match servers.Metadata server !! searchNodeRole with
                     | Some _ => true
                     | None => false
                     end
                 | None => false
                 end
               else false)
            listedServers in
        if (1 <? length matchingServers)%nat then
          ret (Err (Errorf [Lit "failed to find server [Name="; VerbQ machineName; Lit "]: ";
                            VerbW ErrMultipleFound]))
        else
          (* len(matchingServers) == 0, else &matchingServers[0] *)
          match matchingServers with
          | [] =>
              ret (Err (Errorf [Lit "failed to find server [Name="; VerbQ machineName;
                                Lit "]: "; VerbW ErrNotFound]))
          | server :: _ => ret (Ok server)
          end
    end.

(** *** Delete *)

Definition deletePort ex machineName : M W (option error) :=
  let* r := request (CallPortIDFromName machineName)
              (client.PortIDFromName (Network ex) machineName) in
  match r with
  | Err err =>
      if IsNotFoundError err then ret None
      else ret (Some (Errorf [Lit "error deleting port with name "; VerbQ machineName;
                              Lit ": "; VerbS err]))
  | Ok portID =>
      let* err := request (CallDeletePort portID) (client.DeletePort (Network ex) portID) in
      match err with
      | Some err => ret (Some err)
      | None => ret None
      end
  end.

Definition DeleteMachine ex machineName providerID : M W (option error) :=
  let* r := (if isEmptyString (Some providerID) then getMachineByName ex machineName
             else getMachineByProviderID ex providerID) in
  match r with
  | Err err => if errors_Is err ErrNotFound then ret None else ret (Some err)
  | Ok server =>
      let* err := request (CallDeleteServer (servers.ID server))
                    (client.DeleteServer (Compute ex) (servers.ID server)) in
      match err with
      | Some err => ret (Some err)
      | None =>
          let* err := waitForStatus ex (servers.ID server) []
                        [client.ServerStatusDeleted] 300 in
          match err with
          | Some err =>
              ret (Some (Errorf [Lit "error while waiting for server [ID=";
                                 VerbQ (servers.ID server); Lit "] to be deleted: ";
                                 VerbV err]))
          | None =>
              if negb (isEmptyString (api.SubnetID (Config ex))) then
                deletePort ex machineName
              else ret None
          end
      end
  end.

(** *** Create *)

(** The closure deleteOnFail of CreateMachine. *)
Definition deleteOnFail ex machineName providerID (server : servers.Server)
    (err : error) : M W error :=
  let* errIn := DeleteMachine ex machineName providerID in
  match errIn with
  | Some errIn =>
      ret (Errorf [Lit "error deleting server [ID="; VerbQ (servers.ID server);
                   Lit "] after unsuccessful creation attempt: "; VerbW errIn;
                   Lit ". Original error: "; VerbV err])
  | None => ret err
  end.

Definition CreateMachine ex machineName (userData : list Byte.byte) : M W (result string) :=
  let* r := computeServerNetworks ex machineName in
  match r with
  | Err err => ret (Err (Errorf [Lit "failed to resolve server networks: "; VerbW err]))
  | Ok serverNetworks =>
      let* r := deployServer ex machineName userData serverNetworks in
      match r with
      | Err err =>
          ret (Err (Errorf [Lit "failed to deploy server for machine "; VerbQ machineName;
                            Lit ": "; VerbW err]))
      | Ok server =>
          let providerID := EncodeProviderID (api.Region (Config ex)) (servers.ID server) in
          let* err := waitForStatus ex (servers.ID server) [client.ServerStatusBuild]
                        [client.ServerStatusActive] 600 in
          match err with
          | Some err =>
              let* e := deleteOnFail ex machineName providerID server
                          (Errorf [Lit "error waiting for server [ID=";
                                   VerbQ (servers.ID server);
                                   Lit "] to reach target status: "; VerbW err]) in
              ret (Err e)
          | None =>
              let* err := patchServerPortsForPodNetwork ex (servers.ID server) in
              match err with
              | Some err =>
                  let* e := deleteOnFail ex machineName providerID server
                              (Errorf [Lit "failed to patch server [ID=";
                                       VerbQ (servers.ID server); Lit "] ports: ";
                                       VerbS err]) in
                  ret (Err e)
              | None => ret (Ok providerID)
              end
          end
      end
  end.

(** *** Status and enumeration *)

(** The labelled loop of verifyServerPortsForPodNetwork. *)
Fixpoint checkPorts ex serverID (podNetworkPorts : list ports.Port) : option error :=
  match podNetworkPorts with
  | [] => None
  | port :: rest =>
      if existsb (λ addressPair,
                    String.eqb (ports.IPAddress addressPair) (api.PodNetworkCidr (Config ex)))
           (ports.AllowedAddressPairs port)
      then checkPorts ex serverID rest
      else Some (Errorf [Lit "port [ID="; VerbQ (ports.ID port); Lit "] of server [ID=";
                         VerbQ serverID;
                         Lit "] is not configured for pod network, but it should"])
  end.

Definition verifyServerPortsForPodNetwork ex serverID : M W (option error) :=
  let* r := computePodNetworkIDs ex serverID in
  match r with
  | Err err => ret (Some err)
  | Ok podNetworkPorts => ret (checkPorts ex serverID podNetworkPorts)
  end.

Definition GetMachineStatus ex machineName : M W (result string) :=
  let* r := getMachineByName ex machineName in
  match r with
  | Err err => ret (Err err)
  | Ok server =>
      let* err := verifyServerPortsForPodNetwork ex (servers.ID server) in
      match err with
      | Some err => ret (Err err)
      | None => ret (Ok (EncodeProviderID (api.Region (Config ex)) (servers.ID server)))
      end
  end.

Definition ListMachines ex : M W (result (gmap string string)) :=
  let '(searchClusterName, searchNodeRole) :=
    fold_left
      (λ '(searchClusterName, searchNodeRole) '(key, _),
         if strings_Contains key ServerTagClusterPrefix then (key, searchNodeRole)
         else if strings_Contains key ServerTagRolePrefix then (searchClusterName, key)
         else (searchClusterName, searchNodeRole))
      (api.Tags (Config ex)) ("", "") in
  if String.eqb searchClusterName "" || String.eqb searchNodeRole "" then
    ret (Err (Errorf [Lit "operation can not proceed: cluster/role tags are missing"]))
  else
    let* r := request (CallListServers {| servers.ListOpts_Name := "" |})
                (client.ListServers (Compute ex) {| servers.ListOpts_Name := "" |}) in
    match r with
    | Err err => ret (Err err)
    | Ok servers =>
        ret (Ok (fold_left
                   (λ (result : gmap string string) server,
                      match servers.Metadata server !! searchClusterName with
                      | Some _ =>
                          match servers.Metadata server !! searchNodeRole with
                          | Some _ =>
                              let providerID :=
                                EncodeProviderID (api.Region (Config ex)) (servers.ID server) in
                              <[providerID := servers.Name server]> result
                          | None => result
                          end
                      | None => result
                      end)
                   servers ∅))
    end.

End Executor.

(** ** Ownership tags

    The range loop at the head of getMachineByProviderID, getMachineByName
    and ListMachines, and the test on the metadata of a server that follows
    it, written once for the statements below. *)
Section Ownership.
Context `{Utils}.

Definition tagStep (found : string * string) (entry : string * string) : string * string :=
  if strings_Contains entry.1 ServerTagClusterPrefix then (entry.1, found.2)
  else if strings_Contains entry.1 ServerTagRolePrefix then (found.1, entry.1)
  else found.

Definition searchTags (tags : list (string * string)) : string * string :=
  fold_left tagStep tags ("", "").

Definition hasOwnershipTags (keys : string * string) (server : servers.Server) : bool :=
  bool_decide (is_Some (servers.Metadata server !! keys.1)) &&
  bool_decide (is_Some (servers.Metadata server !! keys.2)).

(** The servers of a listing that getMachineByName keeps. *)
Definition survivors (keys : string * string) (machineName : string)
    (listed : list servers.Server) : list servers.Server :=
  List.filter
    (λ server, String.eqb (servers.Name server) machineName && hasOwnershipTags keys server)
    listed.
End Ownership.

(** ** The identifier wire format *)

Module ProviderIDFormat.
(** Modelled from the spec: EncodeProviderID is called by the executor but
    is not among the listed sources; section 6 gives the wire format
    openstack:///<region>/<instance-id>. *)
Definition EncodeProviderID (region machineID : string) : string :=
  "openstack:///" +:+ region +:+ "/" +:+ machineID.

(** [s] without the leading [prefix], when it starts with it. *)
Fixpoint trimPrefix (prefix s : string) : option string :=
  match prefix, s with
  | EmptyString, _ => Some s
  | String a prefix', String b s' => if Ascii.eqb a b then trimPrefix prefix' s' else None
  | String _ _, EmptyString => None
  end.

(** [s] cut at its first slash. *)
Fixpoint cutSlash (s : string) : option (string * string) :=
  match s with
  | EmptyString => None
  | String c rest =>
      if Ascii.eqb c "/"%char then Some ("", rest)
      else match cutSlash rest with
           | Some (before, after) => Some (String c before, after)
           | None => None
           end
  end.

(** Modelled from the spec: DecodeProviderID is not among the listed
    sources; section 4.4 decodes "region+raw-id from the ProviderID" and
    section 6 says that decoding "fails (empty raw id) if the string does
    not match this shape".  The region is read up to the first slash after
    the scheme, and neither part may be empty. *)
Definition parseProviderID (id : string) : option (string * string) :=
  match trimPrefix "openstack:///" id with
  | None => None
  | Some rest =>
      match cutSlash rest with
      | None => None
      | Some (region, machineID) =>
          if String.eqb region "" || String.eqb machineID "" then None
          else Some (region, machineID)
      end
  end.

Definition DecodeProviderID (id : string) : string :=
  match parseProviderID id with
  | Some (_, machineID) => machineID
  | None => ""
  end.

(** A string that contains no slash. *)
Fixpoint slashFree (s : string) : bool :=
  match s with
  | EmptyString => true
  | String c rest => negb (Ascii.eqb c "/"%char) && slashFree rest
  end.

(** The shape of the wire format: the encoding of some non-empty region
    and non-empty instance id. *)
Definition wellShaped (id : string) : Prop :=
  ∃ region machineID : string,
    region ≠ "" ∧ machineID ≠ "" ∧ id = EncodeProviderID region machineID.
End ProviderIDFormat.

(** ** Notions used in the statements *)

Section Notions.
Context {W : Type} `{Utils}.

(** The first statement of DeleteMachine: by name when no identifier is
    given, by identifier otherwise. *)
Definition locate (ex : Executor W) (machineName providerID : string)
  : M W (result servers.Server) :=
  if isEmptyString (Some providerID) then getMachineByName ex machineName
  else getMachineByProviderID ex providerID.

(** [script] is what the successive GetServer queries for [id] answer from
    the provider state [w] on, leaving it as [w']. *)
Fixpoint answers (c : client.Compute W) (id : string) (w : W)
    (script : list (result servers.Server)) (w' : W) : Prop :=
  match script with
  | [] => w' = w
  | r :: rest => ∃ w1, client.GetServer c id w = (r, w1) ∧ answers c id w1 rest w'
  end.

(** The security-group names [groups] resolve, one request after the
    other from the provider state [w] on, to the ids [ids]. *)
Fixpoint groupsResolve (n : client.Network W) (w : W) (groups ids : list string) (w' : W)
  : Prop :=
  match groups, ids with
  | [], [] => w' = w
  | group :: groups', id :: ids' =>
      ∃ w1, client.GroupIDFromName n group w = (Ok id, w1) ∧ groupsResolve n w1 groups' ids' w'
  | _, _ => False
  end.

(** The entries [networks] of the configured network list resolve, from
    the provider state [w] on, to the ids [ids]: an entry with an id
    stands for itself, one without is looked up by its name. *)
Fixpoint networksResolve (n : client.Network W) (w : W)
    (networks : list api.OpenStackNetwork) (ids : list string) (w' : W) : Prop :=
  match networks, ids with
  | [], [] => w' = w
  | network :: networks', id :: ids' =>
      if isEmptyString (Some (api.Id network)) then
        ∃ w1, client.NetworkIDFromName n (api.Name network) w = (Ok id, w1)
              ∧ networksResolve n w1 networks' ids' w'
      else
        id = api.Id network ∧ networksResolve n w networks' ids' w'
  | _, _ => False
  end.

(** The name lookups that resolving [networks] issues. *)
Definition networkLookups (networks : list api.OpenStackNetwork) : list Call :=
  map (λ network, CallNetworkIDFromName (api.Name network))
    (List.filter (λ network, isEmptyString (Some (api.Id network))) networks).

(** A create operation fails after the server was submitted: the wait for
    ACTIVE fails, or it succeeds and patching the ports fails.  [original]
    is the error CreateMachine builds for it and [st3] the state the
    failure leaves. *)
Definition failsAfterSubmit (ex : Executor W) (server : servers.Server)
    (st2 : W * list Call) (original : error) (st3 : W * list Call) : Prop :=
  (∃ err,
      waitForStatus ex (servers.ID server) [client.ServerStatusBuild]
        [client.ServerStatusActive] 600 st2 = (Some err, st3)
      ∧ original = Errorf [Lit "error waiting for server [ID="; VerbQ (servers.ID server);
                           Lit "] to reach target status: "; VerbW err])
  ∨ (∃ err st',
      waitForStatus ex (servers.ID server) [client.ServerStatusBuild]
        [client.ServerStatusActive] 600 st2 = (None, st')
      ∧ patchServerPortsForPodNetwork ex (servers.ID server) st' = (Some err, st3)
      ∧ original = Errorf [Lit "failed to patch server [ID="; VerbQ (servers.ID server);
                           Lit "] ports: "; VerbS err]).
End Notions.

(** ** Test doubles

    An instance of the package-level helpers and a scripted cloud, on which
    the executor is run in the examples below. *)

(** isEmptyString as its name reads (nil or the empty string), the
    identifier functions of [ProviderIDFormat], and the tag prefixes of the
    Kubernetes cloud provider for OpenStack. *)
Definition plainUtils : Utils := {|
  isEmptyString := λ ptr, match ptr with None => true | Some s => String.eqb s "" end;
  EncodeProviderID := ProviderIDFormat.EncodeProviderID;
  DecodeProviderID := ProviderIDFormat.DecodeProviderID;
  ServerTagClusterPrefix := "kubernetes.io-cluster-";
  ServerTagRolePrefix := "kubernetes.io-role-";
|}.

Module fake.
(** The state of the scripted cloud. *)
Record Cloud : Type := {
  (** answers to the successive GetServer queries; not-found once used up *)
  getServerScript : list (result servers.Server);
  (** answer to ListServers *)
  serverList : list servers.Server;
  (** answer to ListPorts *)
  portList : list ports.Port;
  (** name to id, for the ...FromName requests and GetSubnet *)
  directory : list (string * string);
  (** answer to CreateServer and BootFromVolume *)
  created : result servers.Server;
  (** answer to DeleteServer *)
  deleteServerError : option error;
}.

Definition notFound : error := ClientError true "Resource not found".

Fixpoint resolve (directory : list (string * string)) (name : string) : result string :=
  match directory with
  | [] => Err notFound
  | (n, id) :: rest => if String.eqb n name then Ok id else resolve rest name
  end.

Definition compute : client.Compute Cloud := {|
  client.CreateServer := λ _ w, (created w, w);
  client.BootFromVolume := λ _ w, (created w, w);
  client.GetServer := λ _ w,
    match getServerScript w with
    | [] => (Err notFound, w)
    | r :: rest =>
        (r, {| getServerScript := rest; serverList := serverList w; portList := portList w;
               directory := directory w; created := created w;
               deleteServerError := deleteServerError w |})
    end;
  client.ListServers := λ _ w, (Ok (serverList w), w);
  client.DeleteServer := λ _ w, (deleteServerError w, w);
  client.ImageIDFromName := λ name w, (resolve (directory w) name, w);
  client.FlavorIDFromName := λ name w, (resolve (directory w) name, w);
|}.

Definition network : client.Network Cloud := {|
  client.GetSubnet := λ id w, (resolve (directory w) id, w);
  client.CreatePort := λ opts w,
    (Ok {| ports.ID := "port-of-" +:+ ports.CreateOpts_Name opts;
           ports.NetworkID := ports.CreateOpts_NetworkID opts;
           ports.AllowedAddressPairs := ports.CreateOpts_AllowedAddressPairs opts |}, w);
  client.ListPorts := λ _ w, (Ok (portList w), w);
  client.UpdatePort := λ _ _ w, (None, w);
  client.DeletePort := λ _ w, (None, w);
  client.NetworkIDFromName := λ name w, (resolve (directory w) name, w);
  client.GroupIDFromName := λ name w, (resolve (directory w) name, w);
  client.PortIDFromName := λ name w, (resolve (directory w) name, w);
|}.

Definition executor (config : api.MachineProviderConfigSpec) : Executor Cloud :=
  {| Compute := compute; Network := network; Config := config |}.

Definition server (id name status : string) (metadata : list (string * string))
  : servers.Server :=
  {| servers.ID := id; servers.Name := name; servers.Status := status;
     servers.Metadata := list_to_map metadata;
     servers.Fault := {| Fault_Code := 0; Fault_Message := ""; Fault_Details := "" |} |}.

Definition owned : list (string * string) :=
  [("kubernetes.io-cluster-shoot", "1"); ("kubernetes.io-role-node", "1")].

Definition configWith (networkID : string) (subnetID : option string)
    (networks : list api.OpenStackNetwork) (securityGroups : list string)
    (tags : list (string * string)) : api.MachineProviderConfigSpec :=
  {| api.Region := "eu-de-1";
     api.NetworkID := networkID;
     api.SubnetID := subnetID;
     api.Networks := networks;
     api.SecurityGroups := securityGroups;
     api.PodNetworkCidr := "100.96.0.0/11";
     api.Tags := tags;
     api.KeyName := "key";
     api.ImageName := "image";
     api.ImageID := "image-id";
     api.FlavorName := "flavor";
     api.AvailabilityZone := "az";
     api.RootDiskSize := 0;
     api.UseConfigDrive := None;
     api.ServerGroupID := None |}.

(** A configuration with the two ownership tags and no network set. *)
Definition config : api.MachineProviderConfigSpec := configWith "" None [] [] owned.

(** A configuration with an explicit network, subnet and two security groups. *)
Definition subnetConfig : api.MachineProviderConfigSpec :=
  configWith "net-1" (Some "subnet-1") [] ["sg-a"; "sg-b"] owned.

Definition cloudWith (script : list (result servers.Server)) (listed : list servers.Server)
    (attached : list ports.Port) (new : result servers.Server) : Cloud :=
  {| getServerScript := script; serverList := listed; portList := attached;
     directory := [("flavor", "flavor-id"); ("subnet-1", "subnet-1");
                   ("sg-a", "sg-a-id"); ("sg-b", "sg-b-id"); ("net-a", "net-a-id")];
     created := new;
     deleteServerError := None |}.

(** A configuration with a network list of one entry that is not flagged
    as pod network. *)
Definition listConfig : api.MachineProviderConfigSpec :=
  configWith "" None [{| api.Id := "net-1"; api.Name := ""; api.PodNetwork := false |}]
    [] owned.

(** A configuration with one pod network given by id and one by name. *)
Definition podConfig : api.MachineProviderConfigSpec :=
  configWith "" None
    [{| api.Id := "net-1"; api.Name := ""; api.PodNetwork := true |};
     {| api.Id := "net-2"; api.Name := ""; api.PodNetwork := false |};
     {| api.Id := ""; api.Name := "net-a"; api.PodNetwork := true |}]
    [] owned.

Definition portOn (id networkID : string) : ports.Port :=
  {| ports.ID := id; ports.NetworkID := networkID; ports.AllowedAddressPairs := [] |}.

Definition quota : result servers.Server := Err (ClientError false "quota exceeded").

Definition cloud : Cloud := cloudWith [] [] [] quota.

(** A cloud in which the server has ports on three networks. *)
Definition threePorts : Cloud :=
  cloudWith [] [] [portOn "p1" "net-1"; portOn "p2" "net-2"; portOn "p3" "net-a-id"] quota.

(** A cloud that accepts the create request, reports the new server in
    ERROR at the first status query and fails the next query. *)
Definition failing : Cloud :=
  cloudWith [Ok (server "id-1" "machine-0" "ERROR" owned); Err (ClientError false "boom")]
    [] [] (Ok (server "id-1" "machine-0" "BUILD" owned)).

(** The error CreateMachine builds when the wait on [failing] fails. *)
Definition waitFailure : error :=
  Errorf [Lit "error waiting for server [ID="; VerbQ "id-1";
          Lit "] to reach target status: ";
          VerbW (Errorf [VerbS (Errorf [Lit "server [ID="; VerbQ "id-1";
                                        Lit "] reached unexpected status "; VerbQ "ERROR"]);
                         Lit ", fault: ";
                         VerbPlusV {| Fault_Code := 0; Fault_Message := "";
                                      Fault_Details := "" |}])].

(** Tag names that contain the prefixes, but not at their start. *)
Definition infixTags : list (string * string) :=
  [("x-kubernetes.io-cluster-shoot", "1"); ("x-kubernetes.io-role-node", "1")].

(** An owned server named machine-0. *)
Definition machine (status : string) : servers.Server :=
  server "id-1" "machine-0" status owned.
End fake.

(** ** Requests of a run

    What a computation appends to the trace, for statements about the
    requests an operation issues or never issues. *)

(** Every run of [m] appends to the trace a list of requests that
    satisfies [Q]. *)
Definition issues {W A : Type} (Q : list Call → Prop) (m : M W A) : Prop :=
  ∀ st : W * list Call, ∃ delta : list Call, (m st).2.2 = st.2 ++ delta ∧ Q delta.

(** Every request of [m] satisfies the test [f]. *)
Definition only {W A : Type} (f : Call → bool) (m : M W A) : Prop :=
  issues (Forall (λ c, f c = true)) m.

(** The number of requests in [delta] that satisfy [f]. *)
Definition countIn (f : Call → bool) (delta : list Call) : nat :=
  length (List.filter f delta).

(** [m] issues at most [n] requests that satisfy [f]. *)
Definition atMost {W A : Type} (n : nat) (f : Call → bool) (m : M W A) : Prop :=
  issues (λ delta, (countIn f delta ≤ n)%nat) m.

(** Requests that leave the provider as it is. *)
Definition readOnly (c : Call) : bool :=
  match c with
  | CallGetServer _ | CallListServers _ | CallImageIDFromName _ | CallFlavorIDFromName _
  | CallGetSubnet _ | CallListPorts _ | CallNetworkIDFromName _ | CallGroupIDFromName _
  | CallPortIDFromName _ => true
  | _ => false
  end.

(** Requests that submit a server. *)
Definition isCreateServer (c : Call) : bool :=
  match c with
  | CallCreateServer _ | CallBootFromVolume _ => true
  | _ => false
  end.

Definition isDeleteServer (c : Call) : bool :=
  match c with CallDeleteServer _ => true | _ => false end.

Definition isCreatePort (c : Call) : bool :=
  match c with CallCreatePort _ => true | _ => false end.

Definition isUpdatePort (c : Call) : bool :=
  match c with CallUpdatePort _ _ => true | _ => false end.

Definition isDeletePort (c : Call) : bool :=
  match c with CallDeletePort _ => true | _ => false end.

Definition isGetServer (id : string) (c : Call) : bool :=
  match c with CallGetServer id' => String.eqb id' id | _ => false end.

(** A server whose status keeps waitForStatus polling: not a target status,
    and pending when a pending list is given. *)
Definition keepsWaiting (pending target : list string) (current : servers.Server) : bool :=
  negb (strSliceContains target (servers.Status current))
  && ((length pending =? 0)%nat || strSliceContains pending (servers.Status current)).

(** The port lists the pod-network CIDR among its allowed address pairs: the
    inner loop of verifyServerPortsForPodNetwork. *)
Definition carriesCidr (cidr : string) (port : ports.Port) : bool :=
  existsb (λ addressPair, String.eqb (ports.IPAddress addressPair) cidr)
    (ports.AllowedAddressPairs port).

(** What a layered create request carries: the base request, the key name of
    the key-pair layer, the group of the scheduler-hint layer and the block
    devices of the boot-from-volume layer. *)
Fixpoint baseOf (opts : CreateOptsBuilder) : servers.CreateOpts :=
  match opts with
  | servers_CreateOpts base => base
  | keypairs_CreateOptsExt inner _ => baseOf inner
  | schedulerhints_CreateOptsExt inner _ => baseOf inner
  | bootfromvolume_CreateOptsExt inner _ => baseOf inner
  end.

Fixpoint keyNameOf (opts : CreateOptsBuilder) : option string :=
  match opts with
  | servers_CreateOpts _ => None
  | keypairs_CreateOptsExt _ keyName => Some keyName
  | schedulerhints_CreateOptsExt inner _ => keyNameOf inner
  | bootfromvolume_CreateOptsExt inner _ => keyNameOf inner
  end.

Fixpoint groupOf (opts : CreateOptsBuilder) : option string :=
  match opts with
  | servers_CreateOpts _ => None
  | keypairs_CreateOptsExt inner _ => groupOf inner
  | schedulerhints_CreateOptsExt _ group => Some group
  | bootfromvolume_CreateOptsExt inner _ => groupOf inner
  end.

Fixpoint blockDevicesOf (opts : CreateOptsBuilder) : option (list bootfromvolume.BlockDevice) :=
  match opts with
  | servers_CreateOpts _ => None
  | keypairs_CreateOptsExt inner _ => blockDevicesOf inner
  | schedulerhints_CreateOptsExt inner _ => blockDevicesOf inner
  | bootfromvolume_CreateOptsExt _ blockDevices => Some blockDevices
  end.

Section FurtherNotions.
Context {W : Type}.

(** The image reference deployServer uses: the configured image id when
    there is one, without a request, and otherwise the id the image name
    resolves to. *)
Definition imageResolves (ex : Executor W) (st : W * list Call) (imageRef : string)
    (st1 : W * list Call) : Prop :=
  if String.eqb (api.ImageID (Config ex)) "" then
    ∃ w1, client.ImageIDFromName (Compute ex) (api.ImageName (Config ex)) st.1
          = (Ok imageRef, w1)
          ∧ st1 = (w1, st.2 ++ [CallImageIDFromName (api.ImageName (Config ex))])
  else
    imageRef = api.ImageID (Config ex) ∧ st1 = st.

(** The update patchServerPortsForPodNetwork sends for every candidate port. *)
Definition podNetworkUpdate (ex : Executor W) : ports.UpdateOpts :=
  {| ports.UpdateOpts_AllowedAddressPairs :=
       Some [{| ports.IPAddress := api.PodNetworkCidr (Config ex) |}] |}.
End FurtherNotions.

(** ** Further test doubles *)

Module scene.
(** A configuration with an explicit network and no subnet. *)
Definition networkConfig : api.MachineProviderConfigSpec :=
  fake.configWith "net-1" None [] [] fake.owned.

(** A configuration without any tag. *)
Definition untagged : api.MachineProviderConfigSpec := fake.configWith "" None [] [] [].

(** A configuration whose network list has an entry that does not resolve. *)
Definition brokenList : api.MachineProviderConfigSpec :=
  fake.configWith "" None
    [{| api.Id := "net-1"; api.Name := ""; api.PodNetwork := true |};
     {| api.Id := ""; api.Name := "missing"; api.PodNetwork := false |};
     {| api.Id := ""; api.Name := "net-a"; api.PodNetwork := false |}]
    [] fake.owned.

(** A port on net-1 that lists the pod-network CIDR. *)
Definition patchedPort : ports.Port :=
  {| ports.ID := "p1"; ports.NetworkID := "net-1";
     ports.AllowedAddressPairs := [{| ports.IPAddress := "100.96.0.0/11" |}] |}.

(** A server that does not carry the ownership tags. *)
Definition foreign : servers.Server := fake.server "id-9" "other" "ACTIVE" [].

(** A cloud in which no name resolves and DeleteServer fails. *)
Definition stubborn (script : list (result servers.Server)) : fake.Cloud :=
  {| fake.getServerScript := script; fake.serverList := []; fake.portList := [];
     fake.directory := [];
     fake.created := fake.quota;
     fake.deleteServerError := Some (ClientError false "conflict") |}.

(** A cloud that creates the server, shows it ACTIVE at the first query and
    has one port of it on net-1. *)
Definition healthy : fake.Cloud :=
  fake.cloudWith [Ok (fake.machine "ACTIVE")] [] [fake.portOn "p1" "net-1"]
    (Ok (fake.machine "BUILD")).

(** A cloud that creates the server, shows it in ERROR at the first query
    and has lost it at the next. *)
Definition vanishing : fake.Cloud :=
  fake.cloudWith [Ok (fake.machine "ERROR")] [] [] (Ok (fake.machine "BUILD")).
End scene.

(** * Properties *)

Section LocatorProperties.
Context {W : Type} `{Utils}.
Implicit Types (ex : Executor W) (st : W * list Call).

Lemma fold_tags_searchTags (tags : list (string * string)) :
  fold_left
    (λ '(searchClusterName, searchNodeRole) '(key, _),
       if strings_Contains key ServerTagClusterPrefix then (key, searchNodeRole)
       else if strings_Contains key ServerTagRolePrefix then (searchClusterName, key)
       else (searchClusterName, searchNodeRole))
    tags ("", "") = searchTags tags.
Proof.
  unfold searchTags. generalize ("", "") as acc.
  induction tags as [|[key value] tags IH]; intros [c r]; simpl; [reflexivity|].
  rewrite IH. reflexivity.
Qed.

Lemma metadata_test (keys : string * string) (server : servers.Server) :
  match servers.Metadata server !! keys.1 with
  | Some _ =>
      match servers.Metadata server !! keys.2 with
      | Some _ => true
      | None => false
      end
  | None => false
  end = hasOwnershipTags keys server.
Proof.
  unfold hasOwnershipTags.
  destruct (servers.Metadata server !! keys.1) as [v1|];
    destruct (servers.Metadata server !! keys.2) as [v2|]; reflexivity.
Qed.

(** C1. getMachineByName, once both tag keys are found in the configuration
    and the listing succeeded, answers by the number of listed servers that
    carry the machine name and both tag keys: none gives an error wrapping
    ErrNotFound, two or more give an error wrapping ErrMultipleFound, and
    exactly one gives that server.  One ListServers request is issued. *)
Theorem getMachineByName_by_survivors ex (machineName : string) st
    (listed : list servers.Server) (w' : W) :
  (searchTags (api.Tags (Config ex))).1 ≠ "" →
  (searchTags (api.Tags (Config ex))).2 ≠ "" →
  client.ListServers (Compute ex) {| servers.ListOpts_Name := machineName |} st.1
    = (Ok listed, w') →
  ∃ r, getMachineByName ex machineName st
       = (r, (w', st.2 ++ [CallListServers {| servers.ListOpts_Name := machineName |}])) ∧
    match survivors (searchTags (api.Tags (Config ex))) machineName listed with
    | [] => ∃ e, r = Err e ∧ errors_Is e ErrNotFound = true
                 ∧ errors_Is e ErrMultipleFound = false
    | [server] => r = Ok server
    | _ :: _ :: _ => ∃ e, r = Err e ∧ errors_Is e ErrMultipleFound = true
                          ∧ errors_Is e ErrNotFound = false
    end.
Proof.
  intros Hc Hr Hlist. unfold getMachineByName.
  rewrite fold_tags_searchTags.
  destruct (searchTags (api.Tags (Config ex))) as [c r] eqn:Hkeys. simpl in Hc, Hr.
  apply String.eqb_neq in Hc, Hr. rewrite Hc, Hr. simpl.
  unfold bind, request. rewrite Hlist.
  unfold survivors.
  match goal with
  | |- context [List.filter ?f listed] =>
      replace (List.filter f listed)
        with (List.filter
                (λ server, String.eqb (servers.Name server) machineName
                           && hasOwnershipTags (c, r) server) listed)
  end.
  2:{ apply filter_ext. intros s. rewrite <- metadata_test. simpl.
      destruct (String.eqb (servers.Name s) machineName); reflexivity. }
  destruct (List.filter _ listed) as [|s1 [|s2 rest]]; simpl.
  - eexists; split; [reflexivity|]. eexists; split; [reflexivity|split; reflexivity].
  - eexists; split; reflexivity.
  - eexists; split; [reflexivity|]. eexists; split; [reflexivity|split; reflexivity].
Qed.

Lemma getMachineByName_listed ex (machineName : string) st
    (listed : list servers.Server) (w' : W) :
  (searchTags (api.Tags (Config ex))).1 ≠ "" →
  (searchTags (api.Tags (Config ex))).2 ≠ "" →
  client.ListServers (Compute ex) {| servers.ListOpts_Name := machineName |} st.1
    = (Ok listed, w') →
  getMachineByName ex machineName st
  = (match survivors (searchTags (api.Tags (Config ex))) machineName listed with
     | [] => Err (Errorf [Lit "failed to find server [Name="; VerbQ machineName; Lit "]: ";
                          VerbW ErrNotFound])
     | [server] => Ok server
     | _ :: _ :: _ =>
         Err (Errorf [Lit "failed to find server [Name="; VerbQ machineName; Lit "]: ";
                      VerbW ErrMultipleFound])
     end,
     (w', st.2 ++ [CallListServers {| servers.ListOpts_Name := machineName |}])).
Proof.
  intros Hc Hr Hlist. unfold getMachineByName.
  rewrite fold_tags_searchTags.
  destruct (searchTags (api.Tags (Config ex))) as [c r] eqn:Hkeys. simpl in Hc, Hr.
  apply String.eqb_neq in Hc, Hr. rewrite Hc, Hr. simpl.
  unfold bind, request. rewrite Hlist.
  unfold survivors.
  match goal with
  | |- context [List.filter ?f listed] =>
      replace (List.filter f listed)
        with (List.filter
                (λ server, String.eqb (servers.Name server) machineName
                           && hasOwnershipTags (c, r) server) listed)
  end.
  2:{ apply filter_ext. intros s. rewrite <- metadata_test. simpl.
      destruct (String.eqb (servers.Name s) machineName); reflexivity. }
  destruct (List.filter _ listed) as [|s1 [|s2 rest]]; reflexivity.
Qed.

Lemma tagStep_cases (acc : string * string) (key value : string) :
  (tagStep acc (key, value) = (key, acc.2)
   ∧ strings_Contains key ServerTagClusterPrefix = true)
  ∨ (tagStep acc (key, value) = (acc.1, key)
     ∧ strings_Contains key ServerTagRolePrefix = true
     ∧ strings_Contains key ServerTagClusterPrefix = false)
  ∨ tagStep acc (key, value) = acc.
Proof.
  unfold tagStep. simpl.
  destruct (strings_Contains key ServerTagClusterPrefix); [left; split; reflexivity|].
  destruct (strings_Contains key ServerTagRolePrefix);
    [right; left; repeat split; reflexivity|right; right; reflexivity].
Qed.

Lemma searchTags_from (tags : list (string * string)) :
  ∀ acc : string * string,
    ((fold_left tagStep tags acc).1 = acc.1
     ∨ (In (fold_left tagStep tags acc).1 (map fst tags)
        ∧ strings_Contains (fold_left tagStep tags acc).1 ServerTagClusterPrefix = true))
    ∧ ((fold_left tagStep tags acc).2 = acc.2
       ∨ (In (fold_left tagStep tags acc).2 (map fst tags)
          ∧ strings_Contains (fold_left tagStep tags acc).2 ServerTagRolePrefix = true
          ∧ strings_Contains (fold_left tagStep tags acc).2 ServerTagClusterPrefix = false)).
Proof.
  induction tags as [|[key value] tags IH]; intros acc; [split; left; reflexivity|].
  cbn [fold_left map fst].
  destruct (IH (tagStep acc (key, value))) as [IHc IHr].
  destruct (tagStep_cases acc key value) as [[E Hc]|[(E & Hr & Hc)|E]];
    rewrite E in *; cbn [fst snd] in *;
    destruct IHc as [Heq|[Hin Hk]]; destruct IHr as [Heq'|(Hin' & Hk' & Hn')];
    split; try (left; assumption); right; rewrite ?Heq, ?Heq'; simpl; intuition auto.
Qed.

Lemma searchTags_names_only (tags tags' : list (string * string)) :
  map fst tags = map fst tags' → searchTags tags = searchTags tags'.
Proof.
  unfold searchTags. generalize ("", "") as acc. revert tags'.
  induction tags as [|[key value] tags IH]; intros [|[key' value'] tags'] acc Hnames;
    simpl in Hnames; try discriminate; [reflexivity|].
  injection Hnames as -> Hnames. simpl.
  replace (tagStep acc (key', value)) with (tagStep acc (key', value')) by reflexivity.
  apply IH. exact Hnames.
Qed.

Lemma ListMachines_fold (keys : string * string) (region : string)
    (listed : list servers.Server) :
  ∀ acc : gmap string string,
    fold_left
      (λ (result : gmap string string) server,
         match servers.Metadata server !! keys.1 with
         | Some _ =>
             match servers.Metadata server !! keys.2 with
             | Some _ =>
                 <[EncodeProviderID region (servers.ID server) := servers.Name server]> result
             | None => result
             end
         | None => result
         end) listed acc
    = fold_left
        (λ (result : gmap string string) server,
           <[EncodeProviderID region (servers.ID server) := servers.Name server]> result)
        (List.filter (hasOwnershipTags keys) listed) acc.
Proof.
  induction listed as [|server listed IH]; intros acc; simpl; [reflexivity|].
  rewrite IH. rewrite <- (metadata_test keys server).
  destruct (servers.Metadata server !! keys.1) as [v1|];
    [destruct (servers.Metadata server !! keys.2) as [v2|]|]; reflexivity.
Qed.

(** C7, as the code has it.  The two tag keys are found among the names of
    the configured tags by substring containment of the cluster and role
    prefixes (the values play no part), and a server passes the ownership
    test when its metadata has both keys.  Lookup by identifier, lookup by
    name and enumeration all decide by this one test. *)
Theorem ownership_is_two_tag_keys ex :
  ((searchTags (api.Tags (Config ex))).1 ≠ "" →
     In (searchTags (api.Tags (Config ex))).1 (map fst (api.Tags (Config ex)))
     ∧ strings_Contains (searchTags (api.Tags (Config ex))).1 ServerTagClusterPrefix = true)
  ∧ ((searchTags (api.Tags (Config ex))).2 ≠ "" →
     In (searchTags (api.Tags (Config ex))).2 (map fst (api.Tags (Config ex)))
     ∧ strings_Contains (searchTags (api.Tags (Config ex))).2 ServerTagRolePrefix = true)
  ∧ (∀ tags' : list (string * string),
       map fst tags' = map fst (api.Tags (Config ex)) →
       searchTags tags' = searchTags (api.Tags (Config ex)))
  ∧ (∀ (providerID : string) st (server : servers.Server) (w' : W),
       isEmptyString (Some (DecodeProviderID providerID)) = false →
       client.GetServer (Compute ex) (DecodeProviderID providerID) st.1 = (Ok server, w') →
       ∃ r, getMachineByProviderID ex providerID st
            = (r, (w', st.2 ++ [CallGetServer (DecodeProviderID providerID)]))
            ∧ if hasOwnershipTags (searchTags (api.Tags (Config ex))) server
              then r = Ok server
              else ∃ e, r = Err e ∧ errors_Is e ErrNotFound = true)
  ∧ (∀ (machineName : string) st (listed : list servers.Server) (w' : W)
       (server : servers.Server),
       (searchTags (api.Tags (Config ex))).1 ≠ "" →
       (searchTags (api.Tags (Config ex))).2 ≠ "" →
       client.ListServers (Compute ex) {| servers.ListOpts_Name := machineName |} st.1
         = (Ok listed, w') →
       (getMachineByName ex machineName st).1 = Ok server ↔
       List.filter
         (λ s, String.eqb (servers.Name s) machineName
               && hasOwnershipTags (searchTags (api.Tags (Config ex))) s) listed
       = [server])
  ∧ (∀ st (listed : list servers.Server) (w' : W),
       (searchTags (api.Tags (Config ex))).1 ≠ "" →
       (searchTags (api.Tags (Config ex))).2 ≠ "" →
       client.ListServers (Compute ex) {| servers.ListOpts_Name := "" |} st.1
         = (Ok listed, w') →
       ListMachines ex st
       = (Ok (fold_left
                (λ (result : gmap string string) s,
                   <[EncodeProviderID (api.Region (Config ex)) (servers.ID s)
                     := servers.Name s]> result)
                (List.filter (hasOwnershipTags (searchTags (api.Tags (Config ex)))) listed)
                ∅),
          (w', st.2 ++ [CallListServers {| servers.ListOpts_Name := "" |}]))).
Proof.
  split; [|split; [|split; [|split; [|split]]]].
  - intros Hne. destruct (searchTags_from (api.Tags (Config ex)) ("", "")) as [[Heq|Hin] _].
    + exfalso. apply Hne. exact Heq.
    + exact Hin.
  - intros Hne. destruct (searchTags_from (api.Tags (Config ex)) ("", "")) as [_ [Heq|Hin]].
    + exfalso. apply Hne. exact Heq.
    + destruct Hin as (Hin & Hk & _). split; [exact Hin|exact Hk].
  - intros tags' Hnames. apply searchTags_names_only. exact Hnames.
  - intros providerID st server w' Hdec Hget.
    unfold getMachineByProviderID. rewrite Hdec. unfold bind, request. rewrite Hget.
    rewrite fold_tags_searchTags.
    rewrite <- (metadata_test (searchTags (api.Tags (Config ex))) server).
    destruct (searchTags (api.Tags (Config ex))) as [c r]. simpl.
    destruct (servers.Metadata server !! c) as [v1|];
      [destruct (servers.Metadata server !! r) as [v2|]|];
      eexists; (split; [reflexivity|]); try reflexivity;
      eexists; split; reflexivity.
  - intros machineName st listed w' server Hc Hr Hlist.
    rewrite (getMachineByName_listed ex machineName st listed w' Hc Hr Hlist).
    simpl. unfold survivors.
    destruct (List.filter _ listed) as [|s1 [|s2 rest]].
    + split; discriminate.
    + split; [intros [= ->]; reflexivity|intros [= ->]; reflexivity].
    + split; discriminate.
  - intros st listed w' Hc Hr Hlist. unfold ListMachines.
    rewrite fold_tags_searchTags.
    rewrite <- (ListMachines_fold (searchTags (api.Tags (Config ex)))).
    destruct (searchTags (api.Tags (Config ex))) as [c r]. simpl in Hc, Hr.
    apply String.eqb_neq in Hc, Hr. rewrite Hc, Hr. simpl.
    unfold bind, request. rewrite Hlist. reflexivity.
Qed.
End LocatorProperties.

Section DeleteProperties.
Context {W : Type} `{Utils}.
Implicit Types (ex : Executor W) (st : W * list Call).

Lemma DeleteMachine_unfold ex (machineName providerID : string) st :
  DeleteMachine ex machineName providerID st =
  bind (locate ex machineName providerID)
    (λ r, match r with
          | Err err => if errors_Is err ErrNotFound then ret None else ret (Some err)
          | Ok server =>
              let* err := request (CallDeleteServer (servers.ID server))
                            (client.DeleteServer (Compute ex) (servers.ID server)) in
              match err with
              | Some err => ret (Some err)
              | None =>
                  let* err := waitForStatus ex (servers.ID server) []
                                [client.ServerStatusDeleted] 300 in
                  match err with
                  | Some err =>
                      ret (Some (Errorf [Lit "error while waiting for server [ID=";
                                         VerbQ (servers.ID server);
                                         Lit "] to be deleted: "; VerbV err]))
                  | None =>
                      if negb (isEmptyString (api.SubnetID (Config ex))) then
                        deletePort ex machineName
                      else ret None
                  end
              end
          end) st.
Proof. reflexivity. Qed.

(** C2. Whenever the lookup of DeleteMachine (by name, or by identifier
    when one is given) ends in an error that is ErrNotFound, DeleteMachine
    returns no error, and it leaves the provider and the trace as the
    lookup left them: nothing is deleted. *)
Theorem DeleteMachine_absent_is_success ex (machineName providerID : string) st
    (e : error) (st' : W * list Call) :
  locate ex machineName providerID st = (Err e, st') →
  errors_Is e ErrNotFound = true →
  DeleteMachine ex machineName providerID st = (None, st').
Proof.
  intros Hlookup Hnf. rewrite DeleteMachine_unfold. unfold bind.
  rewrite Hlookup, Hnf. reflexivity.
Qed.

(** C10. An identifier that is not empty but does not decode to a
    non-empty server id makes DeleteMachine return the parse error, which
    is not ErrNotFound; no request is issued. *)
Theorem DeleteMachine_malformed_identifier ex (machineName providerID : string) st :
  isEmptyString (Some providerID) = false →
  isEmptyString (Some (DecodeProviderID providerID)) = true →
  DeleteMachine ex machineName providerID st
    = (Some (Errorf [Lit "could not parse serverID from providerID "; VerbQ providerID]), st)
  ∧ errors_Is (Errorf [Lit "could not parse serverID from providerID "; VerbQ providerID])
      ErrNotFound = false.
Proof.
  intros Hid Hdec. split; [|reflexivity].
  rewrite DeleteMachine_unfold. unfold bind, locate, getMachineByProviderID.
  rewrite Hid, Hdec. reflexivity.
Qed.

(** C8. Once DeleteMachine has located the server, deleted it and seen it
    gone, it ends there when no subnet id is configured; when one is, it
    goes on with deletePort, whose first request looks the port up by the
    machine name: a not-found answer is absorbed into success, and a port
    that is found is deleted. *)
Theorem DeleteMachine_port_cleanup ex (machineName providerID : string) st
    (server : servers.Server) (st1 : W * list Call) (w2 : W) (st3 : W * list Call) :
  locate ex machineName providerID st = (Ok server, st1) →
  client.DeleteServer (Compute ex) (servers.ID server) st1.1 = (None, w2) →
  waitForStatus ex (servers.ID server) [] [client.ServerStatusDeleted] 300
    (w2, st1.2 ++ [CallDeleteServer (servers.ID server)]) = (None, st3) →
  if isEmptyString (api.SubnetID (Config ex)) then
    DeleteMachine ex machineName providerID st = (None, st3)
  else
    DeleteMachine ex machineName providerID st = deletePort ex machineName st3
    ∧ (∃ r w' more, deletePort ex machineName st3
         = (r, (w', st3.2 ++ CallPortIDFromName machineName :: more)))
    ∧ (∀ e w', client.PortIDFromName (Network ex) machineName st3.1 = (Err e, w') →
         IsNotFoundError e = true →
         deletePort ex machineName st3
           = (None, (w', st3.2 ++ [CallPortIDFromName machineName])))
    ∧ (∀ portID w', client.PortIDFromName (Network ex) machineName st3.1 = (Ok portID, w') →
         deletePort ex machineName st3
           = ((client.DeletePort (Network ex) portID w').1,
              ((client.DeletePort (Network ex) portID w').2,
               st3.2 ++ [CallPortIDFromName machineName; CallDeletePort portID]))).
Proof.
  intros Hlookup Hdel Hwait.
  assert (Hrun : DeleteMachine ex machineName providerID st =
                 (if negb (isEmptyString (api.SubnetID (Config ex)))
                  then deletePort ex machineName else ret None) st3).
  { rewrite DeleteMachine_unfold. unfold bind at 1. rewrite Hlookup.
    unfold bind at 1. unfold request. rewrite Hdel.
    unfold bind at 1. simpl fst; simpl snd. rewrite Hwait. reflexivity. }
  destruct (isEmptyString (api.SubnetID (Config ex))); simpl in Hrun; [exact Hrun|].
  split; [exact Hrun|]. unfold deletePort, bind, request.
  destruct (client.PortIDFromName (Network ex) machineName st3.1) as [[portID|e] w'] eqn:Hport.
  - simpl. rewrite <- app_assoc. simpl.
    destruct (client.DeletePort (Network ex) portID w') as [[err|] w''] eqn:Hdp;
      (split; [eexists _, _, _; reflexivity|]);
      (split; [intros e' w1 Heq; discriminate Heq|]);
      intros p w1 Heq; injection Heq as -> ->; rewrite Hdp; reflexivity.
  - split.
    { destruct (IsNotFoundError e); eexists _, _, _; reflexivity. }
    split.
    + intros e' w1 Heq Hnf. injection Heq as -> ->. rewrite Hnf. reflexivity.
    + intros p w1 Heq. discriminate Heq.
Qed.
End DeleteProperties.

Section PollerProperties.
Context {W : Type}.
Implicit Types (ex : Executor W) (st : W * list Call).

Lemma Poll_tick (ticks : nat) (condition : M W (bool * option error)) st :
  Poll (S ticks) condition st =
  match condition st with
  | ((_, Some err), st') => (Some err, st')
  | ((true, None), st') => (None, st')
  | ((false, None), st') => Poll ticks condition st'
  end.
Proof.
  simpl. unfold bind. destruct (condition st) as [[[|] [err|]] st']; reflexivity.
Qed.

Local Arguments Poll : simpl never.

(** One evaluation of the condition on a server that was found. *)
Lemma statusCondition_found ex (serverID : string) (pending target : list string) st
    (current : servers.Server) (w' : W) :
  client.GetServer (Compute ex) serverID st.1 = (Ok current, w') →
  statusCondition ex serverID pending target st =
  ((if strSliceContains target (servers.Status current) then (true, None)
    else if (length pending =? 0)%nat || strSliceContains pending (servers.Status current)
    then (false, None)
    else (false,
          Some (if String.eqb (servers.Status current) client.ServerStatusError
                then Errorf [VerbS (Errorf [Lit "server [ID="; VerbQ serverID;
                                            Lit "] reached unexpected status ";
                                            VerbQ (servers.Status current)]);
                             Lit ", fault: "; VerbPlusV (servers.Fault current)]
                else Errorf [Lit "server [ID="; VerbQ serverID;
                             Lit "] reached unexpected status ";
                             VerbQ (servers.Status current)]))),
   (w', st.2 ++ [CallGetServer serverID])).
Proof.
  intros Hget. unfold statusCondition, bind, request. rewrite Hget.
  destruct (strSliceContains target (servers.Status current)); [reflexivity|].
  destruct ((length pending =? 0)%nat || strSliceContains pending (servers.Status current));
    reflexivity.
Qed.

(** One evaluation of the condition on a query that failed. *)
Lemma statusCondition_failed ex (serverID : string) (pending target : list string) st
    (err : error) (w' : W) :
  client.GetServer (Compute ex) serverID st.1 = (Err err, w') →
  statusCondition ex serverID pending target st =
  ((if IsNotFoundError err && strSliceContains target client.ServerStatusDeleted
    then (true, None) else (false, Some err)),
   (w', st.2 ++ [CallGetServer serverID])).
Proof.
  intros Hget. unfold statusCondition, bind, request. rewrite Hget.
  destruct (IsNotFoundError err && strSliceContains target client.ServerStatusDeleted);
    reflexivity.
Qed.

(** C3. The status poller on scripted answers.  With target ACTIVE and
    pending BUILD: on BUILD, BUILD, ACTIVE it succeeds with the third query;
    on BUILD, ERROR it fails with the second query, with the unexpected
    status error that carries the fault.  When the query answers not-found
    and the target contains DELETED, it succeeds with the first query. *)
Theorem waitForStatus_scripted ex (serverID : string) st :
  (∀ (secs : Z) (s1 s2 s3 : servers.Server) (w' : W),
     answers (Compute ex) serverID st.1 [Ok s1; Ok s2; Ok s3] w' →
     servers.Status s1 = client.ServerStatusBuild →
     servers.Status s2 = client.ServerStatusBuild →
     servers.Status s3 = client.ServerStatusActive →
     (3 ≤ secs)%Z →
     waitForStatus ex serverID [client.ServerStatusBuild] [client.ServerStatusActive] secs st
     = (None, (w', st.2 ++ [CallGetServer serverID; CallGetServer serverID;
                            CallGetServer serverID])))
  ∧ (∀ (secs : Z) (s1 s2 : servers.Server) (w' : W),
     answers (Compute ex) serverID st.1 [Ok s1; Ok s2] w' →
     servers.Status s1 = client.ServerStatusBuild →
     servers.Status s2 = client.ServerStatusError →
     (2 ≤ secs)%Z →
     waitForStatus ex serverID [client.ServerStatusBuild] [client.ServerStatusActive] secs st
     = (Some (Errorf [VerbS (Errorf [Lit "server [ID="; VerbQ serverID;
                                     Lit "] reached unexpected status ";
                                     VerbQ client.ServerStatusError]);
                      Lit ", fault: "; VerbPlusV (servers.Fault s2)]),
        (w', st.2 ++ [CallGetServer serverID; CallGetServer serverID])))
  ∧ (∀ (secs : Z) (pending target : list string) (err : error) (w' : W),
     client.GetServer (Compute ex) serverID st.1 = (Err err, w') →
     IsNotFoundError err = true →
     strSliceContains target client.ServerStatusDeleted = true →
     (1 ≤ secs)%Z →
     waitForStatus ex serverID pending target secs st
     = (None, (w', st.2 ++ [CallGetServer serverID]))).
Proof.
  destruct st as [w tr]. unfold waitForStatus. repeat split.
  - intros secs s1 s2 s3 w' (w1 & H1 & w2 & H2 & w3 & H3 & ->) E1 E2 E3 Hsecs.
    destruct (Z.to_nat secs) as [|[|[|ticks]]] eqn:Hticks; try lia.
    rewrite Poll_tick, (statusCondition_found _ _ _ _ _ s1 w1 H1), E1. simpl.
    rewrite Poll_tick, (statusCondition_found _ _ _ _ (w1, _) s2 w2 H2), E2. simpl.
    rewrite Poll_tick, (statusCondition_found _ _ _ _ (w2, _) s3 w3 H3), E3. simpl.
    rewrite <- !app_assoc. reflexivity.
  - intros secs s1 s2 w' (w1 & H1 & w2 & H2 & ->) E1 E2 Hsecs.
    destruct (Z.to_nat secs) as [|[|ticks]] eqn:Hticks; try lia.
    rewrite Poll_tick, (statusCondition_found _ _ _ _ _ s1 w1 H1), E1. simpl.
    rewrite Poll_tick, (statusCondition_found _ _ _ _ (w1, _) s2 w2 H2), E2. simpl.
    rewrite <- !app_assoc. reflexivity.
  - intros secs pending target err w' Hget Hnf Hdel Hsecs.
    destruct (Z.to_nat secs) as [|ticks] eqn:Hticks; try lia.
    rewrite Poll_tick, (statusCondition_failed _ _ _ _ _ err w' Hget), Hnf, Hdel.
    reflexivity.
Qed.
End PollerProperties.

Section NetworkResolverProperties.
Context {W : Type} `{Utils}.
Implicit Types (ex : Executor W) (st : W * list Call).

Lemma resolveSecurityGroups_resolved ex (groups : list string) :
  ∀ (acc : list string) st (ids : list string) (w' : W),
    groupsResolve (Network ex) st.1 groups ids w' →
    resolveSecurityGroups ex groups acc st
    = (Ok (acc ++ ids), (w', st.2 ++ map CallGroupIDFromName groups)).
Proof.
  induction groups as [|group groups IH]; intros acc [w tr] [|id ids] w' Hres;
    simpl in Hres; try contradiction.
  - subst w'. simpl. rewrite !app_nil_r. reflexivity.
  - destruct Hres as (w1 & Hget & Hrest). simpl. unfold bind, request. simpl.
    rewrite Hget. rewrite (IH _ (w1, tr ++ [CallGroupIDFromName group]) ids w' Hrest).
    simpl. rewrite <- !app_assoc. reflexivity.
Qed.

Lemma resolveSecurityGroups_unresolved ex (resolved : list string) :
  ∀ (g : string) (rest acc : list string) st
    (ids : list string) (w2 : W) (e : error) (w3 : W),
    groupsResolve (Network ex) st.1 resolved ids w2 →
    client.GroupIDFromName (Network ex) g w2 = (Err e, w3) →
    resolveSecurityGroups ex (resolved ++ g :: rest) acc st
    = (Err e, (w3, st.2 ++ map CallGroupIDFromName (resolved ++ [g]))).
Proof.
  induction resolved as [|group groups IH]; intros g rest acc [w tr] [|id ids] w2 e w3 Hres Hg;
    simpl in Hres; try contradiction.
  - subst w2. simpl. unfold bind, request. simpl. rewrite Hg. reflexivity.
  - destruct Hres as (w1 & Hget & Hrest). simpl. unfold bind, request. simpl.
    rewrite Hget.
    rewrite (IH g rest _ (w1, tr ++ [CallGroupIDFromName group]) ids w2 e w3 Hrest Hg).
    simpl. rewrite <- !app_assoc. reflexivity.
Qed.

(** C4. With an explicit network id and an explicit subnet id,
    computeServerNetworks asks for the subnet, resolves the security-group
    names in order, creates a port named after the machine on that network
    with a fixed IP in the subnet, the pod-network CIDR as its allowed
    address pair and the resolved ids as its security groups, and returns
    the single attachment of the network id and the new port.  When the
    subnet or a group name does not resolve it returns that error with no
    CreatePort request issued, and CreateMachine returns on any error of
    computeServerNetworks without a further request. *)
Theorem computeServerNetworks_preallocates_port ex (machineName : string) st
    (subnet : string) :
  isEmptyString (Some (api.NetworkID (Config ex))) = false →
  api.SubnetID (Config ex) = Some subnet →
  isEmptyString (Some subnet) = false →
  (∀ (found : string) (w1 w2 w3 : W) (ids : list string) (port : ports.Port),
     client.GetSubnet (Network ex) subnet st.1 = (Ok found, w1) →
     groupsResolve (Network ex) w1 (api.SecurityGroups (Config ex)) ids w2 →
     client.CreatePort (Network ex)
       {| ports.CreateOpts_Name := machineName;
          ports.CreateOpts_NetworkID := api.NetworkID (Config ex);
          ports.FixedIPs := [{| ports.SubnetID := subnet |}];
          ports.CreateOpts_AllowedAddressPairs :=
            [{| ports.IPAddress := api.PodNetworkCidr (Config ex) |}];
          ports.SecurityGroups := Some ids |} w2 = (Ok port, w3) →
     computeServerNetworks ex machineName st
     = (Ok [{| servers.UUID := api.NetworkID (Config ex); servers.Port := ports.ID port |}],
        (w3, st.2 ++ [CallGetSubnet subnet]
                  ++ map CallGroupIDFromName (api.SecurityGroups (Config ex))
                  ++ [CallCreatePort
                        {| ports.CreateOpts_Name := machineName;
                           ports.CreateOpts_NetworkID := api.NetworkID (Config ex);
                           ports.FixedIPs := [{| ports.SubnetID := subnet |}];
                           ports.CreateOpts_AllowedAddressPairs :=
                             [{| ports.IPAddress := api.PodNetworkCidr (Config ex) |}];
                           ports.SecurityGroups := Some ids |}])))
  ∧ (∀ (e : error) (w1 : W),
       client.GetSubnet (Network ex) subnet st.1 = (Err e, w1) →
       computeServerNetworks ex machineName st
       = (Err e, (w1, st.2 ++ [CallGetSubnet subnet])))
  ∧ (∀ (found : string) (w1 w2 w3 : W) (resolved rest ids : list string) (g : string)
       (e : error),
       client.GetSubnet (Network ex) subnet st.1 = (Ok found, w1) →
       api.SecurityGroups (Config ex) = resolved ++ g :: rest →
       groupsResolve (Network ex) w1 resolved ids w2 →
       client.GroupIDFromName (Network ex) g w2 = (Err e, w3) →
       computeServerNetworks ex machineName st
       = (Err e, (w3, st.2 ++ [CallGetSubnet subnet]
                       ++ map CallGroupIDFromName (resolved ++ [g]))))
  ∧ (∀ (userData : list Byte.byte) (e : error) (st' : W * list Call),
       computeServerNetworks ex machineName st = (Err e, st') →
       CreateMachine ex machineName userData st
       = (Err (Errorf [Lit "failed to resolve server networks: "; VerbW e]), st')).
Proof.
  intros Hnet Hsub Hsubnet. destruct st as [w tr].
  assert (Hpath : computeServerNetworks ex machineName (w, tr) =
    (let* r := request (CallGetSubnet subnet) (client.GetSubnet (Network ex) subnet) in
     match r with
     | Err err => ret (Err err)
     | Ok _ =>
         let* r := resolveSecurityGroups ex (api.SecurityGroups (Config ex)) [] in
         match r with
         | Err err => ret (Err err)
         | Ok securityGroupIDs =>
             let* r := request (CallCreatePort (portCreateOpts ex machineName securityGroupIDs))
                         (client.CreatePort (Network ex)
                            (portCreateOpts ex machineName securityGroupIDs)) in
             match r with
             | Err err => ret (Err err)
             | Ok port =>
                 ret (Ok ([] ++ [{| servers.UUID := api.NetworkID (Config ex);
                                    servers.Port := ports.ID port |}]))
             end
         end
     end) (w, tr)).
  { unfold computeServerNetworks. rewrite Hnet, Hsub. simpl. rewrite Hsubnet. reflexivity. }
  assert (Hopts : ∀ ids, portCreateOpts ex machineName ids =
            {| ports.CreateOpts_Name := machineName;
               ports.CreateOpts_NetworkID := api.NetworkID (Config ex);
               ports.FixedIPs := [{| ports.SubnetID := subnet |}];
               ports.CreateOpts_AllowedAddressPairs :=
                 [{| ports.IPAddress := api.PodNetworkCidr (Config ex) |}];
               ports.SecurityGroups := Some ids |}).
  { intros ids. unfold portCreateOpts. rewrite Hsub. reflexivity. }
  split; [|split; [|split]].
  - intros found w1 w2 w3 ids port Hget Hres Hport. simpl in Hget.
    rewrite Hpath. unfold bind at 1. unfold request. simpl. rewrite Hget.
    unfold bind at 1.
    rewrite (resolveSecurityGroups_resolved ex _ [] (w1, tr ++ [CallGetSubnet subnet]) ids w2 Hres).
    simpl. unfold bind. rewrite Hopts. simpl. rewrite Hport.
    simpl. rewrite <- !app_assoc. reflexivity.
  - intros e w1 Hget. simpl in Hget.
    rewrite Hpath. unfold bind, request. simpl. rewrite Hget. reflexivity.
  - intros found w1 w2 w3 resolved rest ids g e Hget Hgroups Hres Hg. simpl in Hget.
    rewrite Hpath. unfold bind at 1. unfold request. simpl. rewrite Hget.
    unfold bind at 1. rewrite Hgroups.
    rewrite (resolveSecurityGroups_unresolved ex resolved g rest []
               (w1, tr ++ [CallGetSubnet subnet]) ids w2 e w3 Hres Hg).
    simpl. rewrite <- !app_assoc. reflexivity.
  - intros userData e st' Hrun. unfold CreateMachine, bind. rewrite Hrun. reflexivity.
Qed.
End NetworkResolverProperties.

Section PodNetworkProperties.
Context {W : Type} `{Utils}.
Implicit Types (ex : Executor W) (st : W * list Call).

Lemma union_cons_acc (id : string) (ids : list string) (acc : gset string) :
  list_to_set ids ∪ ({[id]} ∪ acc) = list_to_set (id :: ids) ∪ acc.
Proof.
  rewrite list_to_set_cons, (assoc_L (∪)), (comm_L (∪) (list_to_set ids) {[id]}).
  reflexivity.
Qed.

Lemma resolvePodNetworks_resolved ex (networks : list api.OpenStackNetwork) :
  ∀ (acc : gset string) st (ids : list string) (w' : W),
    networksResolve (Network ex) st.1 (List.filter api.PodNetwork networks) ids w' →
    resolvePodNetworks ex networks acc st
    = (Ok (list_to_set ids ∪ acc),
       (w', st.2 ++ networkLookups (List.filter api.PodNetwork networks))).
Proof.
  unfold networkLookups.
  induction networks as [|network networks IH]; intros acc [w tr] ids w' Hres.
  - destruct ids; simpl in Hres; [|contradiction]. subst w'. simpl.
    rewrite app_nil_r, (left_id_L ∅ (∪)). reflexivity.
  - simpl in *. destruct (api.PodNetwork network); [|apply IH; exact Hres].
    destruct ids as [|id ids]; simpl in Hres; [contradiction|]. simpl.
    destruct (isEmptyString (Some (api.Id network))).
    + destruct Hres as (w1 & Hget & Hrest). unfold bind, request. simpl. rewrite Hget.
      rewrite (IH _ (w1, tr ++ [CallNetworkIDFromName (api.Name network)]) ids w' Hrest).
      simpl. rewrite <- app_assoc, union_cons_acc. reflexivity.
    + destruct Hres as (-> & Hrest). rewrite (IH _ (w, tr) ids w' Hrest).
      rewrite union_cons_acc. reflexivity.
Qed.

(** C6, as the code has it.  Pod-network discovery keeps the attached ports
    whose network id lies in this set: the explicit network id alone when
    one is configured, otherwise the ids that the entries of the network
    list flagged as pod network resolve to.  It fails when the server has
    no port at all and when none of its ports lies on a network of the
    set. *)
Theorem computePodNetworkIDs_filters_by_pod_networks ex (serverID : string) st :
  (isEmptyString (Some (api.NetworkID (Config ex))) = false →
     podNetworkIDs ex st = (Ok {[api.NetworkID (Config ex)]}, st))
  ∧ (∀ (ids : list string) (w1 : W),
       isEmptyString (Some (api.NetworkID (Config ex))) = true →
       networksResolve (Network ex) st.1
         (List.filter api.PodNetwork (api.Networks (Config ex))) ids w1 →
       podNetworkIDs ex st
       = (Ok (list_to_set ids),
          (w1, st.2 ++ networkLookups
                         (List.filter api.PodNetwork (api.Networks (Config ex))))))
  ∧ (∀ (networkIDs : gset string) (st1 : W * list Call) (serverPorts : list ports.Port)
       (w2 : W),
       podNetworkIDs ex st = (Ok networkIDs, st1) →
       client.ListPorts (Network ex) {| ports.DeviceID := serverID |} st1.1
         = (Ok serverPorts, w2) →
       computePodNetworkIDs ex serverID st
       = (match serverPorts with
          | [] => Err (Errorf [Lit "got an empty port list for server "; VerbQ serverID])
          | _ :: _ =>
              match List.filter (λ port, bool_decide (ports.NetworkID port ∈ networkIDs))
                      serverPorts with
              | [] => Err (Errorf [Lit "no port candidates found for pod network"])
              | kept => Ok kept
              end
          end,
          (w2, st1.2 ++ [CallListPorts {| ports.DeviceID := serverID |}]))).
Proof.
  split; [|split].
  - intros Hnet. unfold podNetworkIDs. rewrite Hnet. simpl. unfold ret.
    rewrite (right_id_L ∅ (∪)). reflexivity.
  - intros ids w1 Hnet Hres. unfold podNetworkIDs. rewrite Hnet. simpl.
    rewrite (resolvePodNetworks_resolved ex _ ∅ st ids w1 Hres).
    rewrite (right_id_L ∅ (∪)). reflexivity.
  - intros networkIDs st1 serverPorts w2 Hset Hports.
    unfold computePodNetworkIDs, bind at 1. rewrite Hset.
    unfold bind, request. rewrite Hports.
    destruct serverPorts as [|port serverPorts]; [reflexivity|].
    unfold portsOnNetworks.
    destruct (List.filter _ (port :: serverPorts)) as [|kept rest]; reflexivity.
Qed.
End PodNetworkProperties.

Lemma append_assoc (a b c : string) : (a +:+ b) +:+ c = a +:+ (b +:+ c).
Proof.
  induction a as [|x a IH]; [reflexivity|].
  change (String x ((a +:+ b) +:+ c) = String x (a +:+ (b +:+ c))). rewrite IH. reflexivity.
Qed.

Lemma append_nil_r (a : string) : a +:+ "" = a.
Proof.
  induction a as [|x a IH]; [reflexivity|].
  change (String x (a +:+ "") = String x a). rewrite IH. reflexivity.
Qed.

Lemma occurs_in_self (s : string) : occurs_in s s.
Proof. exists "", "". rewrite append_nil_r. reflexivity. Qed.

Lemma occurs_in_head (sub rest : string) : occurs_in sub (sub +:+ rest).
Proof. exists "", rest. reflexivity. Qed.

Lemma occurs_in_tail (sub before s : string) :
  occurs_in sub s → occurs_in sub (before +:+ s).
Proof.
  intros (b & a & ->). exists (before +:+ b), a. rewrite append_assoc. reflexivity.
Qed.

Section CreateProperties.
Context {W : Type} `{Utils}.
Implicit Types (ex : Executor W) (st : W * list Call).

Lemma deleteOnFail_unfold ex (machineName providerID : string) (server : servers.Server)
    (err : error) st :
  deleteOnFail ex machineName providerID server err st =
  (match (DeleteMachine ex machineName providerID st).1 with
   | Some errIn =>
       Errorf [Lit "error deleting server [ID="; VerbQ (servers.ID server);
               Lit "] after unsuccessful creation attempt: "; VerbW errIn;
               Lit ". Original error: "; VerbV err]
   | None => err
   end,
   (DeleteMachine ex machineName providerID st).2).
Proof.
  unfold deleteOnFail, bind.
  destruct (DeleteMachine ex machineName providerID st) as [[errIn|] st']; reflexivity.
Qed.

(** C5. When the wait for ACTIVE or the port patch fails after the server
    was submitted, CreateMachine runs DeleteMachine once, from the state the
    failure left, for the machine name and the identifier of the created
    server, and ends in the state that run leaves.  It returns the original
    error when the delete succeeds, and otherwise an error that wraps the
    rollback error and quotes the original one: the message of the returned
    error always contains the message of the original error, and that of
    the rollback error when there is one. *)
Theorem CreateMachine_rolls_back ex (machineName : string) (userData : list Byte.byte) st
    (serverNetworks : list servers.Network) (st1 : W * list Call)
    (server : servers.Server) (st2 : W * list Call) (original : error)
    (st3 : W * list Call) :
  computeServerNetworks ex machineName st = (Ok serverNetworks, st1) →
  deployServer ex machineName userData serverNetworks st1 = (Ok server, st2) →
  failsAfterSubmit ex server st2 original st3 →
  ∃ e : error,
    CreateMachine ex machineName userData st
    = (Err e,
       (DeleteMachine ex machineName
          (EncodeProviderID (api.Region (Config ex)) (servers.ID server)) st3).2)
    ∧ match (DeleteMachine ex machineName
               (EncodeProviderID (api.Region (Config ex)) (servers.ID server)) st3).1 with
      | None => e = original
      | Some rollback =>
          e = Errorf [Lit "error deleting server [ID="; VerbQ (servers.ID server);
                      Lit "] after unsuccessful creation attempt: "; VerbW rollback;
                      Lit ". Original error: "; VerbV original]
          ∧ errors_Is e ErrNotFound = errors_Is rollback ErrNotFound
          ∧ ∀ quote showFault sentinelText,
              occurs_in (Error quote showFault sentinelText rollback)
                (Error quote showFault sentinelText e)
      end
    ∧ ∀ quote showFault sentinelText,
        occurs_in (Error quote showFault sentinelText original)
          (Error quote showFault sentinelText e).
Proof.
  intros Hnets Hdeploy Hfail.
  set (providerID := EncodeProviderID (api.Region (Config ex)) (servers.ID server)).
  assert (Hrun : CreateMachine ex machineName userData st =
                 (Err (deleteOnFail ex machineName providerID server original st3).1,
                  (deleteOnFail ex machineName providerID server original st3).2)).
  { unfold CreateMachine. unfold bind at 1. rewrite Hnets.
    unfold bind at 1. rewrite Hdeploy. fold providerID.
    destruct Hfail as [(err & Hwait & ->)|(err & st' & Hwait & Hpatch & ->)].
    - unfold bind at 1. rewrite Hwait. unfold bind.
      destruct (deleteOnFail _ _ _ _ _ st3) as [e stf]. reflexivity.
    - unfold bind at 1. rewrite Hwait. unfold bind at 1. rewrite Hpatch. unfold bind.
      destruct (deleteOnFail _ _ _ _ _ st3) as [e stf]. reflexivity. }
  rewrite deleteOnFail_unfold in Hrun. simpl in Hrun.
  eexists. split; [exact Hrun|].
  destruct (DeleteMachine ex machineName providerID st3).1 as [rollback|].
  - split; [split; [reflexivity|split; [reflexivity|]]|].
    + intros quote showFault sentinelText. simpl.
      do 3 apply occurs_in_tail. apply occurs_in_head.
    + intros quote showFault sentinelText. simpl.
      do 5 apply occurs_in_tail. apply occurs_in_head.
  - split; [reflexivity|].
    intros quote showFault sentinelText. apply occurs_in_self.
Qed.
End CreateProperties.

Module ProviderIDProperties.
Import ProviderIDFormat.

Lemma trimPrefix_app (prefix rest : string) : trimPrefix prefix (prefix +:+ rest) = Some rest.
Proof.
  induction prefix as [|c prefix IH]; [destruct rest; reflexivity|].
  change (trimPrefix (String c prefix) (String c (prefix +:+ rest)) = Some rest).
  simpl. rewrite Ascii.eqb_refl. exact IH.
Qed.

Lemma trimPrefix_Some (prefix s rest : string) :
  trimPrefix prefix s = Some rest → s = prefix +:+ rest.
Proof.
  revert s. induction prefix as [|c prefix IH]; intros s Htrim.
  - destruct s; simpl in Htrim; injection Htrim as <-; reflexivity.
  - destruct s as [|d s]; simpl in Htrim; [discriminate|].
    destruct (Ascii.eqb c d) eqn:Hcd; [|discriminate].
    apply Ascii.eqb_eq in Hcd. subst d.
    change (String c s = String c (prefix +:+ rest)). f_equal. apply IH. exact Htrim.
Qed.

Lemma cutSlash_app (region rest : string) :
  slashFree region = true → cutSlash (region +:+ "/" +:+ rest) = Some (region, rest).
Proof.
  induction region as [|c region IH]; intros Hfree; [reflexivity|].
  simpl in Hfree. apply andb_true_iff in Hfree as [Hc Hfree].
  change (cutSlash (String c (region +:+ "/" +:+ rest)) = Some (String c region, rest)).
  simpl. apply negb_true_iff in Hc. rewrite Hc, (IH Hfree). reflexivity.
Qed.

Lemma cutSlash_Some (s before after : string) :
  cutSlash s = Some (before, after) → s = before +:+ "/" +:+ after.
Proof.
  revert before. induction s as [|c s IH]; intros before Hcut; simpl in Hcut; [discriminate|].
  destruct (Ascii.eqb c "/") eqn:Hc.
  - apply Ascii.eqb_eq in Hc. subst c. injection Hcut as <- <-. reflexivity.
  - destruct (cutSlash s) as [[b a]|]; [|discriminate].
    injection Hcut as <- <-.
    change (String c s = String c (b +:+ "/" +:+ a)). f_equal. apply IH. reflexivity.
Qed.

Lemma parseProviderID_Some (id region machineID : string) :
  parseProviderID id = Some (region, machineID) →
  region ≠ "" ∧ machineID ≠ "" ∧ id = EncodeProviderID region machineID.
Proof.
  unfold parseProviderID. intros Hparse.
  destruct (trimPrefix "openstack:///" id) as [rest|] eqn:Htrim; [|discriminate].
  destruct (cutSlash rest) as [[r m]|] eqn:Hcut; [|discriminate].
  destruct (String.eqb r "") eqn:Hr; [discriminate|].
  destruct (String.eqb m "") eqn:Hm; [discriminate|].
  injection Hparse as <- <-.
  apply String.eqb_neq in Hr, Hm. split; [exact Hr|]. split; [exact Hm|].
  apply trimPrefix_Some in Htrim. apply cutSlash_Some in Hcut. subst rest. exact Htrim.
Qed.

(** The wire format cannot be decoded without loss on all pairs of
    non-empty strings, whatever the decoder: two pairs share an encoding. *)
Lemma no_lossless_decoder (decode : string → string * string) :
  ¬ ∀ region machineID : string,
      region ≠ "" → machineID ≠ "" →
      decode (EncodeProviderID region machineID) = (region, machineID).
Proof.
  intros Hall.
  pose proof (Hall "a/b" "c" ltac:(discriminate) ltac:(discriminate)) as H1.
  pose proof (Hall "a" "b/c" ltac:(discriminate) ltac:(discriminate)) as H2.
  change (EncodeProviderID "a" "b/c") with (EncodeProviderID "a/b" "c") in H2.
  rewrite H1 in H2. discriminate H2.
Qed.

(** C9, as the wire format allows it.  Encoding a region and an instance id
    that are not empty and contain no slash, and decoding the result, gives
    both back; and a string that is not of the shape of the wire format
    decodes to the empty id. *)
Theorem ProviderID_round_trip :
  (∀ region machineID : string,
     region ≠ "" → machineID ≠ "" →
     slashFree region = true → slashFree machineID = true →
     parseProviderID (EncodeProviderID region machineID) = Some (region, machineID)
     ∧ DecodeProviderID (EncodeProviderID region machineID) = machineID)
  ∧ (∀ id : string, ¬ wellShaped id → DecodeProviderID id = "").
Proof.
  split.
  - intros region machineID Hr Hm Hfr _.
    assert (Hparse : parseProviderID (EncodeProviderID region machineID)
                     = Some (region, machineID)).
    { unfold parseProviderID, EncodeProviderID.
      rewrite trimPrefix_app, (cutSlash_app _ _ Hfr).
      apply String.eqb_neq in Hr, Hm. rewrite Hr, Hm. reflexivity. }
    split; [exact Hparse|]. unfold DecodeProviderID. rewrite Hparse. reflexivity.
  - intros id Hshape. unfold DecodeProviderID.
    destruct (parseProviderID id) as [[region machineID]|] eqn:Hparse; [|reflexivity].
    exfalso. apply Hshape. exists region, machineID.
    apply parseProviderID_Some. exact Hparse.
Qed.

Lemma ProviderID_round_trip_witness :
  (parseProviderID (EncodeProviderID "eu-de-1" "id-1") = Some ("eu-de-1", "id-1")
   ∧ DecodeProviderID (EncodeProviderID "eu-de-1" "id-1") = "id-1")
  ∧ DecodeProviderID "id-1" = "".
Proof.
  split.
  - apply (proj1 ProviderID_round_trip "eu-de-1" "id-1");
      [discriminate|discriminate|reflexivity|reflexivity].
  - apply (proj2 ProviderID_round_trip "id-1").
    intros (region & machineID & _ & _ & Heq). discriminate Heq.
Defined.

(** C9 as stated does not hold: a region with a slash is not given back. *)
Lemma ProviderID_round_trip_loses_slash :
  "a/b" ≠ "" ∧ "c" ≠ ""
  ∧ parseProviderID (EncodeProviderID "a/b" "c") ≠ Some ("a/b", "c")
  ∧ DecodeProviderID (EncodeProviderID "a/b" "c") ≠ "c".
Proof. repeat split; discriminate. Qed.
End ProviderIDProperties.

(** ** The properties on the scripted cloud *)

Lemma getMachineByName_by_survivors_witness :
  ∃ r, getMachineByName (H:=plainUtils) (fake.executor fake.config) "machine-0"
         (fake.cloudWith [] [fake.machine "ACTIVE"; fake.server "id-2" "machine-0" "ACTIVE" []]
            [] fake.quota, [])
       = (r, (fake.cloudWith [] [fake.machine "ACTIVE"; fake.server "id-2" "machine-0" "ACTIVE" []]
                [] fake.quota,
              [] ++ [CallListServers {| servers.ListOpts_Name := "machine-0" |}]))
       ∧ r = Ok (fake.machine "ACTIVE").
Proof.
  apply (getMachineByName_by_survivors (H:=plainUtils) (fake.executor fake.config)
           "machine-0" (_, []) [fake.machine "ACTIVE"; fake.server "id-2" "machine-0" "ACTIVE" []]).
  - vm_compute. discriminate.
  - vm_compute. discriminate.
  - reflexivity.
Defined.

Lemma DeleteMachine_absent_is_success_witness :
  DeleteMachine (H:=plainUtils) (fake.executor fake.config) "machine-0"
    "openstack:///eu-de-1/id-1" (fake.cloud, [])
  = (None, (fake.cloud, [CallGetServer "id-1"])).
Proof.
  apply (DeleteMachine_absent_is_success (H:=plainUtils) (fake.executor fake.config)
           "machine-0" "openstack:///eu-de-1/id-1" (fake.cloud, [])
           (Errorf [Lit "could not find server [ID="; VerbQ "id-1"; Lit "]: "; VerbW ErrNotFound])).
  - reflexivity.
  - reflexivity.
Defined.

Lemma DeleteMachine_malformed_identifier_witness :
  DeleteMachine (H:=plainUtils) (fake.executor fake.config) "machine-0" "id-1"
    (fake.cloudWith [Ok (fake.machine "ACTIVE")] [] [] fake.quota, [])
  = (Some (Errorf [Lit "could not parse serverID from providerID "; VerbQ "id-1"]),
     (fake.cloudWith [Ok (fake.machine "ACTIVE")] [] [] fake.quota, []))
  ∧ errors_Is (Errorf [Lit "could not parse serverID from providerID "; VerbQ "id-1"])
      ErrNotFound = false.
Proof.
  apply (DeleteMachine_malformed_identifier (H:=plainUtils) (fake.executor fake.config)
           "machine-0" "id-1"); reflexivity.
Defined.

Lemma DeleteMachine_port_cleanup_witness :
  DeleteMachine (H:=plainUtils) (fake.executor fake.subnetConfig) "machine-0"
    "openstack:///eu-de-1/id-1" (fake.cloudWith [Ok (fake.machine "ACTIVE")] [] [] fake.quota, [])
  = (None, (fake.cloud, [CallGetServer "id-1"; CallDeleteServer "id-1"; CallGetServer "id-1";
                         CallPortIDFromName "machine-0"])).
Proof.
  destruct (DeleteMachine_port_cleanup (H:=plainUtils) (fake.executor fake.subnetConfig)
              "machine-0" "openstack:///eu-de-1/id-1"
              (fake.cloudWith [Ok (fake.machine "ACTIVE")] [] [] fake.quota, [])
              (fake.machine "ACTIVE") (fake.cloud, [CallGetServer "id-1"]) fake.cloud
              (fake.cloud, [CallGetServer "id-1"; CallDeleteServer "id-1"; CallGetServer "id-1"])
              eq_refl eq_refl eq_refl) as (Hrun & _ & Habsent & _).
  rewrite Hrun. exact (Habsent fake.notFound fake.cloud eq_refl eq_refl).
Defined.

Lemma waitForStatus_scripted_witness :
  waitForStatus (fake.executor fake.config) "id-1" [client.ServerStatusBuild]
    [client.ServerStatusActive] 600
    (fake.cloudWith [Ok (fake.machine "BUILD"); Ok (fake.machine "BUILD");
                     Ok (fake.machine "ACTIVE")] [] [] fake.quota, [])
  = (None, (fake.cloud, [CallGetServer "id-1"; CallGetServer "id-1"; CallGetServer "id-1"]))
  ∧ waitForStatus (fake.executor fake.config) "id-1" [client.ServerStatusBuild]
      [client.ServerStatusActive] 600
      (fake.cloudWith [Ok (fake.machine "BUILD"); Ok (fake.machine "ERROR")] [] [] fake.quota, [])
    = (Some (Errorf [VerbS (Errorf [Lit "server [ID="; VerbQ "id-1";
                                    Lit "] reached unexpected status "; VerbQ "ERROR"]);
                     Lit ", fault: "; VerbPlusV (servers.Fault (fake.machine "ERROR"))]),
       (fake.cloud, [CallGetServer "id-1"; CallGetServer "id-1"]))
  ∧ waitForStatus (fake.executor fake.config) "id-1" [] [client.ServerStatusDeleted] 300
      (fake.cloud, [])
    = (None, (fake.cloud, [CallGetServer "id-1"])).
Proof.
  split; [|split].
  - apply (proj1 (waitForStatus_scripted (fake.executor fake.config) "id-1" (_, []))
             600%Z (fake.machine "BUILD") (fake.machine "BUILD") (fake.machine "ACTIVE")).
    + simpl. eexists; split; [reflexivity|]. eexists; split; [reflexivity|].
      eexists; split; reflexivity.
    + reflexivity.
    + reflexivity.
    + reflexivity.
    + lia.
  - apply (proj1 (proj2 (waitForStatus_scripted (fake.executor fake.config) "id-1" (_, [])))
             600%Z (fake.machine "BUILD") (fake.machine "ERROR")).
    + simpl. eexists; split; [reflexivity|]. eexists; split; reflexivity.
    + reflexivity.
    + reflexivity.
    + lia.
  - apply (proj2 (proj2 (waitForStatus_scripted (fake.executor fake.config) "id-1"
                           (fake.cloud, [])))
             300%Z [] [client.ServerStatusDeleted] fake.notFound).
    + reflexivity.
    + reflexivity.
    + reflexivity.
    + lia.
Defined.

Lemma computeServerNetworks_preallocates_port_witness :
  computeServerNetworks (H:=plainUtils) (fake.executor fake.subnetConfig) "machine-0"
    (fake.cloud, [])
  = (Ok [{| servers.UUID := "net-1"; servers.Port := "port-of-machine-0" |}],
     (fake.cloud,
      [CallGetSubnet "subnet-1"; CallGroupIDFromName "sg-a"; CallGroupIDFromName "sg-b";
       CallCreatePort
         {| ports.CreateOpts_Name := "machine-0";
            ports.CreateOpts_NetworkID := "net-1";
            ports.FixedIPs := [{| ports.SubnetID := "subnet-1" |}];
            ports.CreateOpts_AllowedAddressPairs := [{| ports.IPAddress := "100.96.0.0/11" |}];
            ports.SecurityGroups := Some ["sg-a-id"; "sg-b-id"] |}])).
Proof.
  refine (proj1 (computeServerNetworks_preallocates_port (H:=plainUtils)
                   (fake.executor fake.subnetConfig) "machine-0" (fake.cloud, []) "subnet-1"
                   eq_refl eq_refl eq_refl)
            "subnet-1" fake.cloud fake.cloud fake.cloud ["sg-a-id"; "sg-b-id"]
            {| ports.ID := "port-of-machine-0"; ports.NetworkID := "net-1";
               ports.AllowedAddressPairs := [{| ports.IPAddress := "100.96.0.0/11" |}] |}
            eq_refl _ eq_refl).
  simpl. eexists; split; [reflexivity|]. eexists; split; reflexivity.
Defined.

Lemma computePodNetworkIDs_filters_by_pod_networks_witness :
  computePodNetworkIDs (H:=plainUtils) (fake.executor fake.podConfig) "id-1"
    (fake.threePorts, [])
  = (Ok [fake.portOn "p1" "net-1"; fake.portOn "p3" "net-a-id"],
     (fake.threePorts,
      [CallNetworkIDFromName "net-a"; CallListPorts {| ports.DeviceID := "id-1" |}])).
Proof.
  pose proof (computePodNetworkIDs_filters_by_pod_networks (H:=plainUtils)
                (fake.executor fake.podConfig) "id-1" (fake.threePorts, []))
    as (_ & Hset & Hfilter).
  specialize (Hset ["net-1"; "net-a-id"] fake.threePorts eq_refl).
  assert (Hres : podNetworkIDs (H:=plainUtils) (fake.executor fake.podConfig)
                   (fake.threePorts, [])
                 = (Ok (list_to_set ["net-1"; "net-a-id"]),
                    (fake.threePorts, [CallNetworkIDFromName "net-a"]))).
  { apply Hset. simpl. split; [reflexivity|]. eexists; split; reflexivity. }
  rewrite (Hfilter _ _ _ _ Hres eq_refl). vm_compute. reflexivity.
Defined.

(** C6 as the specification words it does not hold: the network of an entry
    that is not flagged as pod network is attached at creation, and a port on
    it is no candidate at discovery. *)
Lemma computePodNetworkIDs_not_creation_networks :
  computeServerNetworks (H:=plainUtils) (fake.executor fake.listConfig) "machine-0"
    (fake.cloudWith [] [] [fake.portOn "p1" "net-1"] fake.quota, [])
  = (Ok [{| servers.UUID := "net-1"; servers.Port := "" |}],
     (fake.cloudWith [] [] [fake.portOn "p1" "net-1"] fake.quota, []))
  ∧ computePodNetworkIDs (H:=plainUtils) (fake.executor fake.listConfig) "id-1"
      (fake.cloudWith [] [] [fake.portOn "p1" "net-1"] fake.quota, [])
    = (Err (Errorf [Lit "no port candidates found for pod network"]),
       (fake.cloudWith [] [] [fake.portOn "p1" "net-1"] fake.quota,
        [CallListPorts {| ports.DeviceID := "id-1" |}])).
Proof. split; vm_compute; reflexivity. Qed.

Lemma CreateMachine_rolls_back_witness :
  ∃ (e : error) (st' : fake.Cloud * list Call),
    CreateMachine (H:=plainUtils) (fake.executor fake.config) "machine-0" []
      (fake.failing, []) = (Err e, st')
    ∧ e = Errorf [Lit "error deleting server [ID="; VerbQ "id-1";
                  Lit "] after unsuccessful creation attempt: ";
                  VerbW (ClientError false "boom");
                  Lit ". Original error: "; VerbV fake.waitFailure]
    ∧ ∀ quote showFault sentinelText,
        occurs_in "boom" (Error quote showFault sentinelText e)
        ∧ occurs_in (Error quote showFault sentinelText fake.waitFailure)
            (Error quote showFault sentinelText e).
Proof.
  destruct (CreateMachine_rolls_back (H:=plainUtils) (fake.executor fake.config) "machine-0" []
              (fake.failing, []) _ _ _ _ fake.waitFailure _ eq_refl eq_refl
              (or_introl (ex_intro _ _ (conj eq_refl eq_refl))))
    as (e & Hrun & Hrollback & Horiginal).
  exists e. eexists. split; [exact Hrun|].
  destruct Hrollback as (He & _ & Hin). split; [exact He|].
  intros quote showFault sentinelText. split; [apply Hin|apply Horiginal].
Defined.

Lemma ownership_is_two_tag_keys_witness :
  (In "kubernetes.io-cluster-shoot" (map fst fake.owned)
   ∧ strings_Contains "kubernetes.io-cluster-shoot" "kubernetes.io-cluster-" = true)
  ∧ ∃ r, getMachineByProviderID (H:=plainUtils) (fake.executor fake.config)
           "openstack:///eu-de-1/id-1"
           (fake.cloudWith [Ok (fake.machine "ACTIVE")] [] [] fake.quota, [])
         = (r, (fake.cloud, [] ++ [CallGetServer "id-1"]))
         ∧ r = Ok (fake.machine "ACTIVE").
Proof.
  pose proof (ownership_is_two_tag_keys (H:=plainUtils) (fake.executor fake.config))
    as (Hcluster & _ & _ & Hid & _ & _).
  split.
  - apply Hcluster. discriminate.
  - apply (Hid "openstack:///eu-de-1/id-1"
             (fake.cloudWith [Ok (fake.machine "ACTIVE")] [] [] fake.quota, [])
             (fake.machine "ACTIVE") fake.cloud); reflexivity.
Defined.

(** C7 as the specification words it does not hold: tag names that carry the
    prefixes in their middle are taken for the ownership keys, and a server
    with these keys is found by its name. *)
Lemma ownership_keys_not_prefix_matched :
  searchTags (H:=plainUtils) fake.infixTags
  = ("x-kubernetes.io-cluster-shoot", "x-kubernetes.io-role-node")
  ∧ strings_HasPrefix "x-kubernetes.io-cluster-shoot" (@ServerTagClusterPrefix plainUtils)
    = false
  ∧ strings_HasPrefix "x-kubernetes.io-role-node" (@ServerTagRolePrefix plainUtils) = false
  ∧ getMachineByName (H:=plainUtils)
      (fake.executor (fake.configWith "" None [] [] fake.infixTags)) "machine-0"
      (fake.cloudWith [] [fake.server "id-1" "machine-0" "ACTIVE" fake.infixTags] []
         fake.quota, [])
    = (Ok (fake.server "id-1" "machine-0" "ACTIVE" fake.infixTags),
       (fake.cloudWith [] [fake.server "id-1" "machine-0" "ACTIVE" fake.infixTags] []
          fake.quota,
        [CallListServers {| servers.ListOpts_Name := "machine-0" |}])).
Proof. repeat split. Qed.

(** * Further properties of the executor *)

(** ** The requests of a run *)

Section Requests.
Context {W : Type}.

Lemma issues_ret {A} (Q : list Call → Prop) (a : A) : Q [] → issues Q (ret (W:=W) a).
Proof. intros HQ st. exists []. rewrite app_nil_r. split; [reflexivity|exact HQ]. Qed.

Lemma issues_request {A} (Q : list Call → Prop) (c : Call) (f : W → A * W) :
  Q [c] → issues Q (request c f).
Proof.
  intros HQ st. exists [c]. unfold request. destruct (f st.1) as [a w'].
  split; [reflexivity|exact HQ].
Qed.

Lemma issues_bind {A B} (Q1 Q2 Q : list Call → Prop) (m : M W A) (k : A → M W B) :
  issues Q1 m → (∀ a, issues Q2 (k a)) →
  (∀ d1 d2, Q1 d1 → Q2 d2 → Q (d1 ++ d2)) →
  issues Q (bind m k).
Proof.
  intros Hm Hk Hjoin st. unfold bind.
  destruct (Hm st) as (d1 & E1 & H1). destruct (m st) as [a st1].
  destruct (Hk a st1) as (d2 & E2 & H2).
  exists (d1 ++ d2). split; [|apply Hjoin; assumption].
  rewrite E2. simpl in E1. rewrite E1, app_assoc. reflexivity.
Qed.

Lemma issues_weaken {A} (Q Q' : list Call → Prop) (m : M W A) :
  (∀ d, Q d → Q' d) → issues Q m → issues Q' m.
Proof.
  intros Himp Hm st. destruct (Hm st) as (d & E & HQ). exists d. split; [exact E|auto].
Qed.

Lemma only_ret {A} (f : Call → bool) (a : A) : only f (ret (W:=W) a).
Proof. apply issues_ret. constructor. Qed.

Lemma only_request {A} (f : Call → bool) (c : Call) (g : W → A * W) :
  f c = true → only f (request c g).
Proof. intros Hc. apply issues_request. constructor; [exact Hc|constructor]. Qed.

Lemma only_bind {A B} (f : Call → bool) (m : M W A) (k : A → M W B) :
  only f m → (∀ a, only f (k a)) → only f (bind m k).
Proof.
  intros Hm Hk. apply (issues_bind _ _ _ m k Hm Hk).
  intros d1 d2 H1 H2. apply Forall_app. split; assumption.
Qed.

Lemma only_weaken {A} (f g : Call → bool) (m : M W A) :
  (∀ c, f c = true → g c = true) → only f m → only g m.
Proof.
  intros Himp. apply issues_weaken. intros d Hd.
  eapply Forall_impl; [exact Hd|exact Himp].
Qed.

Lemma countIn_app (f : Call → bool) (d1 d2 : list Call) :
  countIn f (d1 ++ d2) = (countIn f d1 + countIn f d2)%nat.
Proof. unfold countIn. rewrite List.filter_app, length_app. reflexivity. Qed.

Lemma countIn_none (f g : Call → bool) (d : list Call) :
  (∀ c, g c = true → f c = false) → Forall (λ c, g c = true) d → countIn f d = 0%nat.
Proof.
  intros Hex Hd. unfold countIn. induction Hd as [|c d Hc Hd IH]; [reflexivity|].
  simpl. rewrite (Hex c Hc). exact IH.
Qed.

Lemma atMost_ret {A} (n : nat) (f : Call → bool) (a : A) : atMost n f (ret (W:=W) a).
Proof. apply issues_ret. unfold countIn. simpl. lia. Qed.

Lemma atMost_bind {A B} (n1 n2 n : nat) (f : Call → bool) (m : M W A) (k : A → M W B) :
  atMost n1 f m → (∀ a, atMost n2 f (k a)) → (n1 + n2 ≤ n)%nat → atMost n f (bind m k).
Proof.
  intros Hm Hk Hn. apply (issues_bind _ _ _ m k Hm Hk).
  intros d1 d2 H1 H2. rewrite countIn_app. lia.
Qed.

Lemma atMost_request {A} (n : nat) (f : Call → bool) (c : Call) (g : W → A * W) :
  (1 ≤ n)%nat → atMost n f (request c g).
Proof.
  intros Hn. apply issues_request. unfold countIn. simpl. destruct (f c); simpl; lia.
Qed.

Lemma only_atMost {A} (n : nat) (f g : Call → bool) (m : M W A) :
  (∀ c, g c = true → f c = false) → only g m → atMost n f m.
Proof.
  intros Hex. apply issues_weaken. intros d Hd. rewrite (countIn_none f g d Hex Hd). lia.
Qed.
End Requests.

(** ** The status poller *)

Section PollerRuns.
Context {W : Type}.
Implicit Types (ex : Executor W) (st : W * list Call).
Local Arguments Poll : simpl never.

Lemma answers_app (c : client.Compute W) (id : string) (s1 s2 : list (result servers.Server)) :
  ∀ (w w' : W),
    answers c id w (s1 ++ s2) w' ↔ ∃ w1, answers c id w s1 w1 ∧ answers c id w1 s2 w'.
Proof.
  induction s1 as [|r s1 IH]; intros w w'; simpl.
  - split; [intros Hrest; exists w; split; [reflexivity|exact Hrest]|].
    intros (w1 & -> & Hrest). exact Hrest.
  - split.
    + intros (w0 & Hget & Hrest). apply IH in Hrest as (w1 & H1 & H2).
      exists w1. split; [exists w0; split; assumption|exact H2].
    + intros (w1 & (w0 & Hget & H1) & H2). exists w0. split; [exact Hget|].
      apply IH. exists w1. split; assumption.
Qed.

Lemma statusCondition_waiting ex (serverID : string) (pending target : list string) st
    (current : servers.Server) (w' : W) :
  client.GetServer (Compute ex) serverID st.1 = (Ok current, w') →
  keepsWaiting pending target current = true →
  statusCondition ex serverID pending target st
  = ((false, None), (w', st.2 ++ [CallGetServer serverID])).
Proof.
  intros Hget Hkeep. rewrite (statusCondition_found ex _ _ _ st current w' Hget).
  unfold keepsWaiting in Hkeep. apply andb_true_iff in Hkeep as [Hnt Hp].
  apply negb_true_iff in Hnt. rewrite Hnt, Hp. reflexivity.
Qed.

(** Servers that keep the wait going use up one tick and one query each. *)
Lemma Poll_waiting ex (serverID : string) (pending target : list string)
    (waiting : list servers.Server) :
  ∀ st (w1 : W) (ticks : nat),
    answers (Compute ex) serverID st.1 (map Ok waiting) w1 →
    Forall (λ s, keepsWaiting pending target s = true) waiting →
    Poll (length waiting + ticks) (statusCondition ex serverID pending target) st
    = Poll ticks (statusCondition ex serverID pending target)
        (w1, st.2 ++ repeat (CallGetServer serverID) (length waiting)).
Proof.
  induction waiting as [|s waiting IH]; intros [w tr] w1 ticks Hans Hkeep.
  - simpl in Hans. subst w1. simpl. rewrite app_nil_r. reflexivity.
  - simpl in Hans. destruct Hans as (w0 & Hget & Hrest).
    apply Forall_cons in Hkeep as [Hs Hkeep].
    change (length (s :: waiting) + ticks)%nat with (S (length waiting + ticks)).
    rewrite Poll_tick, (statusCondition_waiting ex _ _ _ (w, tr) s w0 Hget Hs).
    cbv beta iota. cbn [fst snd].
    rewrite (IH (w0, tr ++ [CallGetServer serverID]) w1 ticks Hrest Hkeep).
    simpl. rewrite <- app_assoc. reflexivity.
Qed.

(** X1. The wait succeeds with the first answer that shows a target status,
    however many answers before it kept it waiting, as long as the deadline
    leaves room for one more query: it has then issued one GetServer request per
    answer. *)
Theorem waitForStatus_reaches_target ex (serverID : string) (pending target : list string)
    (secs : Z) st (waiting : list servers.Server) (final : servers.Server) (w' : W) :
  answers (Compute ex) serverID st.1 (map Ok waiting ++ [Ok final]) w' →
  Forall (λ s, keepsWaiting pending target s = true) waiting →
  strSliceContains target (servers.Status final) = true →
  (length waiting < Z.to_nat secs)%nat →
  waitForStatus ex serverID pending target secs st
  = (None, (w', st.2 ++ repeat (CallGetServer serverID) (S (length waiting)))).
Proof.
  intros Hans Hkeep Hfinal Hsecs.
  apply answers_app in Hans as (w1 & Hwaiting & w2 & Hget & ->).
  unfold waitForStatus.
  replace (Z.to_nat secs) with (length waiting + S (Z.to_nat secs - S (length waiting)))%nat
    by lia.
  rewrite (Poll_waiting ex _ _ _ waiting st w1 _ Hwaiting Hkeep).
  rewrite Poll_tick, (statusCondition_found ex _ _ _ (w1, _) final w2 Hget), Hfinal.
  simpl. rewrite <- app_assoc.
  change [CallGetServer serverID] with (repeat (CallGetServer serverID) 1).
  rewrite <- repeat_app. replace (length waiting + 1)%nat with (S (length waiting)) by lia.
  reflexivity.
Qed.


Lemma statusCondition_one_request ex (serverID : string) (pending target : list string) st :
  (statusCondition ex serverID pending target st).2.2 = st.2 ++ [CallGetServer serverID].
Proof.
  unfold statusCondition, bind, request.
  destruct (client.GetServer (Compute ex) serverID st.1) as [[current|err] w'].
  - destruct (strSliceContains target (servers.Status current)); [reflexivity|].
    destruct ((length pending =? 0)%nat || strSliceContains pending (servers.Status current));
      reflexivity.
  - destruct (IsNotFoundError err && strSliceContains target client.ServerStatusDeleted);
      reflexivity.
Qed.

Lemma Poll_queries ex (serverID : string) (pending target : list string) (ticks : nat) :
  ∀ st, ∃ n : nat,
    (n ≤ ticks)%nat
    ∧ (Poll ticks (statusCondition ex serverID pending target) st).2.2
      = st.2 ++ repeat (CallGetServer serverID) n
    ∧ ((Poll ticks (statusCondition ex serverID pending target) st).1 = None → (1 ≤ n)%nat)
    ∧ ((Poll ticks (statusCondition ex serverID pending target) st).1 = Some ErrWaitTimeout
       ∨ (1 ≤ n)%nat).
Proof.
  induction ticks as [|ticks IH]; intros st.
  - exists 0%nat. simpl. rewrite app_nil_r.
    split; [lia|]. split; [reflexivity|]. split; [discriminate|left; reflexivity].
  - rewrite Poll_tick.
    pose proof (statusCondition_one_request ex serverID pending target st) as Hone.
    destruct (statusCondition ex serverID pending target st) as [[done err] st1].
    simpl in Hone.
    destruct done, err as [err|].
    + exists 1%nat. simpl.
      split; [lia|]. split; [exact Hone|]. split; [discriminate|right; lia].
    + exists 1%nat. simpl. split; [lia|]. split; [exact Hone|]. split; [lia|right; lia].
    + exists 1%nat. simpl.
      split; [lia|]. split; [exact Hone|]. split; [discriminate|right; lia].
    + destruct (IH st1) as (n & Hn & Htrace & Hsucc & Hout). exists (S n).
      split; [lia|]. split.
      * rewrite Htrace, Hone, <- app_assoc. reflexivity.
      * split; [intros _; lia|right; lia].
Qed.


Lemma waitForStatus_only ex (serverID : string) (pending target : list string) (secs : Z) :
  only (isGetServer serverID) (waitForStatus ex serverID pending target secs).
Proof.
  intros st. unfold waitForStatus.
  destruct (Poll_queries ex serverID pending target (Z.to_nat secs) st)
    as (n & _ & Htrace & _).
  exists (repeat (CallGetServer serverID) n). split; [exact Htrace|].
  clear. induction n as [|n IH]; simpl; constructor; [|exact IH].
  simpl. apply String.eqb_refl.
Qed.
End PollerRuns.

(** ** Which requests the operations issue *)

Section RequestDiscipline.
Context {W : Type} `{Utils}.
Implicit Types (ex : Executor W) (st : W * list Call).

Ltac only_tac :=
  repeat first
    [ apply only_ret
    | apply only_request; reflexivity
    | apply only_bind; [|intros ?]
    | match goal with
      | |- only _ (match ?x with _ => _ end) => destruct x
      end ].

Ltac weaken_from lemma :=
  eapply only_weaken; [|apply lemma];
  let c := fresh "c" in let Hc := fresh "Hc" in
  intros c Hc; destruct c; simpl in Hc |- *; try discriminate Hc; reflexivity.

Lemma getMachineByName_only ex (machineName : string) :
  only readOnly (getMachineByName ex machineName).
Proof. unfold getMachineByName. only_tac. Qed.

Lemma getMachineByProviderID_only ex (providerID : string) :
  only readOnly (getMachineByProviderID ex providerID).
Proof. unfold getMachineByProviderID. only_tac. Qed.

Lemma locate_only ex (machineName providerID : string) :
  only readOnly (locate ex machineName providerID).
Proof.
  unfold locate. destruct (isEmptyString (Some providerID));
    [apply getMachineByName_only|apply getMachineByProviderID_only].
Qed.

Lemma waitForStatus_reads ex (serverID : string) (pending target : list string) (secs : Z) :
  only readOnly (waitForStatus ex serverID pending target secs).
Proof. weaken_from (waitForStatus_only ex serverID pending target secs). Qed.

Lemma resolvePodNetworks_only ex (networks : list api.OpenStackNetwork) :
  ∀ acc : gset string, only readOnly (resolvePodNetworks ex networks acc).
Proof.
  induction networks as [|network networks IH]; intros acc; simpl; [apply only_ret|].
  destruct (api.PodNetwork network); [|apply IH].
  destruct (isEmptyString (Some (api.Id network))); [|apply IH].
  apply only_bind; [apply only_request; reflexivity|].
  intros [id|err]; [apply IH|apply only_ret].
Qed.

Lemma computePodNetworkIDs_only ex (serverID : string) :
  only readOnly (computePodNetworkIDs ex serverID).
Proof.
  unfold computePodNetworkIDs. apply only_bind.
  - unfold podNetworkIDs. destruct (negb _); [apply only_ret|apply resolvePodNetworks_only].
  - intros r. only_tac.
Qed.

Lemma deletePort_only ex (machineName : string) :
  only (λ c, readOnly c || isDeletePort c) (deletePort ex machineName).
Proof. unfold deletePort. only_tac. Qed.

Ltac zero_from lemma :=
  eapply only_atMost; [|apply lemma];
  let c := fresh "c" in let Hc := fresh "Hc" in
  intros c Hc; destruct c; simpl in Hc |- *; try discriminate Hc; reflexivity.

Lemma GetMachineStatus_only ex (machineName : string) :
  only readOnly (GetMachineStatus ex machineName).
Proof.
  unfold GetMachineStatus. apply only_bind; [apply getMachineByName_only|].
  intros [server|err]; [|apply only_ret].
  apply only_bind; [|intros [err|]; apply only_ret].
  unfold verifyServerPortsForPodNetwork.
  apply only_bind; [apply computePodNetworkIDs_only|]. intros r. only_tac.
Qed.

Lemma ListMachines_only ex : only readOnly (ListMachines ex).
Proof. unfold ListMachines. only_tac. Qed.

(** X4. GetMachineStatus and ListMachines never change anything at the
    provider: every request they issue is a query (a get, a list or a name
    lookup). *)
Theorem status_and_listing_are_read_only ex (machineName : string) st :
  (∃ delta, (GetMachineStatus ex machineName st).2.2 = st.2 ++ delta
            ∧ Forall (λ c, readOnly c = true) delta)
  ∧ (∃ delta, (ListMachines ex st).2.2 = st.2 ++ delta
              ∧ Forall (λ c, readOnly c = true) delta).
Proof. split; [apply GetMachineStatus_only|apply ListMachines_only]. Qed.

Lemma DeleteMachine_tail_only ex (machineName : string) (server : servers.Server) :
  only (λ c, readOnly c || isDeletePort c)
    (let* err := waitForStatus ex (servers.ID server) [] [client.ServerStatusDeleted] 300 in
     match err with
     | Some err =>
         ret (Some (Errorf [Lit "error while waiting for server [ID=";
                            VerbQ (servers.ID server); Lit "] to be deleted: "; VerbV err]))
     | None =>
         if negb (isEmptyString (api.SubnetID (Config ex))) then deletePort ex machineName
         else ret None
     end).
Proof.
  apply only_bind; [weaken_from (waitForStatus_reads ex (servers.ID server) []
                                   [client.ServerStatusDeleted] 300)|].
  intros [err|]; [apply only_ret|].
  destruct (negb _); [apply deletePort_only|apply only_ret].
Qed.

Lemma DeleteMachine_only ex (machineName providerID : string) :
  only (λ c, readOnly c || isDeleteServer c || isDeletePort c)
    (DeleteMachine ex machineName providerID).
Proof.
  unfold DeleteMachine. fold (locate ex machineName providerID).
  apply only_bind; [weaken_from (locate_only ex machineName providerID)|].
  intros [server|err]; [|destruct (errors_Is err ErrNotFound); apply only_ret].
  apply only_bind; [apply only_request; reflexivity|].
  intros [err|]; [apply only_ret|].
  weaken_from (DeleteMachine_tail_only ex machineName server).
Qed.

Lemma DeleteMachine_atMost ex (machineName providerID : string) :
  atMost 1 isDeleteServer (DeleteMachine ex machineName providerID).
Proof.
  unfold DeleteMachine. fold (locate ex machineName providerID).
  apply (atMost_bind 0 1 1); [zero_from (locate_only ex machineName providerID)| |lia].
  intros [server|err]; [|destruct (errors_Is err ErrNotFound); apply atMost_ret].
  apply (atMost_bind 1 0 1); [apply atMost_request; lia| |lia].
  intros [err|]; [apply atMost_ret|].
  zero_from (DeleteMachine_tail_only ex machineName server).
Qed.

(** X5. DeleteMachine issues at most one DeleteServer request, and apart
    from queries nothing but DeleteServer and DeletePort: it never creates
    or updates anything. *)
Theorem DeleteMachine_requests ex (machineName providerID : string) st :
  ∃ delta, (DeleteMachine ex machineName providerID st).2.2 = st.2 ++ delta
           ∧ Forall (λ c, readOnly c || isDeleteServer c || isDeletePort c = true) delta
           ∧ (countIn isDeleteServer delta ≤ 1)%nat.
Proof.
  destruct (DeleteMachine_only ex machineName providerID st) as (d & E & Hall).
  destruct (DeleteMachine_atMost ex machineName providerID st) as (d' & E' & Hcount).
  exists d. split; [exact E|]. split; [exact Hall|].
  rewrite E in E'. apply app_inv_head in E'. subst d'. exact Hcount.
Qed.

Lemma resolveSecurityGroups_only ex (groups : list string) :
  ∀ acc : list string, only readOnly (resolveSecurityGroups ex groups acc).
Proof.
  induction groups as [|group groups IH]; intros acc; simpl; [apply only_ret|].
  apply only_bind; [apply only_request; reflexivity|].
  intros [id|err]; [apply IH|apply only_ret].
Qed.

Lemma resolveNetworks_only ex (networks : list api.OpenStackNetwork) :
  ∀ acc : list servers.Network, only readOnly (resolveNetworks ex networks acc).
Proof.
  induction networks as [|network networks IH]; intros acc; simpl; [apply only_ret|].
  destruct (isEmptyString (Some (api.Id network))); [|apply IH].
  apply only_bind; [apply only_request; reflexivity|].
  intros [id|err]; [apply IH|apply only_ret].
Qed.

Lemma computeServerNetworks_only ex (machineName : string) :
  only (λ c, readOnly c || isCreatePort c) (computeServerNetworks ex machineName).
Proof.
  unfold computeServerNetworks.
  destruct (negb (isEmptyString (Some (api.NetworkID (Config ex))))
            && negb (isEmptyString (api.SubnetID (Config ex)))).
  - apply only_bind; [apply only_request; reflexivity|].
    intros [found|err]; [|apply only_ret].
    apply only_bind; [weaken_from (resolveSecurityGroups_only ex
                                     (api.SecurityGroups (Config ex)) [])|].
    intros r. only_tac.
  - destruct (negb (isEmptyString (Some (api.NetworkID (Config ex)))));
      [apply only_ret|].
    weaken_from (resolveNetworks_only ex (api.Networks (Config ex)) []).
Qed.

Lemma deployServer_only ex (machineName : string) (userData : list Byte.byte)
    (nws : list servers.Network) :
  only (λ c, readOnly c || isCreateServer c) (deployServer ex machineName userData nws).
Proof. unfold deployServer, resourceInstanceBlockDevicesV2. only_tac. Qed.

Lemma deployServer_atMost ex (machineName : string) (userData : list Byte.byte)
    (nws : list servers.Network) :
  atMost 1 isCreateServer (deployServer ex machineName userData nws).
Proof.
  unfold deployServer, resourceInstanceBlockDevicesV2.
  apply (atMost_bind 0 1 1); [| |lia].
  - eapply (only_atMost 0 isCreateServer readOnly).
    + intros c Hc; destruct c; simpl in Hc |- *; try discriminate Hc; reflexivity.
    + only_tac.
  - intros [imageRef|err]; [|apply atMost_ret].
    apply (atMost_bind 0 1 1); [| |lia].
    + eapply (only_atMost 0 isCreateServer readOnly).
      * intros c Hc; destruct c; simpl in Hc |- *; try discriminate Hc; reflexivity.
      * apply only_request. reflexivity.
    + intros [flavorRef|err]; [|apply atMost_ret].
      destruct (0 <? api.RootDiskSize (Config ex))%Z; apply atMost_request; lia.
Qed.

Lemma updatePorts_only ex (podNetworkPorts : list ports.Port) :
  only (λ c, readOnly c || isUpdatePort c) (updatePorts ex podNetworkPorts).
Proof.
  induction podNetworkPorts as [|port rest IH]; simpl; [apply only_ret|].
  apply only_bind; [apply only_request; reflexivity|].
  intros [err|]; [apply only_ret|apply IH].
Qed.

Lemma patchServerPortsForPodNetwork_only ex (serverID : string) :
  only (λ c, readOnly c || isUpdatePort c) (patchServerPortsForPodNetwork ex serverID).
Proof.
  unfold patchServerPortsForPodNetwork.
  apply only_bind; [weaken_from (computePodNetworkIDs_only ex serverID)|].
  intros [podNetworkPorts|err]; [apply updatePorts_only|apply only_ret].
Qed.

Lemma deleteOnFail_only ex (machineName providerID : string) (server : servers.Server)
    (err : error) :
  only (λ c, readOnly c || isDeleteServer c || isDeletePort c)
    (deleteOnFail ex machineName providerID server err).
Proof.
  unfold deleteOnFail. apply only_bind; [apply DeleteMachine_only|].
  intros [errIn|]; apply only_ret.
Qed.

Lemma deleteOnFail_atMost ex (machineName providerID : string) (server : servers.Server)
    (err : error) :
  atMost 1 isDeleteServer (deleteOnFail ex machineName providerID server err).
Proof.
  unfold deleteOnFail. apply (atMost_bind 1 0 1); [apply DeleteMachine_atMost| |lia].
  intros [errIn|]; apply atMost_ret.
Qed.

(** The stages of CreateMachine after the server was submitted. *)
Lemma CreateMachine_tail_creates ex (machineName providerID : string)
    (server : servers.Server) :
  atMost 0 isCreateServer
    (let* err := waitForStatus ex (servers.ID server) [client.ServerStatusBuild]
                   [client.ServerStatusActive] 600 in
     match err with
     | Some err =>
         let* e := deleteOnFail ex machineName providerID server
                     (Errorf [Lit "error waiting for server [ID="; VerbQ (servers.ID server);
                              Lit "] to reach target status: "; VerbW err]) in
         ret (Err (A:=string) e)
     | None =>
         let* err := patchServerPortsForPodNetwork ex (servers.ID server) in
         match err with
         | Some err =>
             let* e := deleteOnFail ex machineName providerID server
                         (Errorf [Lit "failed to patch server [ID=";
                                  VerbQ (servers.ID server); Lit "] ports: "; VerbS err]) in
             ret (Err e)
         | None => ret (Ok providerID)
         end
     end).
Proof.
  eapply (only_atMost 0 isCreateServer
            (λ c, readOnly c || isDeleteServer c || isDeletePort c || isUpdatePort c)).
  { intros c Hc; destruct c; simpl in Hc |- *; try discriminate Hc; reflexivity. }
  apply only_bind; [weaken_from (waitForStatus_reads ex (servers.ID server)
                                   [client.ServerStatusBuild] [client.ServerStatusActive] 600)|].
  intros [err|].
  - apply only_bind; [|intros e; apply only_ret].
    weaken_from (deleteOnFail_only ex machineName providerID server
                   (Errorf [Lit "error waiting for server [ID="; VerbQ (servers.ID server);
                            Lit "] to reach target status: "; VerbW err])).
  - apply only_bind; [weaken_from (patchServerPortsForPodNetwork_only ex (servers.ID server))|].
    intros [err|]; [|apply only_ret].
    apply only_bind; [|intros e; apply only_ret].
    weaken_from (deleteOnFail_only ex machineName providerID server
                   (Errorf [Lit "failed to patch server [ID="; VerbQ (servers.ID server);
                            Lit "] ports: "; VerbS err])).
Qed.

Lemma CreateMachine_tail_deletes ex (machineName providerID : string)
    (server : servers.Server) :
  atMost 1 isDeleteServer
    (let* err := waitForStatus ex (servers.ID server) [client.ServerStatusBuild]
                   [client.ServerStatusActive] 600 in
     match err with
     | Some err =>
         let* e := deleteOnFail ex machineName providerID server
                     (Errorf [Lit "error waiting for server [ID="; VerbQ (servers.ID server);
                              Lit "] to reach target status: "; VerbW err]) in
         ret (Err (A:=string) e)
     | None =>
         let* err := patchServerPortsForPodNetwork ex (servers.ID server) in
         match err with
         | Some err =>
             let* e := deleteOnFail ex machineName providerID server
                         (Errorf [Lit "failed to patch server [ID=";
                                  VerbQ (servers.ID server); Lit "] ports: "; VerbS err]) in
             ret (Err e)
         | None => ret (Ok providerID)
         end
     end).
Proof.
  apply (atMost_bind 0 1 1); [| |lia].
  { zero_from (waitForStatus_reads ex (servers.ID server) [client.ServerStatusBuild]
                 [client.ServerStatusActive] 600). }
  intros [err|].
  - apply (atMost_bind 1 0 1); [apply deleteOnFail_atMost|intros e; apply atMost_ret|lia].
  - apply (atMost_bind 0 1 1); [| |lia].
    { zero_from (patchServerPortsForPodNetwork_only ex (servers.ID server)). }
    intros [err|]; [|apply atMost_ret].
    apply (atMost_bind 1 0 1); [apply deleteOnFail_atMost|intros e; apply atMost_ret|lia].
Qed.

(** X6. Whatever the provider answers, one CreateMachine call submits at
    most one server (one CreateServer or BootFromVolume request, never a
    retry) and issues at most one DeleteServer request. *)
Theorem CreateMachine_requests ex (machineName : string) (userData : list Byte.byte) st :
  ∃ delta, (CreateMachine ex machineName userData st).2.2 = st.2 ++ delta
           ∧ (countIn isCreateServer delta ≤ 1)%nat
           ∧ (countIn isDeleteServer delta ≤ 1)%nat.
Proof.
  assert (Hcreate : atMost 1 isCreateServer (CreateMachine ex machineName userData)).
  { unfold CreateMachine. apply (atMost_bind 0 1 1); [| |lia].
    { zero_from (computeServerNetworks_only ex machineName). }
    intros [nws|err]; [|apply atMost_ret].
    apply (atMost_bind 1 0 1); [apply deployServer_atMost| |lia].
    intros [server|err]; [|apply atMost_ret].
    apply CreateMachine_tail_creates. }
  assert (Hdelete : atMost 1 isDeleteServer (CreateMachine ex machineName userData)).
  { unfold CreateMachine. apply (atMost_bind 0 1 1); [| |lia].
    { zero_from (computeServerNetworks_only ex machineName). }
    intros [nws|err]; [|apply atMost_ret].
    apply (atMost_bind 0 1 1); [| |lia].
    { zero_from (deployServer_only ex machineName userData nws). }
    intros [server|err]; [|apply atMost_ret].
    apply CreateMachine_tail_deletes. }
  destruct (Hcreate st) as (d & E & Hc). destruct (Hdelete st) as (d' & E' & Hd).
  exists d. split; [exact E|]. split; [exact Hc|].
  rewrite E in E'. apply app_inv_head in E'. subst d'. exact Hd.
Qed.
End RequestDiscipline.

(** ** Ownership and the locator *)

Section OwnershipRuns.
Context {W : Type} `{Utils}.
Implicit Types (ex : Executor W) (st : W * list Call).

Lemma getMachineByName_found ex (machineName : string) st (server : servers.Server)
    (st1 : W * list Call) :
  getMachineByName ex machineName st = (Ok server, st1) →
  servers.Name server = machineName
  ∧ hasOwnershipTags (searchTags (api.Tags (Config ex))) server = true.
Proof.
  unfold getMachineByName. rewrite fold_tags_searchTags.
  destruct (searchTags (api.Tags (Config ex))) as [c r].
  destruct (String.eqb c "" || String.eqb r ""); [discriminate|].
  unfold bind, request.
  destruct (client.ListServers (Compute ex) _ st.1) as [[listed|err] w']; [|discriminate].
  match goal with
  | |- context [List.filter ?f listed] => set (keep := f)
  end.
  intros Hrun.
  assert (Hin : In server (List.filter keep listed)).
  { destruct (List.filter keep listed) as [|s1 [|s2 rest]]; simpl in Hrun;
      try discriminate Hrun. injection Hrun as -> _. left. reflexivity. }
  apply List.filter_In in Hin as [_ Hkeep]. unfold keep in Hkeep.
  destruct (String.eqb (servers.Name server) machineName) eqn:Hname; [|discriminate].
  apply String.eqb_eq in Hname. split; [exact Hname|].
  rewrite <- metadata_test. exact Hkeep.
Qed.

Lemma getMachineByProviderID_found ex (providerID : string) st (server : servers.Server)
    (st1 : W * list Call) :
  getMachineByProviderID ex providerID st = (Ok server, st1) →
  (client.GetServer (Compute ex) (DecodeProviderID providerID) st.1).1 = Ok server
  ∧ hasOwnershipTags (searchTags (api.Tags (Config ex))) server = true.
Proof.
  unfold getMachineByProviderID.
  destruct (isEmptyString (Some (DecodeProviderID providerID))); [discriminate|].
  unfold bind, request.
  destruct (client.GetServer (Compute ex) (DecodeProviderID providerID) st.1)
    as [[found|err] w'].
  - rewrite fold_tags_searchTags.
    rewrite <- (metadata_test (searchTags (api.Tags (Config ex))) server).
    destruct (searchTags (api.Tags (Config ex))) as [c r]. simpl.
    destruct (servers.Metadata found !! c) as [v1|] eqn:Hc;
      [destruct (servers.Metadata found !! r) as [v2|] eqn:Hr|]; try discriminate.
    intros [= -> _]. rewrite Hc, Hr. split; reflexivity.
  - destruct (IsNotFoundError err); discriminate.
Qed.

Lemma locate_found ex (machineName providerID : string) st (server : servers.Server)
    (st1 : W * list Call) :
  locate ex machineName providerID st = (Ok server, st1) →
  hasOwnershipTags (searchTags (api.Tags (Config ex))) server = true.
Proof.
  unfold locate. destruct (isEmptyString (Some providerID)); intros Hrun.
  - apply (getMachineByName_found ex machineName st server st1 Hrun).
  - apply (getMachineByProviderID_found ex providerID st server st1 Hrun).
Qed.

(** X7. DeleteMachine deletes nothing but the server its lookup returned,
    and that server carries both ownership tag keys in its metadata: every
    DeleteServer request of a run names the id of such a server. *)
Theorem DeleteMachine_deletes_only_owned ex (machineName providerID : string) st :
  ∃ delta,
    (DeleteMachine ex machineName providerID st).2.2 = st.2 ++ delta
    ∧ ∀ id, In (CallDeleteServer id) delta →
        ∃ (server : servers.Server) (st1 : W * list Call),
          locate ex machineName providerID st = (Ok server, st1)
          ∧ servers.ID server = id
          ∧ hasOwnershipTags (searchTags (api.Tags (Config ex))) server = true.
Proof.
  rewrite DeleteMachine_unfold. unfold bind at 1.
  destruct (locate_only ex machineName providerID st) as (d1 & E1 & Hread).
  destruct (locate ex machineName providerID st) as [[server|err] st1] eqn:Hlocate.
  - simpl in E1. unfold bind at 1. unfold request.
    destruct (client.DeleteServer (Compute ex) (servers.ID server) st1.1) as [[err|] w2].
    + exists (d1 ++ [CallDeleteServer (servers.ID server)]). simpl.
      split; [rewrite E1, app_assoc; reflexivity|].
      intros id Hin. apply in_app_or in Hin as [Hin|[Heq|[]]].
      * rewrite List.Forall_forall in Hread. apply Hread in Hin. discriminate Hin.
      * injection Heq as <-. exists server, st1.
        split; [reflexivity|]. split; [reflexivity|].
        apply (locate_found ex machineName providerID st server st1 Hlocate).
    + destruct (DeleteMachine_tail_only ex machineName server
                  (w2, st1.2 ++ [CallDeleteServer (servers.ID server)]))
        as (d3 & E3 & Htail).
      exists (d1 ++ [CallDeleteServer (servers.ID server)] ++ d3).
      split; [rewrite E3; simpl; rewrite E1, <- !app_assoc; reflexivity|].
      intros id Hin.
      apply in_app_or in Hin as [Hin|Hin]; [|apply in_app_or in Hin as [[Heq|[]]|Hin]].
      * rewrite List.Forall_forall in Hread. apply Hread in Hin. discriminate Hin.
      * injection Heq as <-. exists server, st1.
        split; [reflexivity|]. split; [reflexivity|].
        apply (locate_found ex machineName providerID st server st1 Hlocate).
      * rewrite List.Forall_forall in Htail. apply Htail in Hin. discriminate Hin.
  - exists d1. simpl in E1.
    split; [destruct (errors_Is err ErrNotFound); exact E1|].
    intros id Hin. rewrite List.Forall_forall in Hread. apply Hread in Hin. discriminate Hin.
Qed.

(** X8. When the configured tags give no cluster key or no role key, lookup
    by name, GetMachineStatus and ListMachines fail at once, without a
    request, with an error that is not ErrNotFound; DeleteMachine without an
    identifier then returns that error instead of succeeding. *)
Theorem missing_tag_keys_fail_before_any_request ex (machineName providerID : string) st :
  (searchTags (api.Tags (Config ex))).1 = "" ∨ (searchTags (api.Tags (Config ex))).2 = "" →
  ∃ e : error,
    errors_Is e ErrNotFound = false
    ∧ getMachineByName ex machineName st = (Err e, st)
    ∧ GetMachineStatus ex machineName st = (Err e, st)
    ∧ (isEmptyString (Some providerID) = true →
       DeleteMachine ex machineName providerID st = (Some e, st))
    ∧ ListMachines ex st
      = (Err (Errorf [Lit "operation can not proceed: cluster/role tags are missing"]), st).
Proof.
  intros Hmissing.
  assert (Htest : String.eqb (searchTags (api.Tags (Config ex))).1 ""
                  || String.eqb (searchTags (api.Tags (Config ex))).2 "" = true).
  { apply orb_true_iff. destruct Hmissing as [E|E]; [left|right];
      apply String.eqb_eq; exact E. }
  assert (Hname : getMachineByName ex machineName st
                  = (Err (Errorf [Lit "getMachineByName operation can not proceed: cluster/role tags are missing for machine [Name=";
                                  VerbQ machineName; Lit "]"]), st)).
  { unfold getMachineByName. rewrite fold_tags_searchTags.
    destruct (searchTags (api.Tags (Config ex))) as [c r]. simpl in Htest.
    rewrite Htest. reflexivity. }
  eexists. split; [|split; [exact Hname|split; [|split]]].
  - reflexivity.
  - unfold GetMachineStatus, bind. rewrite Hname. reflexivity.
  - intros Hempty. rewrite DeleteMachine_unfold. unfold bind, locate.
    rewrite Hempty, Hname. reflexivity.
  - unfold ListMachines. rewrite fold_tags_searchTags.
    destruct (searchTags (api.Tags (Config ex))) as [c r]. simpl in Htest.
    rewrite Htest. reflexivity.
Qed.

Lemma fold_insert_kept (region : string) (listed : list servers.Server) :
  ∀ (acc : gmap string string) (key : string),
    is_Some (acc !! key) →
    is_Some (fold_left
               (λ (result : gmap string string) s,
                  <[EncodeProviderID region (servers.ID s) := servers.Name s]> result)
               listed acc !! key).
Proof.
  induction listed as [|s listed IH]; intros acc key Hkey; simpl; [exact Hkey|].
  apply IH. destruct (decide (EncodeProviderID region (servers.ID s) = key)) as [->|Hne].
  - rewrite lookup_insert_eq. eexists. reflexivity.
  - rewrite lookup_insert_ne; [exact Hkey|exact Hne].
Qed.

Lemma fold_insert_member (region : string) (listed : list servers.Server) :
  ∀ (acc : gmap string string) (s : servers.Server),
    In s listed →
    is_Some (fold_left
               (λ (result : gmap string string) s,
                  <[EncodeProviderID region (servers.ID s) := servers.Name s]> result)
               listed acc !! EncodeProviderID region (servers.ID s)).
Proof.
  induction listed as [|s0 listed IH]; intros acc s Hin; simpl; [destruct Hin|].
  destruct Hin as [->|Hin]; [|apply IH; exact Hin].
  apply fold_insert_kept. rewrite lookup_insert_eq. eexists. reflexivity.
Qed.

Lemma fold_insert_lookup (region : string) (listed : list servers.Server) :
  ∀ (acc : gmap string string) (key name : string),
    fold_left
      (λ (result : gmap string string) s,
         <[EncodeProviderID region (servers.ID s) := servers.Name s]> result)
      listed acc !! key = Some name →
    acc !! key = Some name
    ∨ ∃ s, In s listed ∧ key = EncodeProviderID region (servers.ID s)
           ∧ name = servers.Name s.
Proof.
  induction listed as [|s0 listed IH]; intros acc key name Hlook; simpl in Hlook;
    [left; exact Hlook|].
  apply IH in Hlook as [Hacc|(s & Hin & Hk & Hn)].
  - destruct (decide (EncodeProviderID region (servers.ID s0) = key)) as [Heq|Hne].
    + rewrite <- Heq, lookup_insert_eq in Hacc. injection Hacc as <-.
      right. exists s0. split; [left; reflexivity|]. split; [symmetry; exact Heq|reflexivity].
    + rewrite lookup_insert_ne in Hacc; [left; exact Hacc|exact Hne].
  - right. exists s. split; [right; exact Hin|]. split; assumption.
Qed.

(** X9. The map ListMachines returns has an entry for the identifier of
    every listed server that carries both tag keys, and no other entries:
    each entry maps the identifier of such a server to its name. *)
Theorem ListMachines_entries ex st (listed : list servers.Server) (w' : W) :
  (searchTags (api.Tags (Config ex))).1 ≠ "" →
  (searchTags (api.Tags (Config ex))).2 ≠ "" →
  client.ListServers (Compute ex) {| servers.ListOpts_Name := "" |} st.1 = (Ok listed, w') →
  ∃ result : gmap string string,
    ListMachines ex st
    = (Ok result, (w', st.2 ++ [CallListServers {| servers.ListOpts_Name := "" |}]))
    ∧ (∀ s, In s listed →
         hasOwnershipTags (searchTags (api.Tags (Config ex))) s = true →
         is_Some (result !! EncodeProviderID (api.Region (Config ex)) (servers.ID s)))
    ∧ (∀ key name, result !! key = Some name →
         ∃ s, In s listed
              ∧ hasOwnershipTags (searchTags (api.Tags (Config ex))) s = true
              ∧ key = EncodeProviderID (api.Region (Config ex)) (servers.ID s)
              ∧ name = servers.Name s).
Proof.
  intros Hc Hr Hlist.
  exists (fold_left
            (λ (result : gmap string string) s,
               <[EncodeProviderID (api.Region (Config ex)) (servers.ID s)
                 := servers.Name s]> result)
            (List.filter (hasOwnershipTags (searchTags (api.Tags (Config ex)))) listed) ∅).
  split; [|split].
  - unfold ListMachines. rewrite fold_tags_searchTags.
    rewrite <- (ListMachines_fold (searchTags (api.Tags (Config ex)))).
    destruct (searchTags (api.Tags (Config ex))) as [c r]. simpl in Hc, Hr.
    apply String.eqb_neq in Hc, Hr. rewrite Hc, Hr. simpl.
    unfold bind, request. rewrite Hlist. reflexivity.
  - intros s Hin Howned. apply fold_insert_member.
    apply List.filter_In. split; assumption.
  - intros key name Hlook. apply fold_insert_lookup in Hlook as [Hempty|(s & Hin & Hk & Hn)].
    + rewrite lookup_empty in Hempty. discriminate Hempty.
    + apply List.filter_In in Hin as [Hin Howned]. exists s. repeat split; assumption.
Qed.
End OwnershipRuns.

(** ** Pod-network ports: patching and verifying *)

Section PortRuns.
Context {W : Type} `{Utils}.
Implicit Types (ex : Executor W) (st : W * list Call).

Lemma checkPorts_None ex (serverID : string) (podNetworkPorts : list ports.Port) :
  checkPorts ex serverID podNetworkPorts = None
  ↔ Forall (λ port, carriesCidr (api.PodNetworkCidr (Config ex)) port = true) podNetworkPorts.
Proof.
  induction podNetworkPorts as [|port rest IH]; simpl.
  - split; [constructor|reflexivity].
  - fold (carriesCidr (api.PodNetworkCidr (Config ex)) port).
    destruct (carriesCidr (api.PodNetworkCidr (Config ex)) port) eqn:Hport.
    + rewrite IH. split; [intros Hrest; constructor; assumption|].
      intros Hall. apply Forall_cons in Hall as [_ Hrest]. exact Hrest.
    + split; [discriminate|]. intros Hall. apply Forall_cons in Hall as [Hp _].
      rewrite Hp in Hport. discriminate Hport.
Qed.

Lemma checkPorts_Some ex (serverID : string) (podNetworkPorts : list ports.Port) (e : error) :
  checkPorts ex serverID podNetworkPorts = Some e →
  ∃ (before : list ports.Port) (port : ports.Port) (after : list ports.Port),
    podNetworkPorts = before ++ port :: after
    ∧ Forall (λ p, carriesCidr (api.PodNetworkCidr (Config ex)) p = true) before
    ∧ carriesCidr (api.PodNetworkCidr (Config ex)) port = false
    ∧ e = Errorf [Lit "port [ID="; VerbQ (ports.ID port); Lit "] of server [ID=";
                  VerbQ serverID;
                  Lit "] is not configured for pod network, but it should"].
Proof.
  induction podNetworkPorts as [|port rest IH]; simpl; [discriminate|].
  fold (carriesCidr (api.PodNetworkCidr (Config ex)) port).
  destruct (carriesCidr (api.PodNetworkCidr (Config ex)) port) eqn:Hport.
  - intros Hrest. destruct (IH Hrest) as (before & p & after & -> & Hall & Hp & He).
    exists (port :: before), p, after. split; [reflexivity|].
    split; [constructor; assumption|]. split; assumption.
  - intros [= <-]. exists [], port, rest. split; [reflexivity|].
    split; [constructor|]. split; [exact Hport|reflexivity].
Qed.

(** X10. Once the candidate ports of the server are found,
    verifyServerPortsForPodNetwork issues no further request; it returns no
    error exactly when every candidate port lists the pod-network CIDR among
    its allowed address pairs, and otherwise its error names the first
    candidate port that does not. *)
Theorem verifyServerPortsForPodNetwork_checks_every_port ex (serverID : string) st
    (podNetworkPorts : list ports.Port) (st1 : W * list Call) :
  computePodNetworkIDs ex serverID st = (Ok podNetworkPorts, st1) →
  (verifyServerPortsForPodNetwork ex serverID st).2 = st1
  ∧ ((verifyServerPortsForPodNetwork ex serverID st).1 = None
     ↔ Forall (λ port, carriesCidr (api.PodNetworkCidr (Config ex)) port = true)
         podNetworkPorts)
  ∧ (∀ e, (verifyServerPortsForPodNetwork ex serverID st).1 = Some e →
       ∃ (before : list ports.Port) (port : ports.Port) (after : list ports.Port),
         podNetworkPorts = before ++ port :: after
         ∧ Forall (λ p, carriesCidr (api.PodNetworkCidr (Config ex)) p = true) before
         ∧ carriesCidr (api.PodNetworkCidr (Config ex)) port = false
         ∧ e = Errorf [Lit "port [ID="; VerbQ (ports.ID port); Lit "] of server [ID=";
                       VerbQ serverID;
                       Lit "] is not configured for pod network, but it should"]).
Proof.
  intros Hports. unfold verifyServerPortsForPodNetwork, bind. rewrite Hports. simpl.
  split; [reflexivity|]. split; [apply checkPorts_None|].
  intros e. apply checkPorts_Some.
Qed.

(** X11. GetMachineStatus returns an identifier exactly when the lookup by
    name finds the server, its candidate ports are found and every one of
    them lists the pod-network CIDR; the identifier then encodes the region
    and the id of that server. *)
Theorem GetMachineStatus_succeeds_iff ex (machineName : string) st (id : string)
    (st' : W * list Call) :
  GetMachineStatus ex machineName st = (Ok id, st')
  ↔ ∃ (server : servers.Server) (st1 : W * list Call) (podNetworkPorts : list ports.Port),
      getMachineByName ex machineName st = (Ok server, st1)
      ∧ computePodNetworkIDs ex (servers.ID server) st1 = (Ok podNetworkPorts, st')
      ∧ Forall (λ port, carriesCidr (api.PodNetworkCidr (Config ex)) port = true)
          podNetworkPorts
      ∧ id = EncodeProviderID (api.Region (Config ex)) (servers.ID server).
Proof.
  unfold GetMachineStatus, verifyServerPortsForPodNetwork. unfold bind at 1. split.
  - destruct (getMachineByName ex machineName st) as [[server|err] st1] eqn:Hname;
      [|discriminate].
    unfold bind.
    destruct (computePodNetworkIDs ex (servers.ID server) st1) as [[found|err] st2]
      eqn:Hports; [|discriminate].
    simpl. destruct (checkPorts ex (servers.ID server) found) as [err|] eqn:Hcheck;
      [discriminate|].
    intros [= <- <-]. exists server, st1, found.
    split; [reflexivity|]. split; [exact Hports|].
    split; [apply (checkPorts_None ex (servers.ID server)); exact Hcheck|reflexivity].
  - intros (server & st1 & found & Hname & Hports & Hall & ->).
    rewrite Hname. unfold bind. rewrite Hports. simpl.
    apply (checkPorts_None ex (servers.ID server)) in Hall. rewrite Hall. reflexivity.
Qed.

Lemma updatePorts_prefix ex (podNetworkPorts : list ports.Port) :
  ∀ st, ∃ k : nat,
    (k ≤ length podNetworkPorts)%nat
    ∧ (updatePorts ex podNetworkPorts st).2.2
      = st.2 ++ map (λ port, CallUpdatePort (ports.ID port) (podNetworkUpdate ex))
                  (take k podNetworkPorts)
    ∧ ((updatePorts ex podNetworkPorts st).1 = None → k = length podNetworkPorts)
    ∧ (∀ e, (updatePorts ex podNetworkPorts st).1 = Some e →
         ∃ (port : ports.Port) (err : error),
           (1 ≤ k)%nat ∧ podNetworkPorts !! (k - 1)%nat = Some port
           ∧ e = Errorf [Lit "failed to update allowed address pair for port [ID=";
                         VerbQ (ports.ID port); Lit "]: "; VerbV err]).
Proof.
  induction podNetworkPorts as [|port rest IH]; intros st.
  - exists 0%nat. simpl. rewrite app_nil_r.
    split; [lia|]. split; [reflexivity|]. split; [reflexivity|discriminate].
  - simpl. unfold bind, request. fold (podNetworkUpdate ex).
    destruct (client.UpdatePort (Network ex) (ports.ID port) (podNetworkUpdate ex) st.1)
      as [[err|] w1].
    + exists 1%nat. simpl. split; [lia|]. split; [reflexivity|]. split; [discriminate|].
      intros e [= <-]. exists port, err. split; [lia|]. split; reflexivity.
    + destruct (IH (w1, st.2 ++ [CallUpdatePort (ports.ID port) (podNetworkUpdate ex)]))
        as (k & Hk & Htrace & Hnone & Hsome).
      exists (S k). split; [simpl; lia|]. split.
      * rewrite Htrace. simpl. rewrite <- app_assoc. reflexivity.
      * split; [intros Hres; simpl; rewrite (Hnone Hres); reflexivity|].
        intros e He. destruct (Hsome e He) as (p & err & Hk1 & Hlook & Heq).
        exists p, err. split; [lia|]. split; [|exact Heq].
        replace (S k - 1)%nat with (S (k - 1)) by lia. exact Hlook.
Qed.

(** X12. patchServerPortsForPodNetwork updates the candidate ports in
    order, each with exactly the pod-network CIDR as its allowed address
    pairs.  It stops at the first update that fails: the ports after it are
    not touched and the error names that port.  Without an error every
    candidate port was updated. *)
Theorem patchServerPortsForPodNetwork_updates_in_order ex (serverID : string) st
    (podNetworkPorts : list ports.Port) (st1 : W * list Call) :
  computePodNetworkIDs ex serverID st = (Ok podNetworkPorts, st1) →
  ∃ k : nat,
    (k ≤ length podNetworkPorts)%nat
    ∧ (patchServerPortsForPodNetwork ex serverID st).2.2
      = st1.2 ++ map (λ port, CallUpdatePort (ports.ID port) (podNetworkUpdate ex))
                   (take k podNetworkPorts)
    ∧ ((patchServerPortsForPodNetwork ex serverID st).1 = None
       → k = length podNetworkPorts)
    ∧ (∀ e, (patchServerPortsForPodNetwork ex serverID st).1 = Some e →
         ∃ (port : ports.Port) (err : error),
           (1 ≤ k)%nat ∧ podNetworkPorts !! (k - 1)%nat = Some port
           ∧ e = Errorf [Lit "failed to update allowed address pair for port [ID=";
                         VerbQ (ports.ID port); Lit "]: "; VerbV err]).
Proof.
  intros Hports. unfold patchServerPortsForPodNetwork, bind. rewrite Hports.
  apply updatePorts_prefix.
Qed.
End PortRuns.

(** ** The instance provisioner *)

Section ProvisionerRuns.
Context {W : Type} `{Utils}.
Implicit Types (ex : Executor W) (st : W * list Call).

(** X13. With the image and the flavor resolved, deployServer submits one
    request and returns the provider's answer to it.  The request carries the
    base fields from the configuration, always the key-pair layer, the
    scheduler-hint layer exactly when a server group is configured, and the
    boot-from-volume layer exactly when the root disk size is positive: it
    then goes to BootFromVolume with one volume of that size made from the
    resolved image, and to CreateServer otherwise. *)
Theorem deployServer_submission ex (machineName : string) (userData : list Byte.byte)
    (nws : list servers.Network) st (imageRef : string) (st1 : W * list Call)
    (flavorRef : string) (w2 : W) :
  imageResolves ex st imageRef st1 →
  client.FlavorIDFromName (Compute ex) (api.FlavorName (Config ex)) st1.1
    = (Ok flavorRef, w2) →
  ∃ opts : CreateOptsBuilder,
    deployServer ex machineName userData nws st
    = ((if (0 <? api.RootDiskSize (Config ex))%Z
        then client.BootFromVolume (Compute ex) opts w2
        else client.CreateServer (Compute ex) opts w2).1,
       ((if (0 <? api.RootDiskSize (Config ex))%Z
         then client.BootFromVolume (Compute ex) opts w2
         else client.CreateServer (Compute ex) opts w2).2,
        st1.2 ++ [CallFlavorIDFromName (api.FlavorName (Config ex));
                  if (0 <? api.RootDiskSize (Config ex))%Z
                  then CallBootFromVolume opts else CallCreateServer opts]))
    ∧ baseOf opts
      = {| servers.CreateOpts_Name := machineName;
           servers.FlavorRef := flavorRef;
           servers.ImageRef := imageRef;
           servers.Networks := nws;
           servers.SecurityGroups := api.SecurityGroups (Config ex);
           servers.CreateOpts_Metadata := list_to_map (api.Tags (Config ex));
           servers.UserData := userData;
           servers.AvailabilityZone := api.AvailabilityZone (Config ex);
           servers.ConfigDrive := api.UseConfigDrive (Config ex) |}
    ∧ keyNameOf opts = Some (api.KeyName (Config ex))
    ∧ groupOf opts = api.ServerGroupID (Config ex)
    ∧ blockDevicesOf opts
      = if (0 <? api.RootDiskSize (Config ex))%Z
        then Some [{| bootfromvolume.UUID := imageRef;
                      bootfromvolume.VolumeSize := api.RootDiskSize (Config ex);
                      bootfromvolume.BootIndex := 0;
                      bootfromvolume.DeleteOnTermination := true;
                      bootfromvolume.SourceType := "image";
                      bootfromvolume.DestinationType := "volume" |}]
        else None.
Proof.
  intros Himage Hflavor. unfold deployServer, resourceInstanceBlockDevicesV2.
  assert (Hfirst :
    (if negb (String.eqb (api.ImageID (Config ex)) "") then ret (Ok (api.ImageID (Config ex)))
     else
       let* r := request (CallImageIDFromName (api.ImageName (Config ex)))
                   (client.ImageIDFromName (Compute ex) (api.ImageName (Config ex))) in
       match r with
       | Err err =>
           ret (Err (Errorf [Lit "error resolving image ID from image name ";
                             VerbQ (api.ImageName (Config ex)); Lit ": "; VerbV err]))
       | Ok imageRef => ret (Ok imageRef)
       end) st = (Ok imageRef, st1)).
  { unfold imageResolves in Himage.
    destruct (String.eqb (api.ImageID (Config ex)) "").
    - destruct Himage as (w1 & Hget & ->). simpl. unfold bind, request. rewrite Hget.
      reflexivity.
    - destruct Himage as [-> ->]. reflexivity. }
  unfold bind at 1. rewrite Hfirst.
  unfold bind at 1. unfold request at 1. rewrite Hflavor.
  destruct (api.ServerGroupID (Config ex)) as [group|];
    destruct (0 <? api.RootDiskSize (Config ex))%Z; unfold request; cbn [fst snd];
    match goal with
    | |- context [client.BootFromVolume _ ?o w2] =>
        exists o; destruct (client.BootFromVolume (Compute ex) o w2) as [r w3]
    | |- context [client.CreateServer _ ?o w2] =>
        exists o; destruct (client.CreateServer (Compute ex) o w2) as [r w3]
    end;
    (split; [simpl; rewrite <- app_assoc; reflexivity|]); repeat split.
Qed.

(** X14. When the image name or the flavor name does not resolve,
    deployServer returns an error without submitting anything: its last
    request is the failed lookup.  Both messages quote the configured image
    name, also the one about the flavor. *)
Theorem deployServer_resolution_failure ex (machineName : string)
    (userData : list Byte.byte) (nws : list servers.Network) st :
  (∀ (e : error) (w1 : W),
     api.ImageID (Config ex) = "" →
     client.ImageIDFromName (Compute ex) (api.ImageName (Config ex)) st.1 = (Err e, w1) →
     deployServer ex machineName userData nws st
     = (Err (Errorf [Lit "error resolving image ID from image name ";
                     VerbQ (api.ImageName (Config ex)); Lit ": "; VerbV e]),
        (w1, st.2 ++ [CallImageIDFromName (api.ImageName (Config ex))])))
  ∧ (∀ (imageRef : string) (st1 : W * list Call) (e : error) (w2 : W),
       imageResolves ex st imageRef st1 →
       client.FlavorIDFromName (Compute ex) (api.FlavorName (Config ex)) st1.1
         = (Err e, w2) →
       deployServer ex machineName userData nws st
       = (Err (Errorf [Lit "error resolving flavor ID from flavor name ";
                       VerbQ (api.ImageName (Config ex)); Lit ": "; VerbV e]),
          (w2, st1.2 ++ [CallFlavorIDFromName (api.FlavorName (Config ex))]))).
Proof.
  split.
  - intros e w1 Hid Hget. unfold deployServer. rewrite Hid. simpl.
    unfold bind, request. rewrite Hget. reflexivity.
  - intros imageRef st1 e w2 Himage Hflavor. unfold deployServer.
    unfold imageResolves in Himage.
    destruct (String.eqb (api.ImageID (Config ex)) "").
    + destruct Himage as (w1 & Hget & ->). simpl. unfold bind, request.
      rewrite Hget. simpl in Hflavor |- *. rewrite Hflavor. reflexivity.
    + destruct Himage as [-> ->]. simpl. unfold bind, request, ret. rewrite Hflavor.
      reflexivity.
Qed.
End ProvisionerRuns.

(** ** The network list *)

Section NetworkListRuns.
Context {W : Type} `{Utils}.
Implicit Types (ex : Executor W) (st : W * list Call).

Lemma resolveNetworks_resolved ex (networks : list api.OpenStackNetwork) :
  ∀ (acc : list servers.Network) st (ids : list string) (w' : W),
    networksResolve (Network ex) st.1 networks ids w' →
    resolveNetworks ex networks acc st
    = (Ok (acc ++ map (λ id, {| servers.UUID := id; servers.Port := "" |}) ids),
       (w', st.2 ++ networkLookups networks)).
Proof.
  unfold networkLookups.
  induction networks as [|network networks IH]; intros acc [w tr] [|id ids] w' Hres;
    simpl in Hres; try contradiction.
  - subst w'. simpl. rewrite !app_nil_r. reflexivity.
  - simpl. destruct (isEmptyString (Some (api.Id network))).
    + destruct Hres as (w1 & Hget & Hrest). unfold bind, request. simpl. rewrite Hget.
      rewrite (IH _ (w1, tr ++ [CallNetworkIDFromName (api.Name network)]) ids w' Hrest).
      simpl. rewrite <- !app_assoc. reflexivity.
    + destruct Hres as (-> & Hrest). rewrite (IH _ (w, tr) ids w' Hrest).
      simpl. rewrite <- !app_assoc. reflexivity.
Qed.

Lemma resolveNetworks_unresolved ex (resolved : list api.OpenStackNetwork) :
  ∀ (network : api.OpenStackNetwork) (rest : list api.OpenStackNetwork)
    (acc : list servers.Network) st (ids : list string) (w2 : W) (e : error) (w3 : W),
    networksResolve (Network ex) st.1 resolved ids w2 →
    isEmptyString (Some (api.Id network)) = true →
    client.NetworkIDFromName (Network ex) (api.Name network) w2 = (Err e, w3) →
    resolveNetworks ex (resolved ++ network :: rest) acc st
    = (Err e, (w3, st.2 ++ networkLookups resolved
                        ++ [CallNetworkIDFromName (api.Name network)])).
Proof.
  unfold networkLookups.
  induction resolved as [|n0 resolved IH];
    intros network rest acc [w tr] [|id ids] w2 e w3 Hres Hempty Hget;
    simpl in Hres; try contradiction.
  - subst w2. simpl. rewrite Hempty. unfold bind, request. simpl. rewrite Hget. reflexivity.
  - simpl. destruct (isEmptyString (Some (api.Id n0))).
    + destruct Hres as (w1 & Hget0 & Hrest). unfold bind, request. simpl. rewrite Hget0.
      rewrite (IH network rest _ (w1, tr ++ [CallNetworkIDFromName (api.Name n0)]) ids w2 e w3
                 Hrest Hempty Hget).
      simpl. rewrite <- !app_assoc. reflexivity.
    + destruct Hres as (-> & Hrest).
      rewrite (IH network rest _ (w, tr) ids w2 e w3 Hrest Hempty Hget). reflexivity.
Qed.

(** X15. Without an explicit network id, computeServerNetworks attaches the
    server to every entry of the configured network list, in the order of
    the list and without a port: an entry with an id is taken as it is, an
    entry without one costs one lookup of its name. *)
Theorem computeServerNetworks_follows_network_list ex (machineName : string) st
    (ids : list string) (w' : W) :
  isEmptyString (Some (api.NetworkID (Config ex))) = true →
  networksResolve (Network ex) st.1 (api.Networks (Config ex)) ids w' →
  computeServerNetworks ex machineName st
  = (Ok (map (λ id, {| servers.UUID := id; servers.Port := "" |}) ids),
     (w', st.2 ++ networkLookups (api.Networks (Config ex))))
  ∧ length ids = length (api.Networks (Config ex)).
Proof.
  intros Hnet Hres. split.
  - unfold computeServerNetworks. rewrite Hnet. simpl.
    apply (resolveNetworks_resolved ex _ [] st ids w' Hres).
  - clear Hnet. revert st ids w' Hres.
    induction (api.Networks (Config ex)) as [|network networks IH];
      intros [w tr] [|id ids] w' Hres; simpl in Hres; try contradiction; [reflexivity|].
    simpl. f_equal. destruct (isEmptyString (Some (api.Id network))).
    + destruct Hres as (w1 & _ & Hrest). apply (IH (w1, tr) ids w' Hrest).
    + destruct Hres as (_ & Hrest). apply (IH (w, tr) ids w' Hrest).
Qed.

(** X16. The first entry of the network list whose name does not resolve
    makes computeServerNetworks return the error of that lookup; the entries
    after it are not looked up. *)
Theorem computeServerNetworks_stops_at_unresolved_network ex (machineName : string) st
    (resolved : list api.OpenStackNetwork) (network : api.OpenStackNetwork)
    (rest : list api.OpenStackNetwork) (ids : list string) (w2 : W) (e : error) (w3 : W) :
  isEmptyString (Some (api.NetworkID (Config ex))) = true →
  api.Networks (Config ex) = resolved ++ network :: rest →
  networksResolve (Network ex) st.1 resolved ids w2 →
  isEmptyString (Some (api.Id network)) = true →
  client.NetworkIDFromName (Network ex) (api.Name network) w2 = (Err e, w3) →
  computeServerNetworks ex machineName st
  = (Err e, (w3, st.2 ++ networkLookups resolved
                      ++ [CallNetworkIDFromName (api.Name network)])).
Proof.
  intros Hnet Hlist Hres Hempty Hget.
  unfold computeServerNetworks. rewrite Hnet, Hlist. simpl.
  apply (resolveNetworks_unresolved ex resolved network rest [] st ids w2 e w3
           Hres Hempty Hget).
Qed.
End NetworkListRuns.

(** ** Create and delete: outcomes and error chains *)

Section LifecycleRuns.
Context {W : Type} `{Utils}.
Implicit Types (ex : Executor W) (st : W * list Call).

(** X17. CreateMachine returns an identifier exactly when all four stages
    succeed in turn: the networks resolve, the server is deployed, it
    becomes ACTIVE within 600 seconds and its ports are patched.  The
    identifier encodes the region and the id of the deployed server, and the
    final state is the one the port patch leaves: no rollback has run. *)
Theorem CreateMachine_succeeds_iff ex (machineName : string) (userData : list Byte.byte) st
    (id : string) (st' : W * list Call) :
  CreateMachine ex machineName userData st = (Ok id, st')
  ↔ ∃ (serverNetworks : list servers.Network) (st1 : W * list Call)
      (server : servers.Server) (st2 st3 : W * list Call),
      computeServerNetworks ex machineName st = (Ok serverNetworks, st1)
      ∧ deployServer ex machineName userData serverNetworks st1 = (Ok server, st2)
      ∧ waitForStatus ex (servers.ID server) [client.ServerStatusBuild]
          [client.ServerStatusActive] 600 st2 = (None, st3)
      ∧ patchServerPortsForPodNetwork ex (servers.ID server) st3 = (None, st')
      ∧ id = EncodeProviderID (api.Region (Config ex)) (servers.ID server).
Proof.
  unfold CreateMachine. unfold bind at 1. split.
  - destruct (computeServerNetworks ex machineName st) as [[nws|err] st1] eqn:Hnets;
      [|discriminate].
    unfold bind at 1.
    destruct (deployServer ex machineName userData nws st1) as [[server|err] st2]
      eqn:Hdeploy; [|discriminate].
    unfold bind at 1.
    destruct (waitForStatus ex (servers.ID server) _ _ 600 st2) as [[err|] st3] eqn:Hwait.
    { unfold bind. destruct (deleteOnFail _ _ _ _ _ st3) as [e st4]. discriminate. }
    unfold bind at 1.
    destruct (patchServerPortsForPodNetwork ex (servers.ID server) st3) as [[err|] st4]
      eqn:Hpatch.
    { unfold bind. destruct (deleteOnFail _ _ _ _ _ st4) as [e st5]. discriminate. }
    intros [= <- <-]. exists nws, st1, server, st2, st3. repeat split; assumption.
  - intros (nws & st1 & server & st2 & st3 & Hnets & Hdeploy & Hwait & Hpatch & ->).
    rewrite Hnets. unfold bind at 1. rewrite Hdeploy.
    unfold bind at 1. rewrite Hwait. unfold bind. rewrite Hpatch. reflexivity.
Qed.

(** X18. How DeleteMachine fails.  A lookup error that is not ErrNotFound
    and an error of the DeleteServer request are returned as they are, and
    nothing is requested after them.  A failed wait for the deletion is
    reported in a new error whose message contains the message of the cause,
    but which errors.Is matches with no sentinel: the cause is formatted with
    %v, so a timeout cannot be told by errors.Is. *)
Theorem DeleteMachine_failures ex (machineName providerID : string) st :
  (∀ (e : error) (st1 : W * list Call),
     locate ex machineName providerID st = (Err e, st1) →
     errors_Is e ErrNotFound = false →
     DeleteMachine ex machineName providerID st = (Some e, st1))
  ∧ (∀ (server : servers.Server) (st1 : W * list Call) (e : error) (w2 : W),
       locate ex machineName providerID st = (Ok server, st1) →
       client.DeleteServer (Compute ex) (servers.ID server) st1.1 = (Some e, w2) →
       DeleteMachine ex machineName providerID st
       = (Some e, (w2, st1.2 ++ [CallDeleteServer (servers.ID server)])))
  ∧ (∀ (server : servers.Server) (st1 : W * list Call) (w2 : W) (cause : error)
       (st3 : W * list Call),
       locate ex machineName providerID st = (Ok server, st1) →
       client.DeleteServer (Compute ex) (servers.ID server) st1.1 = (None, w2) →
       waitForStatus ex (servers.ID server) [] [client.ServerStatusDeleted] 300
         (w2, st1.2 ++ [CallDeleteServer (servers.ID server)]) = (Some cause, st3) →
       ∃ e : error,
         DeleteMachine ex machineName providerID st = (Some e, st3)
         ∧ (∀ s : sentinel, errors_Is e (Sentinel s) = false)
         ∧ ∀ quote showFault sentinelText,
             occurs_in (Error quote showFault sentinelText cause)
               (Error quote showFault sentinelText e)).
Proof.
  split; [|split].
  - intros e st1 Hlocate Hnf. rewrite DeleteMachine_unfold. unfold bind.
    rewrite Hlocate, Hnf. reflexivity.
  - intros server st1 e w2 Hlocate Hdel. rewrite DeleteMachine_unfold. unfold bind at 1.
    rewrite Hlocate. unfold bind, request. rewrite Hdel. reflexivity.
  - intros server st1 w2 cause st3 Hlocate Hdel Hwait.
    eexists. split; [|split].
    + rewrite DeleteMachine_unfold. unfold bind at 1. rewrite Hlocate.
      unfold bind at 1. unfold request. rewrite Hdel.
      unfold bind at 1. simpl fst; simpl snd. rewrite Hwait. reflexivity.
    + intros s. reflexivity.
    + intros quote showFault sentinelText. simpl.
      do 3 apply occurs_in_tail. apply occurs_in_head.
Qed.

(** What CreateMachine returns once a stage after the submission failed with
    the error [original] in the state [st3]. *)
Lemma CreateMachine_fails_with ex (machineName : string) (userData : list Byte.byte) st
    (serverNetworks : list servers.Network) (st1 : W * list Call)
    (server : servers.Server) (st2 : W * list Call) (original : error)
    (st3 : W * list Call) :
  computeServerNetworks ex machineName st = (Ok serverNetworks, st1) →
  deployServer ex machineName userData serverNetworks st1 = (Ok server, st2) →
  failsAfterSubmit ex server st2 original st3 →
  CreateMachine ex machineName userData st
  = (Err (deleteOnFail ex machineName
            (EncodeProviderID (api.Region (Config ex)) (servers.ID server))
            server original st3).1,
     (deleteOnFail ex machineName
        (EncodeProviderID (api.Region (Config ex)) (servers.ID server))
        server original st3).2).
Proof.
  intros Hnets Hdeploy Hfail.
  unfold CreateMachine. unfold bind at 1. rewrite Hnets.
  unfold bind at 1. rewrite Hdeploy.
  destruct Hfail as [(err & Hwait & ->)|(err & st' & Hwait & Hpatch & ->)].
  - unfold bind at 1. rewrite Hwait. unfold bind.
    destruct (deleteOnFail _ _ _ _ _ st3) as [e stf]. reflexivity.
  - unfold bind at 1. rewrite Hwait. unfold bind at 1. rewrite Hpatch. unfold bind.
    destruct (deleteOnFail _ _ _ _ _ st3) as [e stf]. reflexivity.
Qed.

(** X19. After a rollback that succeeded, the error of CreateMachine tells
    a failed wait from a failed port patch: for a failed wait errors.Is
    matches the returned error with exactly the sentinels it matches the
    cause with (the timeout of the wait among them), for a failed port patch
    it matches with none. *)
Theorem CreateMachine_error_chain ex (machineName : string) (userData : list Byte.byte) st
    (serverNetworks : list servers.Network) (st1 : W * list Call)
    (server : servers.Server) (st2 : W * list Call) :
  computeServerNetworks ex machineName st = (Ok serverNetworks, st1) →
  deployServer ex machineName userData serverNetworks st1 = (Ok server, st2) →
  (∀ (cause : error) (st3 st4 : W * list Call),
     waitForStatus ex (servers.ID server) [client.ServerStatusBuild]
       [client.ServerStatusActive] 600 st2 = (Some cause, st3) →
     DeleteMachine ex machineName
       (EncodeProviderID (api.Region (Config ex)) (servers.ID server)) st3 = (None, st4) →
     ∃ e : error,
       CreateMachine ex machineName userData st = (Err e, st4)
       ∧ ∀ s : sentinel, errors_Is e (Sentinel s) = errors_Is cause (Sentinel s))
  ∧ (∀ (cause : error) (st' st3 st4 : W * list Call),
       waitForStatus ex (servers.ID server) [client.ServerStatusBuild]
         [client.ServerStatusActive] 600 st2 = (None, st') →
       patchServerPortsForPodNetwork ex (servers.ID server) st' = (Some cause, st3) →
       DeleteMachine ex machineName
         (EncodeProviderID (api.Region (Config ex)) (servers.ID server)) st3 = (None, st4) →
       ∃ e : error,
         CreateMachine ex machineName userData st = (Err e, st4)
         ∧ ∀ s : sentinel, errors_Is e (Sentinel s) = false).
Proof.
  intros Hnets Hdeploy. split.
  - intros cause st3 st4 Hwait Hdelete. eexists. split.
    + rewrite (CreateMachine_fails_with ex machineName userData st serverNetworks st1
                 server st2 _ st3 Hnets Hdeploy
                 (or_introl (ex_intro _ cause (conj Hwait eq_refl)))).
      rewrite deleteOnFail_unfold, Hdelete. reflexivity.
    + intros s. reflexivity.
  - intros cause st' st3 st4 Hwait Hpatch Hdelete. eexists. split.
    + rewrite (CreateMachine_fails_with ex machineName userData st serverNetworks st1
                 server st2 _ st3 Hnets Hdeploy
                 (or_intror (ex_intro _ cause (ex_intro _ st'
                    (conj Hwait (conj Hpatch eq_refl)))))).
      rewrite deleteOnFail_unfold, Hdelete. reflexivity.
    + intros s. reflexivity.
Qed.

(** X20. The rollback of CreateMachine deletes nothing when the lookup of
    the created server by its identifier ends in ErrNotFound (the server is
    gone, or its metadata lacks a tag key): CreateMachine then returns the
    original error alone and leaves the state as that lookup left it. *)
Theorem CreateMachine_rollback_without_delete ex (machineName : string)
    (userData : list Byte.byte) st (serverNetworks : list servers.Network)
    (st1 : W * list Call) (server : servers.Server) (st2 : W * list Call)
    (original : error) (st3 : W * list Call) (e : error) (st4 : W * list Call) :
  computeServerNetworks ex machineName st = (Ok serverNetworks, st1) →
  deployServer ex machineName userData serverNetworks st1 = (Ok server, st2) →
  failsAfterSubmit ex server st2 original st3 →
  locate ex machineName (EncodeProviderID (api.Region (Config ex)) (servers.ID server)) st3
    = (Err e, st4) →
  errors_Is e ErrNotFound = true →
  CreateMachine ex machineName userData st = (Err original, st4).
Proof.
  intros Hnets Hdeploy Hfail Hlocate Hnf.
  rewrite (CreateMachine_fails_with ex machineName userData st serverNetworks st1
             server st2 original st3 Hnets Hdeploy Hfail).
  rewrite deleteOnFail_unfold, DeleteMachine_unfold. unfold bind.
  rewrite Hlocate, Hnf. reflexivity.
Qed.
End LifecycleRuns.

(** ** The search for the tag keys *)

Section TagSearch.
Context `{Utils}.

(** X21. The search for the tag keys keeps the last match it visits: a tag
    name with the cluster prefix that is visited last is the cluster key
    whatever came before, and a name visited last that has the role prefix
    but not the cluster prefix is the role key.  A name with both prefixes
    counts for the cluster only. *)
Theorem searchTags_last_match_wins (tags : list (string * string)) (key value : string) :
  (strings_Contains key ServerTagClusterPrefix = true →
     searchTags (tags ++ [(key, value)]) = (key, (searchTags tags).2))
  ∧ (strings_Contains key ServerTagClusterPrefix = false →
     strings_Contains key ServerTagRolePrefix = true →
     searchTags (tags ++ [(key, value)]) = ((searchTags tags).1, key)).
Proof.
  unfold searchTags. rewrite fold_left_app. simpl.
  generalize (fold_left tagStep tags ("", "")) as acc. intros acc.
  unfold tagStep. simpl. split.
  - intros Hc. rewrite Hc. reflexivity.
  - intros Hc Hr. rewrite Hc, Hr. reflexivity.
Qed.
End TagSearch.

(** ** The further properties on the scripted cloud *)

Lemma waitForStatus_reaches_target_witness :
  waitForStatus (fake.executor fake.config) "id-1" [client.ServerStatusBuild]
    [client.ServerStatusActive] 600
    (fake.cloudWith [Ok (fake.machine "BUILD"); Ok (fake.machine "BUILD");
                     Ok (fake.machine "BUILD"); Ok (fake.machine "BUILD");
                     Ok (fake.machine "ACTIVE")] [] [] fake.quota, [])
  = (None, (fake.cloud, [] ++ repeat (CallGetServer "id-1") 5)).
Proof.
  apply (waitForStatus_reaches_target (fake.executor fake.config) "id-1"
           [client.ServerStatusBuild] [client.ServerStatusActive] 600 (_, [])
           [fake.machine "BUILD"; fake.machine "BUILD"; fake.machine "BUILD";
            fake.machine "BUILD"] (fake.machine "ACTIVE") fake.cloud).
  - simpl. repeat (eexists; split; [reflexivity|]). reflexivity.
  - repeat constructor.
  - reflexivity.
  - simpl. lia.
Defined.


Lemma missing_tag_keys_fail_before_any_request_witness :
  ∃ e : error,
    errors_Is e ErrNotFound = false
    ∧ getMachineByName (H:=plainUtils) (fake.executor scene.untagged) "machine-0"
        (fake.cloud, []) = (Err e, (fake.cloud, []))
    ∧ GetMachineStatus (H:=plainUtils) (fake.executor scene.untagged) "machine-0"
        (fake.cloud, []) = (Err e, (fake.cloud, []))
    ∧ (isEmptyString (Utils:=plainUtils) (Some "") = true →
       DeleteMachine (H:=plainUtils) (fake.executor scene.untagged) "machine-0" ""
         (fake.cloud, []) = (Some e, (fake.cloud, [])))
    ∧ ListMachines (H:=plainUtils) (fake.executor scene.untagged) (fake.cloud, [])
      = (Err (Errorf [Lit "operation can not proceed: cluster/role tags are missing"]),
         (fake.cloud, [])).
Proof.
  apply (missing_tag_keys_fail_before_any_request (H:=plainUtils)
           (fake.executor scene.untagged) "machine-0" "" (fake.cloud, [])).
  left. reflexivity.
Defined.

Lemma ListMachines_entries_witness :
  ∃ result : gmap string string,
    ListMachines (H:=plainUtils) (fake.executor fake.config)
      (fake.cloudWith [] [fake.machine "ACTIVE"; scene.foreign] [] fake.quota, [])
    = (Ok result,
       (fake.cloudWith [] [fake.machine "ACTIVE"; scene.foreign] [] fake.quota,
        [CallListServers {| servers.ListOpts_Name := "" |}]))
    ∧ is_Some (result !! "openstack:///eu-de-1/id-1")
    ∧ result !! "openstack:///eu-de-1/id-9" = None.
Proof.
  destruct (ListMachines_entries (H:=plainUtils) (fake.executor fake.config)
              (fake.cloudWith [] [fake.machine "ACTIVE"; scene.foreign] [] fake.quota, [])
              [fake.machine "ACTIVE"; scene.foreign] _
              ltac:(vm_compute; discriminate) ltac:(vm_compute; discriminate) eq_refl)
    as (result & Hrun & Hmember & Hentry).
  exists result. split; [exact Hrun|]. split.
  - apply (Hmember (fake.machine "ACTIVE")); [left; reflexivity|reflexivity].
  - destruct (result !! "openstack:///eu-de-1/id-9") as [name|] eqn:Hlook; [|reflexivity].
    exfalso. destruct (Hentry _ _ Hlook) as (s & [<-|[<-|[]]] & Howned & Hkey & _);
      [discriminate Hkey|discriminate Howned].
Defined.

Lemma verifyServerPortsForPodNetwork_checks_every_port_witness :
  ∃ (before : list ports.Port) (port : ports.Port) (after : list ports.Port),
    [scene.patchedPort; fake.portOn "p2" "net-1"] = before ++ port :: after
    ∧ carriesCidr "100.96.0.0/11" port = false
    ∧ ports.ID port = "p2".
Proof.
  destruct (verifyServerPortsForPodNetwork_checks_every_port (H:=plainUtils)
              (fake.executor scene.networkConfig) "id-1"
              (fake.cloudWith [] [] [scene.patchedPort; fake.portOn "p2" "net-1"]
                 fake.quota, [])
              [scene.patchedPort; fake.portOn "p2" "net-1"] _ eq_refl)
    as (_ & _ & Hnames).
  destruct (Hnames _ eq_refl) as (before & port & after & Hsplit & _ & Hnot & Herr).
  exists before, port, after. split; [exact Hsplit|]. split; [exact Hnot|].
  injection Herr as Hid. symmetry. exact Hid.
Defined.

Lemma GetMachineStatus_succeeds_iff_witness :
  GetMachineStatus (H:=plainUtils) (fake.executor scene.networkConfig) "machine-0"
    (fake.cloudWith [] [fake.machine "ACTIVE"] [scene.patchedPort] fake.quota, [])
  = (Ok "openstack:///eu-de-1/id-1",
     (fake.cloudWith [] [fake.machine "ACTIVE"] [scene.patchedPort] fake.quota,
      [CallListServers {| servers.ListOpts_Name := "machine-0" |};
       CallListPorts {| ports.DeviceID := "id-1" |}])).
Proof.
  apply (proj2 (GetMachineStatus_succeeds_iff (H:=plainUtils)
                  (fake.executor scene.networkConfig) "machine-0" _ _ _)).
  exists (fake.machine "ACTIVE"),
    (fake.cloudWith [] [fake.machine "ACTIVE"] [scene.patchedPort] fake.quota,
     [CallListServers {| servers.ListOpts_Name := "machine-0" |}]),
    [scene.patchedPort].
  split; [reflexivity|]. split; [vm_compute; reflexivity|].
  split; [repeat constructor|reflexivity].
Defined.

Lemma patchServerPortsForPodNetwork_updates_in_order_witness :
  ∃ k : nat,
    (k ≤ 2)%nat
    ∧ (patchServerPortsForPodNetwork (H:=plainUtils) (fake.executor scene.networkConfig)
         "id-1"
         (fake.cloudWith [] [] [fake.portOn "p1" "net-1"; fake.portOn "p2" "net-1"]
            fake.quota, [])).2.2
      = [CallListPorts {| ports.DeviceID := "id-1" |}]
        ++ map (λ port, CallUpdatePort (ports.ID port)
                          (podNetworkUpdate (fake.executor scene.networkConfig)))
             (take k [fake.portOn "p1" "net-1"; fake.portOn "p2" "net-1"])
    ∧ k = 2%nat.
Proof.
  destruct (patchServerPortsForPodNetwork_updates_in_order (H:=plainUtils)
              (fake.executor scene.networkConfig) "id-1"
              (fake.cloudWith [] [] [fake.portOn "p1" "net-1"; fake.portOn "p2" "net-1"]
                 fake.quota, [])
              [fake.portOn "p1" "net-1"; fake.portOn "p2" "net-1"] _
              ltac:(vm_compute; reflexivity))
    as (k & Hk & Htrace & Hall & _).
  exists k. split; [exact Hk|]. split; [exact Htrace|]. apply Hall. reflexivity.
Defined.

Lemma deployServer_submission_witness :
  ∃ opts : CreateOptsBuilder,
    deployServer (fake.executor fake.config) "machine-0" [] []
      (scene.healthy, [])
    = (Ok (fake.machine "BUILD"),
       (scene.healthy, [CallFlavorIDFromName "flavor"; CallCreateServer opts]))
    ∧ keyNameOf opts = Some "key"
    ∧ groupOf opts = None
    ∧ blockDevicesOf opts = None.
Proof.
  destruct (deployServer_submission (fake.executor fake.config) "machine-0"
              [] [] (scene.healthy, []) "image-id" (scene.healthy, []) "flavor-id"
              scene.healthy (conj eq_refl eq_refl) eq_refl)
    as (opts & Hrun & _ & Hkey & Hgroup & Hblock).
  exists opts. split; [exact Hrun|]. split; [exact Hkey|]. split; [exact Hgroup|exact Hblock].
Defined.

Lemma deployServer_resolution_failure_witness :
  deployServer (fake.executor fake.config) "machine-0" [] []
    (scene.stubborn [], [])
  = (Err (Errorf [Lit "error resolving flavor ID from flavor name "; VerbQ "image";
                  Lit ": "; VerbV fake.notFound]),
     (scene.stubborn [], [CallFlavorIDFromName "flavor"])).
Proof.
  apply (proj2 (deployServer_resolution_failure (fake.executor fake.config)
                  "machine-0" [] [] (scene.stubborn [], []))
           "image-id" (scene.stubborn [], []) fake.notFound (scene.stubborn [])
           (conj eq_refl eq_refl) eq_refl).
Defined.

Lemma computeServerNetworks_follows_network_list_witness :
  computeServerNetworks (H:=plainUtils) (fake.executor fake.podConfig) "machine-0"
    (fake.cloud, [])
  = (Ok [{| servers.UUID := "net-1"; servers.Port := "" |};
         {| servers.UUID := "net-2"; servers.Port := "" |};
         {| servers.UUID := "net-a-id"; servers.Port := "" |}],
     (fake.cloud, [CallNetworkIDFromName "net-a"])).
Proof.
  apply (computeServerNetworks_follows_network_list (H:=plainUtils)
           (fake.executor fake.podConfig) "machine-0" (fake.cloud, [])
           ["net-1"; "net-2"; "net-a-id"] fake.cloud eq_refl).
  simpl. split; [reflexivity|]. split; [reflexivity|]. eexists; split; reflexivity.
Defined.

Lemma computeServerNetworks_stops_at_unresolved_network_witness :
  computeServerNetworks (H:=plainUtils) (fake.executor scene.brokenList) "machine-0"
    (fake.cloud, [])
  = (Err fake.notFound, (fake.cloud, [CallNetworkIDFromName "missing"])).
Proof.
  apply (computeServerNetworks_stops_at_unresolved_network (H:=plainUtils)
           (fake.executor scene.brokenList) "machine-0" (fake.cloud, [])
           [{| api.Id := "net-1"; api.Name := ""; api.PodNetwork := true |}]
           {| api.Id := ""; api.Name := "missing"; api.PodNetwork := false |}
           [{| api.Id := ""; api.Name := "net-a"; api.PodNetwork := false |}]
           ["net-1"] fake.cloud fake.notFound fake.cloud eq_refl eq_refl).
  - simpl. split; reflexivity.
  - reflexivity.
  - reflexivity.
Defined.

Lemma CreateMachine_succeeds_iff_witness :
  CreateMachine (H:=plainUtils) (fake.executor scene.networkConfig) "machine-0" []
    (scene.healthy, [])
  = (Ok "openstack:///eu-de-1/id-1",
     (CreateMachine (H:=plainUtils) (fake.executor scene.networkConfig) "machine-0" []
        (scene.healthy, [])).2).
Proof.
  apply (proj2 (CreateMachine_succeeds_iff (H:=plainUtils)
                  (fake.executor scene.networkConfig) "machine-0" [] (scene.healthy, [])
                  "openstack:///eu-de-1/id-1" _)).
  exists [{| servers.UUID := "net-1"; servers.Port := "" |}], (scene.healthy, []),
    (fake.machine "BUILD"),
    (deployServer (fake.executor scene.networkConfig) "machine-0" []
       [{| servers.UUID := "net-1"; servers.Port := "" |}] (scene.healthy, [])).2,
    (waitForStatus (fake.executor scene.networkConfig) "id-1" [client.ServerStatusBuild]
       [client.ServerStatusActive] 600
       (deployServer (fake.executor scene.networkConfig) "machine-0" []
          [{| servers.UUID := "net-1"; servers.Port := "" |}] (scene.healthy, [])).2).2.
  split; [reflexivity|]. split; [vm_compute; reflexivity|].
  split; [vm_compute; reflexivity|]. split; [vm_compute; reflexivity|reflexivity].
Defined.

Lemma DeleteMachine_failures_witness :
  DeleteMachine (H:=plainUtils) (fake.executor fake.config) "machine-0"
    "openstack:///eu-de-1/id-1" (scene.stubborn [Ok (fake.machine "ACTIVE")], [])
  = (Some (ClientError false "conflict"),
     (scene.stubborn [], [CallGetServer "id-1"] ++ [CallDeleteServer "id-1"])).
Proof.
  apply (proj1 (proj2 (DeleteMachine_failures (H:=plainUtils) (fake.executor fake.config)
                         "machine-0" "openstack:///eu-de-1/id-1"
                         (scene.stubborn [Ok (fake.machine "ACTIVE")], [])))
           (fake.machine "ACTIVE") (scene.stubborn [], [CallGetServer "id-1"])
           (ClientError false "conflict") (scene.stubborn []) eq_refl eq_refl).
Defined.

Lemma CreateMachine_error_chain_witness :
  ∃ e : error,
    (CreateMachine (H:=plainUtils) (fake.executor fake.config) "machine-0" []
       (scene.vanishing, [])).1 = Err e
    ∧ errors_Is e ErrWaitTimeout = false
    ∧ errors_Is e ErrNotFound = false.
Proof.
  destruct (proj1 (CreateMachine_error_chain (H:=plainUtils) (fake.executor fake.config)
                     "machine-0" [] (scene.vanishing, []) _ _ _ _ eq_refl eq_refl)
              _ _ _ eq_refl eq_refl)
    as (e & Hrun & Hchain).
  exists e. split; [rewrite Hrun; reflexivity|].
  split; [exact (Hchain WaitTimeout)|exact (Hchain NotFound)].
Defined.

Lemma CreateMachine_rollback_without_delete_witness :
  (CreateMachine (H:=plainUtils) (fake.executor fake.config) "machine-0" []
     (scene.vanishing, [])).1
  = Err fake.waitFailure
  ∧ countIn isDeleteServer
      (CreateMachine (H:=plainUtils) (fake.executor fake.config) "machine-0" []
         (scene.vanishing, [])).2.2 = 0%nat.
Proof.
  pose proof (CreateMachine_rollback_without_delete (H:=plainUtils)
                (fake.executor fake.config) "machine-0" [] (scene.vanishing, [])
                _ _ _ _ fake.waitFailure _ _ _ eq_refl eq_refl
                (or_introl (ex_intro _ _ (conj eq_refl eq_refl))) eq_refl eq_refl) as Hrun.
  rewrite Hrun. split; reflexivity.
Defined.

Lemma searchTags_last_match_wins_witness :
  searchTags (H:=plainUtils)
    ([("kubernetes.io-cluster-old", "1"); ("kubernetes.io-role-node", "1")]
     ++ [("kubernetes.io-cluster-new", "1")])
  = ("kubernetes.io-cluster-new", "kubernetes.io-role-node").
Proof.
  apply (proj1 (searchTags_last_match_wins (H:=plainUtils)
                  [("kubernetes.io-cluster-old", "1"); ("kubernetes.io-role-node", "1")]
                  "kubernetes.io-cluster-new" "1")).
  reflexivity.
Defined.

(** ** Foreign servers and left-over ports *)

Section Leftovers.
Context {W : Type} `{Utils}.
Implicit Types (ex : Executor W) (st : W * list Call).

(** X22. DeleteMachine with the identifier of a server that exists but
    lacks an ownership tag key in its metadata reports success after the one
    GetServer query: the server is treated as absent and is not deleted. *)
Theorem DeleteMachine_spares_foreign_server ex (machineName providerID : string) st
    (server : servers.Server) (w' : W) :
  isEmptyString (Some providerID) = false →
  isEmptyString (Some (DecodeProviderID providerID)) = false →
  client.GetServer (Compute ex) (DecodeProviderID providerID) st.1 = (Ok server, w') →
  hasOwnershipTags (searchTags (api.Tags (Config ex))) server = false →
  DeleteMachine ex machineName providerID st
  = (None, (w', st.2 ++ [CallGetServer (DecodeProviderID providerID)])).
Proof.
  intros Hid Hdec Hget Hforeign.
  rewrite DeleteMachine_unfold. unfold bind at 1. unfold locate. rewrite Hid.
  unfold getMachineByProviderID. rewrite Hdec. unfold bind, request. rewrite Hget.
  rewrite fold_tags_searchTags.
  rewrite <- (metadata_test (searchTags (api.Tags (Config ex))) server) in Hforeign.
  destruct (searchTags (api.Tags (Config ex))) as [c r]. simpl in Hforeign |- *.
  destruct (servers.Metadata server !! c) as [v1|];
    [destruct (servers.Metadata server !! r) as [v2|]|];
    try discriminate Hforeign; reflexivity.
Qed.

(** X23. When the deployment fails, CreateMachine returns the wrapped
    deployment error at once, without rollback: after the network stage it
    has issued no DeletePort and no DeleteServer request, so a port that the
    network stage created for the machine is left in place. *)
Theorem CreateMachine_deploy_failure_leaves_port ex (machineName : string)
    (userData : list Byte.byte) st (serverNetworks : list servers.Network)
    (st1 : W * list Call) (e : error) (st2 : W * list Call) :
  computeServerNetworks ex machineName st = (Ok serverNetworks, st1) →
  deployServer ex machineName userData serverNetworks st1 = (Err e, st2) →
  CreateMachine ex machineName userData st
  = (Err (Errorf [Lit "failed to deploy server for machine "; VerbQ machineName; Lit ": ";
                  VerbW e]), st2)
  ∧ ∃ delta, st2.2 = st.2 ++ delta
             ∧ countIn isDeletePort delta = 0%nat
             ∧ countIn isDeleteServer delta = 0%nat.
Proof.
  intros Hnets Hdeploy. split.
  - unfold CreateMachine. unfold bind at 1. rewrite Hnets.
    unfold bind. rewrite Hdeploy. reflexivity.
  - destruct (computeServerNetworks_only ex machineName st) as (d1 & E1 & H1).
    destruct (deployServer_only ex machineName userData serverNetworks st1)
      as (d2 & E2 & H2).
    rewrite Hnets in E1. rewrite Hdeploy in E2. simpl in E1, E2.
    exists (d1 ++ d2). split; [rewrite E2, E1, app_assoc; reflexivity|].
    rewrite !countIn_app.
    rewrite (countIn_none isDeletePort (λ c, readOnly c || isCreatePort c) d1
               ltac:(intros c Hc; destruct c; simpl in Hc |- *; try discriminate Hc;
                     reflexivity) H1).
    rewrite (countIn_none isDeletePort (λ c, readOnly c || isCreateServer c) d2
               ltac:(intros c Hc; destruct c; simpl in Hc |- *; try discriminate Hc;
                     reflexivity) H2).
    rewrite (countIn_none isDeleteServer (λ c, readOnly c || isCreatePort c) d1
               ltac:(intros c Hc; destruct c; simpl in Hc |- *; try discriminate Hc;
                     reflexivity) H1).
    rewrite (countIn_none isDeleteServer (λ c, readOnly c || isCreateServer c) d2
               ltac:(intros c Hc; destruct c; simpl in Hc |- *; try discriminate Hc;
                     reflexivity) H2).
    split; reflexivity.
Qed.
End Leftovers.

Lemma DeleteMachine_spares_foreign_server_witness :
  DeleteMachine (H:=plainUtils) (fake.executor fake.config) "other"
    "openstack:///eu-de-1/id-9" (fake.cloudWith [Ok scene.foreign] [] [] fake.quota, [])
  = (None, (fake.cloud, [] ++ [CallGetServer "id-9"])).
Proof.
  apply (DeleteMachine_spares_foreign_server (H:=plainUtils) (fake.executor fake.config)
           "other" "openstack:///eu-de-1/id-9"
           (fake.cloudWith [Ok scene.foreign] [] [] fake.quota, []) scene.foreign fake.cloud);
    reflexivity.
Defined.

Lemma CreateMachine_deploy_failure_leaves_port_witness :
  (CreateMachine (H:=plainUtils) (fake.executor fake.subnetConfig) "machine-0" []
     (fake.cloud, [])).1
  = Err (Errorf [Lit "failed to deploy server for machine "; VerbQ "machine-0"; Lit ": ";
                 VerbW (ClientError false "quota exceeded")])
  ∧ countIn isCreatePort
      (CreateMachine (H:=plainUtils) (fake.executor fake.subnetConfig) "machine-0" []
         (fake.cloud, [])).2.2 = 1%nat
  ∧ countIn isDeletePort
      (CreateMachine (H:=plainUtils) (fake.executor fake.subnetConfig) "machine-0" []
         (fake.cloud, [])).2.2 = 0%nat.
Proof.
  destruct (CreateMachine_deploy_failure_leaves_port (H:=plainUtils)
              (fake.executor fake.subnetConfig) "machine-0" [] (fake.cloud, [])
              [{| servers.UUID := "net-1"; servers.Port := "port-of-machine-0" |}]
              (computeServerNetworks (H:=plainUtils) (fake.executor fake.subnetConfig)
                 "machine-0" (fake.cloud, [])).2
              (ClientError false "quota exceeded")
              (deployServer (fake.executor fake.subnetConfig) "machine-0" []
                 [{| servers.UUID := "net-1"; servers.Port := "port-of-machine-0" |}]
                 (computeServerNetworks (H:=plainUtils) (fake.executor fake.subnetConfig)
                    "machine-0" (fake.cloud, [])).2).2
              ltac:(vm_compute; reflexivity) ltac:(vm_compute; reflexivity))
    as (Hrun & _).
  rewrite Hrun. repeat split.
Defined.
